(** * Regional bank streaming ETL: windowed aggregation and alerting

    A shallow embedding of [pipelines/streaming_etl.py].  The program is a
    set of declarative streaming queries; every DataFrame operator it calls
    is given here as a function on rows, with the meaning the engine
    documents for it:

    - a column value is [option A], [None] being SQL's NULL ([from_json]
      makes every field of the schema nullable);
    - a [DoubleType] value is an IEEE 754 binary64 number ([spec_float]
      with 53 bits of precision);
    - a [TimestampType] value is a number of microseconds since the epoch;
    - a streaming DataFrame is consumed in micro-batches, lists of rows;
    - the state of a windowed aggregation is a finite map from group key
      to aggregation buffer.

    Columns that no modelled query reads ([transaction_hash], [year],
    [month], [day]) are left out of the rows; which columns a frame has,
    and whether a writer can start its query on it, is followed by name
    in [Plan]. *)

From Stdlib Require Import ZArith Bool Ascii String SpecFloat Lia Permutation.
From stdpp Require Import gmap strings list fin_maps.

Open Scope Z_scope.

(** ** DoubleType *)

Module Double.

Definition prec : Z := 53.
Definition emax : Z := 1024.

Definition double : Type := spec_float.

(** An integer literal used where a double is expected is cast. *)
Definition of_Z (n : Z) : double := binary_normalize prec emax n 0 false.

Definition add : double -> double -> double := SFadd prec emax.
Definition div : double -> double -> double := SFdiv prec emax.

(** The ordering SQL uses on doubles: IEEE comparison, with NaN equal to
    itself and larger than every other value. *)
Definition compare (x y : double) : comparison :=
  match SFcompare x y with
  | Some c => c
  | None =>
      match x, y with
      | S754_nan, S754_nan => Eq
      | S754_nan, _ => Gt
      | _, _ => Lt
      end
  end.

Definition ltb (x y : double) : bool :=
  match compare x y with Lt => true | _ => false end.

Definition gtb (x y : double) : bool := ltb y x.

(** The double nearest to the decimal [n / 10^k] (a JSON number with [k]
    decimals). *)
Definition of_decimal (n : Z) (k : nat) : double :=
  div (of_Z n) (of_Z (10 ^ Z.of_nat k)).

End Double.

Abbreviation double := Double.double.

(** ** SQL expressions: three-valued logic *)

Definition sql_or (a b : option bool) : option bool :=
  match a, b with
  | Some true, _ | _, Some true => Some true
  | Some false, Some false => Some false
  | _, _ => None
  end.

Infix "|||" := sql_or (at level 50, left associativity).

(** [col == lit] on strings, [col == True] on flags. *)
Definition sql_eq_str (c : option string) (lit : string) : option bool :=
  (fun s => bool_decide (s = lit)) <$> c.

Definition sql_eq_bool (c : option bool) (lit : bool) : option bool :=
  (fun b => Bool.eqb b lit) <$> c.

(** [col > lit] and [col < lit] on a double column and an integer literal. *)
Definition sql_gt (c : option double) (lit : Z) : option bool :=
  (fun x => Double.gtb x (Double.of_Z lit)) <$> c.

Definition sql_lt (c : option double) (lit : Z) : option bool :=
  (fun x => Double.ltb x (Double.of_Z lit)) <$> c.

(** [col.isNull()] is never NULL itself. *)
Definition sql_is_null {A} (c : option A) : option bool :=
  Some (match c with None => true | Some _ => false end).

(** A [filter] keeps a row, and a [when] branch fires, only when the
    condition is TRUE: NULL counts as not satisfied. *)
Definition holds (c : option bool) : bool :=
  match c with Some true => true | _ => false end.

(** ** String functions: [trim] and [upper] *)

Definition space : ascii := " "%char.

Definition is_space (c : ascii) : bool := bool_decide (c = space).

(** [trim] removes the space characters (U+0020) from both ends. *)
Fixpoint ltrim (s : string) : string :=
  match s with
  | String c s' => if is_space c then ltrim s' else s
  | EmptyString => EmptyString
  end.

Fixpoint rtrim (s : string) : string :=
  match s with
  | EmptyString => EmptyString
  | String c s' =>
      match rtrim s' with
      | EmptyString => if is_space c then EmptyString else String c EmptyString
      | r => String c r
      end
  end.

Definition trim (s : string) : string := rtrim (ltrim s).

Definition is_lower (c : ascii) : bool :=
  let n := nat_of_ascii c in (97 <=? n)%nat && (n <=? 122)%nat.

Definition upper_char (c : ascii) : ascii :=
  if is_lower c then ascii_of_nat (nat_of_ascii c - 32) else c.

Fixpoint upper (s : string) : string :=
  match s with
  | EmptyString => EmptyString
  | String c s' => String (upper_char c) (upper s')
  end.

(** [upper(trim(col))]: NULL stays NULL. *)
Definition normalize_code (c : option string) : option string :=
  (fun s => upper (trim s)) <$> c.

(** ** Configuration ([RegionalBankStreamingETL.__init__]) *)

Definition timestamp : Type := Z.

Definition seconds (n : Z) : Z := n * 1000000.
Definition minutes (n : Z) : Z := seconds (60 * n).

(** [self.watermark_delay = "10 minutes"] *)
Definition watermark_delay : Z := minutes 10.

(** [window(..., "5 minutes", "1 minute")] *)
Definition window_duration : Z := minutes 5.
Definition slide_duration : Z := minutes 1.

(** [self.alert_thresholds]; its fourth entry, [failed_transaction_rate],
    is a ratio that no query reads. *)
Record AlertThresholds := {
  high_value_transaction : Z;
  suspicious_frequency : Z;
  large_remittance : Z
}.

Definition alert_thresholds : AlertThresholds := {|
  high_value_transaction := 100000;
  suspicious_frequency := 10;
  large_remittance := 50000
|}.

(** ** Reading the stream: [from_json] against a schema

    A Kinesis record carries a JSON text.  Seen through a schema, each
    field of the text is absent (or JSON null), present with a value that
    does not convert to the field's type, or present with a value that
    does.  [from_json] is permissive: it turns the first two into NULL and
    never fails; a text that is no JSON object at all gives the row of
    NULLs.  [read_kinesis_stream] selects the parsed columns and filters
    nothing. *)

Inductive json_field (A : Type) : Type :=
| Absent
| Unparsable
| Parsed (v : A).

Arguments Absent {A}.
Arguments Unparsable {A}.
Arguments Parsed {A} v.

Definition field_value {A} (f : json_field A) : option A :=
  match f with
  | Parsed v => Some v
  | Absent | Unparsable => None
  end.

(** ** Transactions *)

Module Txn.

(** [get_transaction_schema], one record field per [StructField]; [F] is
    [json_field] for a raw record and [option] for a DataFrame row. *)
Record Row (F : Type -> Type) : Type := {
  transaction_id : F string;
  country_code : F string;
  loan_id : F string;
  transaction_type : F string;
  amount : F double;
  currency : F string;
  transaction_date : F timestamp;
  beneficiary_id : F string;
  sector : F string;
  status : F string;
  source : F string;
  processing_timestamp : F timestamp
}.

Arguments transaction_id {F} _.
Arguments country_code {F} _.
Arguments loan_id {F} _.
Arguments transaction_type {F} _.
Arguments amount {F} _.
Arguments currency {F} _.
Arguments transaction_date {F} _.
Arguments beneficiary_id {F} _.
Arguments sector {F} _.
Arguments status {F} _.
Arguments source {F} _.
Arguments processing_timestamp {F} _.

(** The fields the schema declares with [nullable=False]. *)
Definition non_nullable : list string :=
  ["transaction_id"; "country_code"; "transaction_type"; "amount";
   "currency"; "transaction_date"]%string.

Definition null_row : Row option := {|
  transaction_id := None; country_code := None; loan_id := None;
  transaction_type := None; amount := None; currency := None;
  transaction_date := None; beneficiary_id := None; sector := None;
  status := None; source := None; processing_timestamp := None
|}.

Definition from_json (payload : option (Row json_field)) : Row option :=
  match payload with
  | None => null_row
  | Some r => {|
      transaction_id := field_value (transaction_id r);
      country_code := field_value (country_code r);
      loan_id := field_value (loan_id r);
      transaction_type := field_value (transaction_type r);
      amount := field_value (amount r);
      currency := field_value (currency r);
      transaction_date := field_value (transaction_date r);
      beneficiary_id := field_value (beneficiary_id r);
      sector := field_value (sector r);
      status := field_value (status r);
      source := field_value (source r);
      processing_timestamp := field_value (processing_timestamp r)
    |}
  end.

Definition read_kinesis_stream (records : list (option (Row json_field)))
  : list (Row option) :=
  from_json <$> records.

(** [apply_streaming_transformations(df, "transactions")]; [now] is
    [current_timestamp()]. *)
Record Transformed : Type := {
  base : Row option;
  high_value_flag : bool
}.

Definition apply_streaming_transformations (now : timestamp) (r : Row option)
  : Transformed := {|
  base := {|
    transaction_id := transaction_id r;
    country_code := normalize_code (country_code r);
    loan_id := loan_id r;
    transaction_type := normalize_code (transaction_type r);
    amount := amount r;
    currency := currency r;
    transaction_date := transaction_date r;
    beneficiary_id := beneficiary_id r;
    sector := normalize_code (sector r);
    status := status r;
    source := source r;
    processing_timestamp := Some now
  |};
  high_value_flag :=
    holds (sql_gt (amount r) (high_value_transaction alert_thresholds))
|}.

(** [create_alert_stream(df, "transactions")] *)
Record Alert : Type := {
  alert_transaction_id : option string;
  alert_country_code : option string;
  alert_amount : option double;
  alert_transaction_type : option string;
  alert_status : option string;
  alert_transaction_date : option timestamp;
  alert_type : string;
  alert_timestamp : timestamp
}.

Definition alert_filter (t : Transformed) : option bool :=
  sql_eq_bool (Some (high_value_flag t)) true
  ||| sql_eq_str (status (base t)) "FAILED"
  ||| sql_lt (amount (base t)) 0.

Definition alert_type_of (t : Transformed) : string :=
  if holds (sql_eq_bool (Some (high_value_flag t)) true)
  then "HIGH_VALUE_TRANSACTION"
  else if holds (sql_eq_str (status (base t)) "FAILED")
  then "FAILED_TRANSACTION"
  else if holds (sql_lt (amount (base t)) 0)
  then "NEGATIVE_AMOUNT"
  else "OTHER".

Definition alert_select (now : timestamp) (t : Transformed) : Alert := {|
  alert_transaction_id := transaction_id (base t);
  alert_country_code := country_code (base t);
  alert_amount := amount (base t);
  alert_transaction_type := transaction_type (base t);
  alert_status := status (base t);
  alert_transaction_date := transaction_date (base t);
  alert_type := alert_type_of t;
  alert_timestamp := now
|}.

Definition create_alert_stream (now : timestamp) (df : list Transformed)
  : list Alert :=
  alert_select now <$> filter (fun t => holds (alert_filter t)) df.

End Txn.

(** ** Remittances *)

Module Rem.

(** [get_remittance_schema] *)
Record Row (F : Type -> Type) : Type := {
  remittance_id : F string;
  sender_country : F string;
  recipient_country : F string;
  amount : F double;
  currency : F string;
  exchange_rate : F double;
  fees : F double;
  transaction_date : F timestamp;
  sender_id : F string;
  recipient_id : F string;
  status : F string;
  processing_timestamp : F timestamp
}.

Arguments remittance_id {F} _.
Arguments sender_country {F} _.
Arguments recipient_country {F} _.
Arguments amount {F} _.
Arguments currency {F} _.
Arguments exchange_rate {F} _.
Arguments fees {F} _.
Arguments transaction_date {F} _.
Arguments sender_id {F} _.
Arguments recipient_id {F} _.
Arguments status {F} _.
Arguments processing_timestamp {F} _.

Definition non_nullable : list string :=
  ["remittance_id"; "sender_country"; "recipient_country"; "amount";
   "currency"; "transaction_date"]%string.

Definition null_row : Row option := {|
  remittance_id := None; sender_country := None; recipient_country := None;
  amount := None; currency := None; exchange_rate := None; fees := None;
  transaction_date := None; sender_id := None; recipient_id := None;
  status := None; processing_timestamp := None
|}.

Definition from_json (payload : option (Row json_field)) : Row option :=
  match payload with
  | None => null_row
  | Some r => {|
      remittance_id := field_value (remittance_id r);
      sender_country := field_value (sender_country r);
      recipient_country := field_value (recipient_country r);
      amount := field_value (amount r);
      currency := field_value (currency r);
      exchange_rate := field_value (exchange_rate r);
      fees := field_value (fees r);
      transaction_date := field_value (transaction_date r);
      sender_id := field_value (sender_id r);
      recipient_id := field_value (recipient_id r);
      status := field_value (status r);
      processing_timestamp := field_value (processing_timestamp r)
    |}
  end.

Definition read_kinesis_stream (records : list (option (Row json_field)))
  : list (Row option) :=
  from_json <$> records.

(** [apply_streaming_transformations(df, "remittances")] *)
Record Transformed : Type := {
  base : Row option;
  large_remittance_flag : bool;
  total_amount : option double
}.

Definition apply_streaming_transformations (now : timestamp) (r : Row option)
  : Transformed := {|
  base := {|
    remittance_id := remittance_id r;
    sender_country := normalize_code (sender_country r);
    recipient_country := normalize_code (recipient_country r);
    amount := amount r;
    currency := currency r;
    exchange_rate := exchange_rate r;
    fees := fees r;
    transaction_date := transaction_date r;
    sender_id := sender_id r;
    recipient_id := recipient_id r;
    status := status r;
    processing_timestamp := Some now
  |};
  large_remittance_flag :=
    holds (sql_gt (amount r) (large_remittance alert_thresholds));
  total_amount :=
    (fun a => Double.add a (default (Double.of_Z 0) (fees r))) <$> amount r
|}.

(** [create_alert_stream(df, "remittances")] *)
Record Alert : Type := {
  alert_remittance_id : option string;
  alert_sender_country : option string;
  alert_recipient_country : option string;
  alert_amount : option double;
  alert_status : option string;
  alert_transaction_date : option timestamp;
  alert_type : string;
  alert_timestamp : timestamp
}.

Definition alert_filter (t : Transformed) : option bool :=
  sql_eq_bool (Some (large_remittance_flag t)) true
  ||| sql_eq_str (status (base t)) "FAILED"
  ||| sql_lt (amount (base t)) 0
  ||| sql_is_null (exchange_rate (base t)).

Definition alert_type_of (t : Transformed) : string :=
  if holds (sql_eq_bool (Some (large_remittance_flag t)) true)
  then "LARGE_REMITTANCE"
  else if holds (sql_eq_str (status (base t)) "FAILED")
  then "FAILED_REMITTANCE"
  else if holds (sql_lt (amount (base t)) 0)
  then "NEGATIVE_AMOUNT"
  else if holds (sql_is_null (exchange_rate (base t)))
  then "MISSING_EXCHANGE_RATE"
  else "OTHER".

Definition alert_select (now : timestamp) (t : Transformed) : Alert := {|
  alert_remittance_id := remittance_id (base t);
  alert_sender_country := sender_country (base t);
  alert_recipient_country := recipient_country (base t);
  alert_amount := amount (base t);
  alert_status := status (base t);
  alert_transaction_date := transaction_date (base t);
  alert_type := alert_type_of t;
  alert_timestamp := now
|}.

Definition create_alert_stream (now : timestamp) (df : list Transformed)
  : list Alert :=
  alert_select now <$> filter (fun t => holds (alert_filter t)) df.

End Rem.

(** ** Sliding windows: [window(timeColumn, windowDuration, slideDuration)]

    A window is the struct [(start, end)].  Window starts are the multiples
    of the slide since the epoch; a row is replicated once for each of the
    [ceil(L / S)] candidate windows ending after its last aligned start, and
    the candidates that do not contain the timestamp are filtered out.  A
    NULL timestamp belongs to no window. *)

Definition max_num_overlapping (L S : Z) : Z := (L + S - 1) / S.

Definition window_starts (ts L S : Z) : list Z :=
  let last_start := ts - ts mod S in
  (fun i => last_start - Z.of_nat i * S)
    <$> seq 0 (Z.to_nat (max_num_overlapping L S)).

Definition window (ts : option timestamp) (L S : Z) : list (Z * Z) :=
  match ts with
  | None => []
  | Some t =>
      filter (fun w => w.1 <= t < w.2)
             ((fun s => (s, s + L)) <$> window_starts t L S)
  end.

(** ** Windowed aggregation under a watermark, append output mode

    [df.withWatermark(time, delay).groupBy(window(time, L, S), keys).agg(...)]
    written with [outputMode("append")].  The engine keeps one aggregation
    buffer per group key [(window, keys)] and a watermark.  In a
    micro-batch it

    - replicates each row once per window it belongs to;
    - drops the replicas whose window has ended at or before the watermark;
    - aggregates the remaining replicas of the batch by group key, each
      key's rows folded in arrival order onto the empty buffer (the rows of
      a micro-batch are taken as one partition);
    - merges the buffer of each key of the batch into the buffer the state
      holds for that key, if any;
    - outputs, once, each key whose window has ended at or before the
      watermark, and forgets its buffer;
    - raises the watermark to the largest event time seen, cut to whole
      milliseconds, minus the delay, never lowering it; the new value is
      used from the next micro-batch on.

    The query starts with watermark 0 and no buffers.  Timestamps and the
    watermark are in microseconds. *)

Record StreamState (K B : Type) `{Countable K} : Type := {
  watermark : Z;
  store : gmap (Z * Z * K) B
}.

Arguments watermark {K B _ _} _.
Arguments store {K B _ _} _.

Definition window_end {K : Type} (k : Z * Z * K) : Z := k.1.2.

Section StatefulAggregation.
Context {R K B : Type} `{Countable K}.
Variable event_time : R -> option timestamp.
Variable group_key : R -> K.
Variable init : B.
Variable update : B -> R -> B.
Variable merge : B -> B -> B.

Definition initial_state : StreamState K B :=
  {| watermark := 0; store := ∅ |}.

Definition explode (df : list R) : list (Z * Z * K * R) :=
  df ≫= fun r =>
    (fun w => (w, group_key r, r))
      <$> window (event_time r) window_duration slide_duration.

(** One step of the aggregation of a batch by key: the row is folded into
    the buffer its key has so far in the batch, or into the empty one. *)
Definition accumulate (m : gmap (Z * Z * K) B) (x : Z * Z * K * R)
  : gmap (Z * Z * K) B :=
  <[x.1 := update (default init (m !! x.1)) x.2]> m.

(** The state after the buffers of a batch have been merged in. *)
Definition merge_into (state batch : gmap (Z * Z * K) B)
  : gmap (Z * Z * K) B :=
  union_with (fun a b => Some (merge a b)) state batch.

(** The event time the watermark sees: whole milliseconds. *)
Definition to_millis (t : timestamp) : Z := t / 1000 * 1000.

Definition advance (W : Z) (df : list R) : Z :=
  foldl (fun acc r =>
           match event_time r with
           | Some t => Z.max acc (to_millis t - watermark_delay)
           | None => acc
           end) W df.

Definition micro_batch (st : StreamState K B) (df : list R)
  : StreamState K B * list (Z * Z * K * B) :=
  let W := watermark st in
  let on_time := filter (fun x => W < window_end x.1) (explode df) in
  let m := merge_into (store st) (foldl accumulate ∅ on_time) in
  let final := filter (fun kv => window_end kv.1 <= W) m in
  let open := filter (fun kv => ~ window_end kv.1 <= W) m in
  ({| watermark := advance W df; store := open |}, map_to_list final).

(** A run of a started query: the micro-batches in order, the output of
    each appended to what the query has put out before.  Whether a query
    is started at all is for its writer to say (see [Plan]). *)
Fixpoint run (st : StreamState K B) (sink : list (Z * Z * K * B))
  (batches : list (list R)) : StreamState K B * list (Z * Z * K * B) :=
  match batches with
  | [] => (st, sink)
  | df :: rest =>
      let '(st', out) := micro_batch st df in
      run st' (sink ++ out) rest
  end.

End StatefulAggregation.

(** ** Transaction analytics: [create_real_time_analytics(df, "transactions")] *)

Module TxnAnalytics.

(** The buffers of [count("*")], [sum("amount")], [avg("amount")],
    [max("amount")] and [min("amount")]; sum, max and min skip NULL
    amounts, and the average is the sum over the number of non-NULL
    amounts. *)
Record Buffer : Type := {
  buf_count : Z;
  buf_sum : option double;
  buf_n : Z;
  buf_max : option double;
  buf_min : option double
}.

Definition init : Buffer := {|
  buf_count := 0; buf_sum := None; buf_n := 0;
  buf_max := None; buf_min := None
|}.

Definition greatest (m : option double) (x : double) : double :=
  match m with
  | Some y => if Double.ltb y x then x else y
  | None => x
  end.

Definition least (m : option double) (x : double) : double :=
  match m with
  | Some y => if Double.ltb x y then x else y
  | None => x
  end.

Definition update_amount (b : Buffer) (a : option double) : Buffer :=
  match a with
  | Some x => {|
      buf_count := buf_count b + 1;
      buf_sum := Some (Double.add (default (Double.of_Z 0) (buf_sum b)) x);
      buf_n := buf_n b + 1;
      buf_max := Some (greatest (buf_max b) x);
      buf_min := Some (least (buf_min b) x)
    |}
  | None => {|
      buf_count := buf_count b + 1;
      buf_sum := buf_sum b;
      buf_n := buf_n b;
      buf_max := buf_max b;
      buf_min := buf_min b
    |}
  end.

Definition update (b : Buffer) (t : Txn.Transformed) : Buffer :=
  update_amount b (Txn.amount (Txn.base t)).

(** Merging two buffers: counts add up, the sums add up (a NULL sum counts
    as nothing), maximum and minimum are taken over both. *)
Definition merge_sum (s s' : option double) : option double :=
  match s' with
  | Some y => Some (Double.add (default (Double.of_Z 0) s) y)
  | None => s
  end.

Definition merge (a b : Buffer) : Buffer := {|
  buf_count := buf_count a + buf_count b;
  buf_sum := merge_sum (buf_sum a) (buf_sum b);
  buf_n := buf_n a + buf_n b;
  buf_max := match buf_max b with
             | Some y => Some (greatest (buf_max a) y)
             | None => buf_max a
             end;
  buf_min := match buf_min b with
             | Some y => Some (least (buf_min a) y)
             | None => buf_min a
             end
|}.

Definition event_time (t : Txn.Transformed) : option timestamp :=
  Txn.transaction_date (Txn.base t).

Definition group_key (t : Txn.Transformed) : option string * option string :=
  (Txn.country_code (Txn.base t), Txn.transaction_type (Txn.base t)).

(** The buffer of a group holding exactly the rows [rows], folded in
    that order. *)
Definition aggregate (rows : list Txn.Transformed) : Buffer :=
  foldl update init rows.

(** A row of [analytics_df]. *)
Record Row : Type := {
  agg_window : Z * Z;
  country_code : option string;
  transaction_type : option string;
  transaction_count : Z;
  total_amount : option double;
  avg_amount : option double;
  max_amount : option double;
  min_amount : option double;
  transaction_rate_per_minute : double;
  high_frequency_flag : bool
}.

Definition analytics_row (kv : Z * Z * (option string * option string) * Buffer)
  : Row :=
  let '(w, (cc, ty), b) := kv in
  let rate := Double.div (Double.of_Z (buf_count b)) (Double.of_Z 5) in
  {|
    agg_window := w;
    country_code := cc;
    transaction_type := ty;
    transaction_count := buf_count b;
    total_amount := buf_sum b;
    avg_amount := (fun s => Double.div s (Double.of_Z (buf_n b))) <$> buf_sum b;
    max_amount := buf_max b;
    min_amount := buf_min b;
    transaction_rate_per_minute := rate;
    high_frequency_flag :=
      Double.gtb rate (Double.of_Z (suspicious_frequency alert_thresholds))
  |}.

Abbreviation State := (StreamState (option string * option string) Buffer).

Definition create_real_time_analytics (st : State) (df : list Txn.Transformed)
  : State * list Row :=
  let '(st', out) :=
    micro_batch event_time group_key init update merge st df in
  (st', analytics_row <$> out).

End TxnAnalytics.

(** ** Vocabulary used by the statements *)

(** A wall-clock time (UTC) on the [day]-th day since the epoch. *)
Definition at_clock (day h m s : Z) : timestamp :=
  seconds (day * 86400 + h * 3600 + m * 60 + s).

(** The alert rules as the design document lists them, first match wins;
    [None] is "no alert".  The rules read an amount as the number it
    stands for, not through the engine's comparisons: [Finite n e] is the
    number [n * 2 ^ e]; NaN is no number. *)
Inductive EventType : Type := Transaction | Remittance.

Inductive AlertKind : Type :=
| HIGH_VALUE
| LARGE_REMITTANCE
| FAILED_EVENT
| NEGATIVE_AMOUNT
| MISSING_EXCHANGE_RATE.

Inductive number : Type :=
| Finite (n e : Z)
| PlusInfinity
| MinusInfinity.

(** [exceeds v threshold]: the number [v] is greater than the whole number
    [threshold]. *)
Definition exceeds (v : number) (threshold : Z) : bool :=
  match v with
  | Finite n e =>
      if 0 <=? e then threshold <? n * 2 ^ e else threshold * 2 ^ (- e) <? n
  | PlusInfinity => true
  | MinusInfinity => false
  end.

Definition negative (v : number) : bool :=
  match v with
  | Finite n _ => n <? 0
  | PlusInfinity => false
  | MinusInfinity => true
  end.

Record Event : Type := {
  event_type : EventType;
  event_amount : option number;
  event_failed : bool;
  event_exchange_rate_absent : bool
}.

Definition high_value_threshold (ty : EventType) : Z :=
  match ty with
  | Transaction => high_value_transaction alert_thresholds
  | Remittance => large_remittance alert_thresholds
  end.

Definition evaluate (ev : Event) : option AlertKind :=
  if match event_amount ev with
     | Some v => exceeds v (high_value_threshold (event_type ev))
     | None => false
     end
  then Some (match event_type ev with
             | Transaction => HIGH_VALUE
             | Remittance => LARGE_REMITTANCE
             end)
  else if event_failed ev then Some FAILED_EVENT
  else if match event_amount ev with
          | Some v => negative v
          | None => false
          end
  then Some NEGATIVE_AMOUNT
  else match event_type ev with
       | Remittance =>
           if event_exchange_rate_absent ev
           then Some MISSING_EXCHANGE_RATE else None
       | Transaction => None
       end.

(** The label each query writes in [alert_type] for a kind of alert. *)
Definition alert_label (ty : EventType) (k : AlertKind) : string :=
  match k, ty with
  | HIGH_VALUE, _ => "HIGH_VALUE_TRANSACTION"
  | LARGE_REMITTANCE, _ => "LARGE_REMITTANCE"
  | FAILED_EVENT, Transaction => "FAILED_TRANSACTION"
  | FAILED_EVENT, Remittance => "FAILED_REMITTANCE"
  | NEGATIVE_AMOUNT, _ => "NEGATIVE_AMOUNT"
  | MISSING_EXCHANGE_RATE, _ => "MISSING_EXCHANGE_RATE"
  end.

(** The number a double stands for: sign, mantissa and exponent read as
    [(-1) ^ s * m * 2 ^ e]. *)
Definition number_of (x : double) : option number :=
  match x with
  | S754_zero _ => Some (Finite 0 0)
  | S754_finite s m e => Some (Finite (cond_Zopp s (Zpos m)) e)
  | S754_infinity s => Some (if s then MinusInfinity else PlusInfinity)
  | S754_nan => None
  end.

(** A column value that is NULL or a binary64 number: a well-formed double
    that is not NaN. *)
Definition numeric (a : option double) : Prop :=
  match a with
  | None => True
  | Some x => valid_binary Double.prec Double.emax x = true /\ x <> S754_nan
  end.

(** The event a row stands for. *)
Definition txn_event (r : Txn.Row option) : Event := {|
  event_type := Transaction;
  event_amount := Txn.amount r ≫= number_of;
  event_failed := bool_decide (Txn.status r = Some "FAILED"%string);
  event_exchange_rate_absent := false
|}.

Definition rem_event (r : Rem.Row option) : Event := {|
  event_type := Remittance;
  event_amount := Rem.amount r ≫= number_of;
  event_failed := bool_decide (Rem.status r = Some "FAILED"%string);
  event_exchange_rate_absent :=
    match Rem.exchange_rate r with None => true | Some _ => false end
|}.

Definition txn_rules (r : Txn.Row option) : option AlertKind :=
  evaluate (txn_event r).

Definition rem_rules (r : Rem.Row option) : option AlertKind :=
  evaluate (rem_event r).

(** Codes that differ only by letter case and by leading or trailing
    space characters.  Strings are sequences of ASCII characters. *)
Definition same_letter (a b : ascii) : Prop :=
  a = b
  \/ (is_lower a /\ b = upper_char a)
  \/ (is_lower b /\ a = upper_char b).

Inductive same_up_to_case : string -> string -> Prop :=
| same_up_to_case_nil : same_up_to_case EmptyString EmptyString
| same_up_to_case_cons (a b : ascii) (s1 s2 : string) :
    same_letter a b -> same_up_to_case s1 s2 ->
    same_up_to_case (String a s1) (String b s2).

Fixpoint all_chars (P : ascii -> bool) (s : string) : bool :=
  match s with
  | EmptyString => true
  | String c s' => P c && all_chars P s'
  end.

(** [same_code_modulo P s1 s2]: [s1] and [s2] are the same code up to
    letter case once leading and trailing characters satisfying [P] are
    set aside. *)
Definition same_code_modulo (P : ascii -> bool) (s1 s2 : string) : Prop :=
  exists p1 q1 p2 q2 c1 c2 : string,
    all_chars P p1 /\ all_chars P q1 /\ all_chars P p2 /\ all_chars P q2
    /\ s1 = p1 +:+ c1 +:+ q1
    /\ s2 = p2 +:+ c2 +:+ q2
    /\ same_up_to_case c1 c2.

Definition same_column_modulo (P : ascii -> bool) (c1 c2 : option string)
  : Prop :=
  match c1, c2 with
  | Some s1, Some s2 => same_code_modulo P s1 s2
  | None, None => True
  | _, _ => False
  end.

(** ASCII whitespace: space, tab, line feed, vertical tab, form feed and
    carriage return. *)
Definition is_whitespace (c : ascii) : bool :=
  let n := nat_of_ascii c in
  (n =? 32)%nat || ((9 <=? n)%nat && (n <=? 13)%nat).

(** The group keys [(window, country_code, transaction_type)] a
    transformed transaction is folded into. *)
Definition txn_window_keys (t : Txn.Transformed)
  : list (Z * Z * (option string * option string)) :=
  (explode TxnAnalytics.event_time TxnAnalytics.group_key [t]).*1.

(** The transaction analytics query, once started, run from its start
    over a sequence of micro-batches: the final state and everything the
    query has put out. *)
Definition txn_run (batches : list (list Txn.Transformed))
  : TxnAnalytics.State
    * list (Z * Z * (option string * option string) * TxnAnalytics.Buffer) :=
  run TxnAnalytics.event_time TxnAnalytics.group_key
      TxnAnalytics.init TxnAnalytics.update TxnAnalytics.merge
      initial_state [] batches.

(** The watermark once the events have been processed one at a time. *)
Definition current_watermark (events : list Txn.Transformed) : Z :=
  watermark (txn_run ((fun e => [e]) <$> events)).1.

(** How many times a group key occurs in a sequence of output rows. *)
Definition times_emitted {K B : Type} `{EqDecision K}
  (k : Z * Z * K) (sink : list (Z * Z * K * B)) : nat :=
  length (filter (fun kv => kv.1 = k) sink).

(** What holds between the state of a query and what it has put out:
    every emitted key belongs to a window closed under the watermark, no
    key was emitted twice, and no emitted key holds a buffer. *)
Definition sink_invariant {K B : Type} `{Countable K}
  (st : StreamState K B) (sink : list (Z * Z * K * B)) : Prop :=
  (forall k, k ∈ sink.*1 -> window_end k <= watermark st)
  /\ NoDup sink.*1
  /\ (forall k, k ∈ sink.*1 -> store st !! k = None).

(** A raw transaction record is invalid, in the design document's sense,
    when it is no JSON object or when one of [transaction_id],
    [transaction_date] and [amount] is missing or does not parse.  It is
    rejected when the reader yields no row for it. *)
Definition is_parsed {A : Type} (f : json_field A) : bool :=
  match f with Parsed _ => true | Absent | Unparsable => false end.

Definition txn_invalid (payload : option (Txn.Row json_field)) : Prop :=
  match payload with
  | None => True
  | Some raw =>
      ~ (is_parsed (Txn.transaction_id raw)
         && is_parsed (Txn.transaction_date raw)
         && is_parsed (Txn.amount raw))
  end.

Definition txn_rejected (payload : option (Txn.Row json_field)) : Prop :=
  Txn.read_kinesis_stream [payload] = [].


(** The double whose value is the positive integer [p] of at most 53
    bits, negated when [s] is set: a mantissa of exactly 53 bits. *)
Definition canonical (s : bool) (p : positive) : double :=
  S754_finite s
    (Pos.shiftl p (Z.to_N (53 - Zpos (digits2_pos p))))
    (Zpos (digits2_pos p) - 53).

(** Rows whose amounts are the whole numbers [zs], in order. *)
Definition whole_amounts (rows : list Txn.Transformed) (zs : list Z) : Prop :=
  (fun t => Txn.amount (Txn.base t)) <$> rows
  = (fun z => Some (Double.of_Z z)) <$> zs.

Definition sum_abs (zs : list Z) : Z :=
  foldr (fun z acc => Z.abs z + acc) 0 zs.

(** The buffer that stands for a count and, once an amount has been seen,
    an integer sum, maximum and minimum. *)
Definition whole_buffer (c : Z) (acc : option (Z * Z * Z))
  : TxnAnalytics.Buffer := {|
  TxnAnalytics.buf_count := c;
  TxnAnalytics.buf_sum := (fun x => Double.of_Z x.1.1) <$> acc;
  TxnAnalytics.buf_n := c;
  TxnAnalytics.buf_max := (fun x => Double.of_Z x.1.2) <$> acc;
  TxnAnalytics.buf_min := (fun x => Double.of_Z x.2) <$> acc
|}.

Definition whole_step (acc : option (Z * Z * Z)) (z : Z) : option (Z * Z * Z) :=
  match acc with
  | None => Some (z, z, z)
  | Some (s, hi, lo) => Some (s + z, Z.max hi z, Z.min lo z)
  end.

Definition whole_bounded (acc : option (Z * Z * Z)) (zs : list Z) : Prop :=
  match acc with
  | None => sum_abs zs < 2 ^ 53
  | Some (s, hi, lo) =>
      Z.abs s + sum_abs zs < 2 ^ 53
      /\ Z.abs hi < 2 ^ 53 /\ Z.abs lo < 2 ^ 53
  end.

(** ** Concrete inputs *)

(** A remittance of amount 100 that carries no exchange rate. *)
Definition remittance_without_rate : Rem.Row option := {|
  Rem.remittance_id := Some "R-1"%string;
  Rem.sender_country := Some "us"%string;
  Rem.recipient_country := Some "hn"%string;
  Rem.amount := Some (Double.of_Z 100);
  Rem.currency := Some "USD"%string;
  Rem.exchange_rate := None;
  Rem.fees := None;
  Rem.transaction_date := Some (at_clock 19723 12 3 30);
  Rem.sender_id := None;
  Rem.recipient_id := None;
  Rem.status := Some "SUCCESS"%string;
  Rem.processing_timestamp := None
|}.

(** A transaction record with the optional fields [loan_id],
    [beneficiary_id], [sector] and [source] missing. *)
Definition transaction (id country type : string) (amount : double)
  (date : timestamp) (status : string) : Txn.Row option := {|
  Txn.transaction_id := Some id;
  Txn.country_code := Some country;
  Txn.loan_id := None;
  Txn.transaction_type := Some type;
  Txn.amount := Some amount;
  Txn.currency := Some "USD"%string;
  Txn.transaction_date := Some date;
  Txn.beneficiary_id := None;
  Txn.sector := None;
  Txn.status := Some status;
  Txn.source := None;
  Txn.processing_timestamp := None
|}.

(** The first of January 2024, as a day number. *)
Definition day0 : Z := 19723.

Definition tab : ascii := "009"%char.

(** Two transactions whose country codes are "HN" and "HN" followed by a
    tab character. *)
Definition txn_code_plain : Txn.Row option :=
  transaction "T-1" "HN" "REPAYMENT" (Double.of_Z 50)
              (at_clock day0 12 3 30) "SUCCESS".

Definition txn_code_tab : Txn.Row option :=
  transaction "T-1" ("HN" +:+ String tab EmptyString) "REPAYMENT"
              (Double.of_Z 50) (at_clock day0 12 3 30) "SUCCESS".

(** Three transactions of one country and type, with amounts 50, 150000
    and -20, at 12:03:30, 12:03:40 and 12:03:50, and a fourth an hour
    later; the micro-batches they arrive in, transformed. *)
Definition txn_50 : Txn.Row option :=
  transaction "T-50" "HN" "REPAYMENT" (Double.of_Z 50)
              (at_clock day0 12 3 30) "SUCCESS".

Definition txn_150000 : Txn.Row option :=
  transaction "T-150000" "HN" "REPAYMENT" (Double.of_Z 150000)
              (at_clock day0 12 3 40) "SUCCESS".

Definition txn_minus_20 : Txn.Row option :=
  transaction "T-minus-20" "HN" "REPAYMENT" (Double.of_Z (-20))
              (at_clock day0 12 3 50) "SUCCESS".

Definition txn_later : Txn.Row option :=
  transaction "T-later" "SV" "FEE" (Double.of_Z 10)
              (at_clock day0 13 0 0) "SUCCESS".

Definition scenario_batch : list Txn.Transformed :=
  Txn.apply_streaming_transformations 0
    <$> [txn_50; txn_150000; txn_minus_20].

Definition later_batch : list Txn.Transformed :=
  Txn.apply_streaming_transformations 0 <$> [txn_later].

(** The group key of the scenario's rows for the window from 12:00 to
    12:05. *)
Definition scenario_key : Z * Z * (option string * option string) :=
  ((at_clock day0 12 0 0, at_clock day0 12 5 0),
   (Some "HN"%string, Some "REPAYMENT"%string)).

(** A transaction at 12:20, which raises the watermark to 12:10, followed
    by one at 12:09:30, and by one at 12:04:00. *)
Definition txn_12_20 : Txn.Transformed :=
  Txn.apply_streaming_transformations 0
    (transaction "T-12-20" "HN" "REPAYMENT" (Double.of_Z 500)
                 (at_clock day0 12 20 0) "SUCCESS").

Definition txn_12_09_30 : Txn.Transformed :=
  Txn.apply_streaming_transformations 0
    (transaction "T-12-09-30" "HN" "REPAYMENT" (Double.of_Z 200000)
                 (at_clock day0 12 9 30) "SUCCESS").


Definition state_at_12_10 : TxnAnalytics.State := (txn_run [[txn_12_20]]).1.

Definition key_12_06 : Z * Z * (option string * option string) :=
  ((at_clock day0 12 6 0, at_clock day0 12 11 0),
   (Some "HN"%string, Some "REPAYMENT"%string)).

(** A raw transaction record whose [amount] field is missing. *)
Definition raw_without_amount : Txn.Row json_field := {|
  Txn.transaction_id := Parsed "T-9"%string;
  Txn.country_code := Parsed "HN"%string;
  Txn.loan_id := Absent;
  Txn.transaction_type := Parsed "REPAYMENT"%string;
  Txn.amount := Absent;
  Txn.currency := Parsed "USD"%string;
  Txn.transaction_date := Parsed (at_clock day0 12 3 30);
  Txn.beneficiary_id := Absent;
  Txn.sector := Absent;
  Txn.status := Parsed "SUCCESS"%string;
  Txn.source := Absent;
  Txn.processing_timestamp := Absent
|}.

(** Three transactions of one key with amounts 100.10, 200.20 and 300.30,
    transformed, in two orders. *)
Definition txn_cents (id : string) (cents : Z) : Txn.Transformed :=
  Txn.apply_streaming_transformations 0
    (transaction id "HN" "REPAYMENT" (Double.of_decimal cents 2)
                 (at_clock day0 12 3 30) "SUCCESS").

Definition cents_ascending : list Txn.Transformed :=
  [txn_cents "T-a" 10010; txn_cents "T-b" 20020; txn_cents "T-c" 30030].

Definition cents_descending : list Txn.Transformed :=
  [txn_cents "T-c" 30030; txn_cents "T-b" 20020; txn_cents "T-a" 10010].

(** ** Remittance analytics: the windowed aggregation of
    [create_real_time_analytics(df, "remittances")]

    The buffers of [count("*")], [sum("amount")], [sum("fees")],
    [avg("amount")] and [avg("exchange_rate")], grouped by
    [(window, sender_country, recipient_country)] under the same watermark
    and windows as the transaction query.  The two derived columns added
    afterwards are not modelled. *)

Module RemAnalytics.

Record Buffer : Type := {
  buf_count : Z;
  buf_amount : option double;
  buf_amount_n : Z;
  buf_fees : option double;
  buf_rate : option double;
  buf_rate_n : Z
}.

Definition init : Buffer := {|
  buf_count := 0; buf_amount := None; buf_amount_n := 0;
  buf_fees := None; buf_rate := None; buf_rate_n := 0
|}.

(** [sum] and [avg] skip NULL inputs. *)
Definition add_input (s : option double) (x : option double) : option double :=
  match x with
  | Some v => Some (Double.add (default (Double.of_Z 0) s) v)
  | None => s
  end.

Definition count_input {A : Type} (n : Z) (x : option A) : Z :=
  match x with
  | Some _ => n + 1
  | None => n
  end.

Definition update (b : Buffer) (t : Rem.Transformed) : Buffer := {|
  buf_count := buf_count b + 1;
  buf_amount := add_input (buf_amount b) (Rem.amount (Rem.base t));
  buf_amount_n := count_input (buf_amount_n b) (Rem.amount (Rem.base t));
  buf_fees := add_input (buf_fees b) (Rem.fees (Rem.base t));
  buf_rate := add_input (buf_rate b) (Rem.exchange_rate (Rem.base t));
  buf_rate_n := count_input (buf_rate_n b) (Rem.exchange_rate (Rem.base t))
|}.

Definition event_time (t : Rem.Transformed) : option timestamp :=
  Rem.transaction_date (Rem.base t).

Definition group_key (t : Rem.Transformed) : option string * option string :=
  (Rem.sender_country (Rem.base t), Rem.recipient_country (Rem.base t)).

Abbreviation State := (StreamState (option string * option string) Buffer).

(** Merging two buffers: counts add up, and so do the sums, a NULL sum
    counting as nothing. *)
Definition merge (a b : Buffer) : Buffer := {|
  buf_count := buf_count a + buf_count b;
  buf_amount := add_input (buf_amount a) (buf_amount b);
  buf_amount_n := buf_amount_n a + buf_amount_n b;
  buf_fees := add_input (buf_fees a) (buf_fees b);
  buf_rate := add_input (buf_rate a) (buf_rate b);
  buf_rate_n := buf_rate_n a + buf_rate_n b
|}.

Definition windowed_agg (st : State) (df : list Rem.Transformed)
  : State * list (Z * Z * (option string * option string) * Buffer) :=
  micro_batch event_time group_key init update merge st df.

End RemAnalytics.

(** ** The queries as plans: columns, paths and options

    What [process_transaction_stream], [process_remittance_stream],
    [run_streaming_pipeline] and [main] do before any row flows.  A
    DataFrame is known by the stream it reads and the names of its
    columns; the frames here are those built from the two schemas, so a
    column that a name resolves to has the type the expression expects.
    Building a frame fails when an expression names a column the frame
    does not have, and starting a query fails when the frame lacks a
    column the writer partitions by. *)

Module Plan.

Record DataFrame : Type := {
  stream : string;
  columns : list string
}.

(** How a call ends: with a value, with [UnboundLocalError] (a function
    returns a variable no branch has bound) or with the engine's
    [AnalysisException]. *)
Inductive outcome (A : Type) : Type :=
| Ok (a : A)
| UnboundLocalError
| AnalysisException.

Arguments Ok {A} a.
Arguments UnboundLocalError {A}.
Arguments AnalysisException {A}.

Definition bind {A B : Type} (x : outcome A) (f : A -> outcome B) : outcome B :=
  match x with
  | Ok a => f a
  | UnboundLocalError => UnboundLocalError
  | AnalysisException => AnalysisException
  end.

(** Spark resolves a column name without regard to the case of its
    letters ([spark.sql.caseSensitive] is left at its default). *)
Definition resolver (a b : string) : bool := bool_decide (upper a = upper b).

Definition resolves (df : DataFrame) (name : string) : bool :=
  existsb (resolver name) (columns df).

(** [df.withColumn(name, expr)], where [expr] reads the columns [reads]:
    fails if one of them does not resolve; otherwise every column the name
    resolves to is replaced where it stands and takes the new name, and if
    there is none the column is appended. *)
Definition withColumn (name : string) (reads : list string) (df : DataFrame)
  : outcome DataFrame :=
  if forallb (resolves df) reads then
    Ok {| stream := stream df;
          columns := if resolves df name
                     then (fun c => if resolver name c then name else c)
                            <$> columns df
                     else columns df ++ [name] |}
  else AnalysisException.

Definition get_transaction_schema : list string :=
  ["transaction_id"; "country_code"; "loan_id"; "transaction_type"; "amount";
   "currency"; "transaction_date"; "beneficiary_id"; "sector"; "status";
   "source"; "processing_timestamp"]%string.

Definition get_remittance_schema : list string :=
  ["remittance_id"; "sender_country"; "recipient_country"; "amount";
   "currency"; "exchange_rate"; "fees"; "transaction_date"; "sender_id";
   "recipient_id"; "status"; "processing_timestamp"]%string.

(** [select("parsed_data.*")]: the columns are the fields of the schema. *)
Definition read_kinesis_stream (stream_name : string) (schema : list string)
  : DataFrame :=
  {| stream := stream_name; columns := schema |}.

Definition apply_streaming_transformations (df : DataFrame) (data_type : string)
  : outcome DataFrame :=
  bind
    (if bool_decide (data_type = "transactions"%string) then
       bind (withColumn "country_code" ["country_code"] df) (fun df =>
       bind (withColumn "transaction_type" ["transaction_type"] df) (fun df =>
       bind (withColumn "sector" ["sector"] df) (fun df =>
       bind (withColumn "transaction_hash" ["transaction_id"] df) (fun df =>
       bind (withColumn "year" ["transaction_date"] df) (fun df =>
       bind (withColumn "month" ["transaction_date"] df) (fun df =>
       bind (withColumn "day" ["transaction_date"] df) (fun df =>
       withColumn "high_value_flag" ["amount"] df)))))))
     else if bool_decide (data_type = "remittances"%string) then
       bind (withColumn "sender_country" ["sender_country"] df) (fun df =>
       bind (withColumn "recipient_country" ["recipient_country"] df) (fun df =>
       bind (withColumn "remittance_hash" ["remittance_id"] df) (fun df =>
       bind (withColumn "year" ["transaction_date"] df) (fun df =>
       bind (withColumn "month" ["transaction_date"] df) (fun df =>
       bind (withColumn "day" ["transaction_date"] df) (fun df =>
       bind (withColumn "large_remittance_flag" ["amount"] df) (fun df =>
       withColumn "total_amount" ["amount"; "fees"] df)))))))
     else Ok df)
    (withColumn "processing_timestamp" []).

(** A frame derived from [df] by an operation that reads the columns
    [reads] and puts out the columns [keep]. *)
Definition derived (reads keep : list string) (df : DataFrame)
  : outcome DataFrame :=
  if forallb (resolves df) reads
  then Ok {| stream := stream df; columns := keep |}
  else AnalysisException.

(** [groupBy(...).agg(...)] reads the time column, the grouping columns
    and the aggregated columns, and keeps the grouping columns and the
    aliases of the aggregates, nothing else; the grouping columns are
    named as the transformations have left them, which is as written
    here. *)
Definition create_real_time_analytics (df : DataFrame) (data_type : string)
  : outcome DataFrame :=
  if bool_decide (data_type = "transactions"%string) then
    bind (derived
            ["transaction_date"; "country_code"; "transaction_type"; "amount"]
            ["window"; "country_code"; "transaction_type";
             "transaction_count"; "total_amount"; "avg_amount";
             "max_amount"; "min_amount"] df) (fun windowed_agg =>
    bind (withColumn "transaction_rate_per_minute" ["transaction_count"]
            windowed_agg) (fun df =>
    withColumn "high_frequency_flag" ["transaction_rate_per_minute"] df))
  else if bool_decide (data_type = "remittances"%string) then
    bind (derived
            ["transaction_date"; "sender_country"; "recipient_country";
             "amount"; "fees"; "exchange_rate"]
            ["window"; "sender_country"; "recipient_country";
             "remittance_count"; "total_amount"; "total_fees";
             "avg_amount"; "avg_exchange_rate"] df) (fun windowed_agg =>
    bind (withColumn "remittance_rate_per_minute" ["remittance_count"]
            windowed_agg) (fun df =>
    withColumn "fee_percentage" ["total_fees"; "total_amount"] df))
  else UnboundLocalError.

(** [filter(...).select(...)] reads the columns of the condition and of
    the selection and keeps the selected columns. *)
Definition create_alert_stream (df : DataFrame) (data_type : string)
  : outcome DataFrame :=
  if bool_decide (data_type = "transactions"%string) then
    derived
      ["high_value_flag"; "status"; "amount"; "transaction_id";
       "country_code"; "transaction_type"; "transaction_date"]
      ["transaction_id"; "country_code"; "amount"; "transaction_type";
       "status"; "transaction_date"; "alert_type"; "alert_timestamp"] df
  else if bool_decide (data_type = "remittances"%string) then
    derived
      ["large_remittance_flag"; "status"; "amount"; "exchange_rate";
       "remittance_id"; "sender_country"; "recipient_country";
       "transaction_date"]
      ["remittance_id"; "sender_country"; "recipient_country"; "amount";
       "status"; "transaction_date"; "alert_type"; "alert_timestamp"] df
  else UnboundLocalError.

Record StreamingQuery : Type := {
  frame : DataFrame;
  format : string;
  path : string;
  checkpointLocation : string;
  partitionBy : list string;
  trigger : string;
  outputMode : string
}.

(** A call that may start queries: from the queries started so far to
    those started after it and how it ended. *)
Definition action (A : Type) : Type :=
  list StreamingQuery -> list StreamingQuery * outcome A.

Definition ret {A : Type} (a : A) : action A := fun started => (started, Ok a).

Definition lift {A : Type} (x : outcome A) : action A :=
  fun started => (started, x).

Definition and_then {A B : Type} (x : action A) (f : A -> action B)
  : action B :=
  fun started =>
    match x started with
    | (started', Ok a) => f a started'
    | (started', UnboundLocalError) => (started', UnboundLocalError)
    | (started', AnalysisException) => (started', AnalysisException)
    end.

(** [writeStream ... .start()]: the query starts if the frame has every
    column the writer partitions by, and [start] raises otherwise. *)
Definition start (q : StreamingQuery) : action StreamingQuery :=
  fun started =>
    if forallb (resolves (frame q)) (partitionBy q)
    then (started ++ [q], Ok q)
    else (started, AnalysisException).

Definition write_streaming_data (df : DataFrame)
  (output_path checkpoint_location trigger_interval : string)
  : action StreamingQuery :=
  start {| frame := df;
           format := "parquet";
           path := output_path;
           checkpointLocation := checkpoint_location;
           partitionBy := ["year"; "month"; "day"]%string;
           trigger := trigger_interval;
           outputMode := "append" |}.

Definition write_alert_stream (df : DataFrame)
  (output_path checkpoint_location : string) : action StreamingQuery :=
  start {| frame := df;
           format := "parquet";
           path := output_path;
           checkpointLocation := checkpoint_location;
           partitionBy := ["year"; "month"; "day"]%string;
           trigger := "30 seconds";
           outputMode := "append" |}.

(** [RegionalBankStreamingETL.__init__] *)
Record ETL : Type := {
  s3_bucket : string;
  kinesis_stream : string;
  streaming_path : string;
  curated_path : string;
  trigger_interval : string;
  watermark_delay : string;
  checkpoint_location : string
}.

Definition init (bucket stream_prefix : string) : ETL := {|
  s3_bucket := bucket;
  kinesis_stream := stream_prefix;
  streaming_path := "s3a://" +:+ bucket +:+ "/streaming";
  curated_path := "s3a://" +:+ bucket +:+ "/curated";
  trigger_interval := "1 minute";
  watermark_delay := "10 minutes";
  checkpoint_location := "s3a://" +:+ bucket +:+ "/checkpoints/streaming"
|}.

(** [write_streaming_data] is called without a trigger interval: its
    default, one minute, applies. *)
Definition process_transaction_stream (self : ETL)
  : action (list StreamingQuery) :=
  let transaction_df :=
    read_kinesis_stream (kinesis_stream self +:+ "-transactions")
                        get_transaction_schema in
  and_then (lift (apply_streaming_transformations transaction_df "transactions"))
    (fun transformed_df =>
  and_then (lift (create_real_time_analytics transformed_df "transactions"))
    (fun analytics_df =>
  and_then (lift (create_alert_stream transformed_df "transactions"))
    (fun alerts_df =>
  and_then (write_streaming_data transformed_df
              (streaming_path self +:+ "/transactions")
              (checkpoint_location self +:+ "/transactions") "1 minute")
    (fun transaction_query =>
  and_then (write_streaming_data analytics_df
              (curated_path self +:+ "/real_time_analytics/transactions")
              (checkpoint_location self +:+ "/analytics_transactions")
              "1 minute")
    (fun analytics_query =>
  and_then (write_alert_stream alerts_df
              (streaming_path self +:+ "/alerts/transactions")
              (checkpoint_location self +:+ "/alerts_transactions"))
    (fun alerts_query =>
  ret [transaction_query; analytics_query; alerts_query])))))).

Definition process_remittance_stream (self : ETL)
  : action (list StreamingQuery) :=
  let remittance_df :=
    read_kinesis_stream (kinesis_stream self +:+ "-remittances")
                        get_remittance_schema in
  and_then (lift (apply_streaming_transformations remittance_df "remittances"))
    (fun transformed_df =>
  and_then (lift (create_real_time_analytics transformed_df "remittances"))
    (fun analytics_df =>
  and_then (lift (create_alert_stream transformed_df "remittances"))
    (fun alerts_df =>
  and_then (write_streaming_data transformed_df
              (streaming_path self +:+ "/remittances")
              (checkpoint_location self +:+ "/remittances") "1 minute")
    (fun remittance_query =>
  and_then (write_streaming_data analytics_df
              (curated_path self +:+ "/real_time_analytics/remittances")
              (checkpoint_location self +:+ "/analytics_remittances")
              "1 minute")
    (fun analytics_query =>
  and_then (write_alert_stream alerts_df
              (streaming_path self +:+ "/alerts/remittances")
              (checkpoint_location self +:+ "/alerts_remittances"))
    (fun alerts_query =>
  ret [remittance_query; analytics_query; alerts_query])))))).

(** [run_streaming_pipeline] up to the loop that waits on the queries: an
    exception is logged and raised again. *)
Definition run_streaming_pipeline (self : ETL) : action (list StreamingQuery) :=
  and_then (process_transaction_stream self) (fun transaction_queries =>
  and_then (process_remittance_stream self) (fun remittance_queries =>
  ret (transaction_queries ++ remittance_queries))).

(** How [main] ends, given [sys.argv]: with an exit status (1 after the
    usage line, and 1 when an exception leaves it), or waiting on the
    queries of the pipeline; and the queries started on the way, which
    [spark.stop()] stops when an exception leaves [main]. *)
Inductive ending : Type :=
| Exit (status : Z)
| AwaitTermination (queries : list StreamingQuery).

Definition main (argv : list string) : list StreamingQuery * ending :=
  match argv with
  | [_; bucket; stream_prefix] =>
      match run_streaming_pipeline (init bucket stream_prefix) [] with
      | (started, Ok all_queries) => (started, AwaitTermination all_queries)
      | (started, _) => (started, Exit 1)
      end
  | _ => ([], Exit 1)
  end.

End Plan.

(** ** Vocabulary of the further properties *)

Definition starts_with_space (s : string) : bool :=
  match s with
  | String c _ => is_space c
  | EmptyString => false
  end.

Fixpoint ends_with_space (s : string) : bool :=
  match s with
  | EmptyString => false
  | String c EmptyString => is_space c
  | String _ s' => ends_with_space s'
  end.

(** A normalized code: no space at either end and no lower-case letter.
    NULL counts as normalized. *)
Definition normalized (c : option string) : Prop :=
  match c with
  | None => True
  | Some s =>
      starts_with_space s = false
      /\ ends_with_space s = false
      /\ all_chars (fun x => negb (is_lower x)) s = true
  end.

(** The frames [process_transaction_stream] and
    [process_remittance_stream] build from the records of a stream: the
    transformed rows, and the alerts derived from them. *)
Definition txn_transformed_df (now : timestamp)
  (records : list (option (Txn.Row json_field))) : list Txn.Transformed :=
  Txn.apply_streaming_transformations now <$> Txn.read_kinesis_stream records.

Definition txn_alerts_df (now : timestamp)
  (records : list (option (Txn.Row json_field))) : list Txn.Alert :=
  Txn.create_alert_stream now (txn_transformed_df now records).

Definition rem_transformed_df (now : timestamp)
  (records : list (option (Rem.Row json_field))) : list Rem.Transformed :=
  Rem.apply_streaming_transformations now <$> Rem.read_kinesis_stream records.

Definition rem_alerts_df (now : timestamp)
  (records : list (option (Rem.Row json_field))) : list Rem.Alert :=
  Rem.create_alert_stream now (rem_transformed_df now records).

(** ** The analytics queries and their sinks *)

(** What the sink of the transaction analytics query has received once
    the pipeline has run on a bucket and the micro-batches of the query
    have been [batches]: the output of the query if the pipeline has
    started a query that writes to the analytics path, nothing
    otherwise. *)
Definition analytics_path (self : Plan.ETL) : string :=
  Plan.curated_path self +:+ "/real_time_analytics/transactions".

Definition analytics_sink (self : Plan.ETL)
  (batches : list (list Txn.Transformed))
  : list (Z * Z * (option string * option string) * TxnAnalytics.Buffer) :=
  if bool_decide (analytics_path self
                  ∈ Plan.path <$> (Plan.run_streaming_pipeline self []).1)
  then (txn_run batches).2
  else [].

(** What the aggregation buffers of a group that has received a row
    satisfy: the group counts at least one row, the non-NULL amounts are
    among them, and sum, maximum and minimum are NULL exactly when no
    amount was non-NULL. *)
Definition txn_buffer_ok (b : TxnAnalytics.Buffer) : Prop :=
  1 <= TxnAnalytics.buf_count b
  /\ 0 <= TxnAnalytics.buf_n b <= TxnAnalytics.buf_count b
  /\ (TxnAnalytics.buf_n b = 0 <-> TxnAnalytics.buf_sum b = None)
  /\ (TxnAnalytics.buf_n b = 0 <-> TxnAnalytics.buf_max b = None)
  /\ (TxnAnalytics.buf_n b = 0 <-> TxnAnalytics.buf_min b = None).


(** ** Concrete remittances *)






(** * Properties *)

(** ** Sliding-window assignment *)

Section WindowAssignment.
Variables t L S : Z.
Hypothesis S_pos : 0 < S.
Hypothesis L_pos : 0 < L.
Hypothesis S_divides_L : (S | L).

Lemma max_num_overlapping_exact : max_num_overlapping L S = L / S.
Proof.
  destruct S_divides_L as [k ->]. unfold max_num_overlapping.
  rewrite Z.div_mul by lia.
  replace (k * S + S - 1) with (S - 1 + k * S) by lia.
  rewrite Z.div_add by lia. rewrite Z.div_small; lia.
Qed.

Lemma last_start_aligned : (S | t - t mod S).
Proof. exists (t / S). pose proof (Z.div_mod t S). lia. Qed.

Lemma window_starts_spec (s : Z) :
  s ∈ window_starts t L S <-> (S | s) /\ s <= t < s + L.
Proof.
  unfold window_starts. rewrite list_elem_of_fmap.
  rewrite max_num_overlapping_exact.
  pose proof (Z.mod_pos_bound t S S_pos) as Hm.
  destruct S_divides_L as [k Hk]. subst L. rewrite Z.div_mul by lia.
  assert (0 < k) by nia.
  split.
  - intros (i & -> & Hi). apply elem_of_seq in Hi. split.
    + destruct last_start_aligned as [q Hq]. exists (q - Z.of_nat i). lia.
    + nia.
  - intros [[q ->] Hin].
    pose proof (Z.div_mod t S) as Hd.
    assert (q <= t / S) by nia.
    assert (t / S - q < k) by nia.
    exists (Z.to_nat (t / S - q)). split.
    + rewrite Z2Nat.id by lia. lia.
    + apply elem_of_seq. lia.
Qed.

Lemma window_spec (s e : Z) :
  (s, e) ∈ window (Some t) L S <-> (S | s) /\ e = s + L /\ s <= t < e.
Proof.
  unfold window. rewrite list_elem_of_filter, list_elem_of_fmap. simpl. split.
  - intros [Hin (s' & [= -> ->] & Hs')].
    apply window_starts_spec in Hs'. tauto.
  - intros (Hs & -> & Hin). split; [done|].
    exists s. split; [done|]. apply window_starts_spec. done.
Qed.

Lemma window_keeps_every_candidate :
  window (Some t) L S = (fun s => (s, s + L)) <$> window_starts t L S.
Proof.
  assert (Hall : Forall (fun s => s <= t < s + L) (window_starts t L S)).
  { apply Forall_forall. intros x Hx. apply window_starts_spec in Hx. tauto. }
  unfold window. induction Hall as [|s l Hs _ IH]; [done|].
  rewrite fmap_cons, filter_cons_True by done. by rewrite IH.
Qed.

Lemma window_count :
  Z.of_nat (length (window (Some t) L S)) = max_num_overlapping L S.
Proof.
  rewrite window_keeps_every_candidate, length_fmap.
  unfold window_starts. rewrite length_fmap, length_seq.
  rewrite Z2Nat.id; [done|].
  rewrite max_num_overlapping_exact. apply Z.div_pos; lia.
Qed.

Lemma window_NoDup : NoDup (window (Some t) L S).
Proof.
  rewrite window_keeps_every_candidate. unfold window_starts.
  rewrite <- list_fmap_compose. apply NoDup_fmap_2_strong; [|apply NoDup_seq].
  intros i j _ _ [= Hij]. nia.
Qed.

End WindowAssignment.

Lemma window_12_03_30 (day : Z) :
  window (Some (at_clock day 12 3 30)) window_duration slide_duration =
  [ (at_clock day 12 3 0, at_clock day 12 8 0);
    (at_clock day 12 2 0, at_clock day 12 7 0);
    (at_clock day 12 1 0, at_clock day 12 6 0);
    (at_clock day 12 0 0, at_clock day 12 5 0);
    (at_clock day 11 59 0, at_clock day 12 4 0) ].
Proof.
  rewrite window_keeps_every_candidate; [|done|done|by exists 5].
  unfold window_starts.
  change (max_num_overlapping window_duration slide_duration) with 5.
  assert (Hm : at_clock day 12 3 30 mod slide_duration = 30000000).
  { symmetry. apply (Z.mod_unique_pos _ _ (day * 1440 + 723)).
    - unfold slide_duration, minutes, seconds; lia.
    - unfold at_clock, slide_duration, minutes, seconds; lia. }
  rewrite Hm. simpl.
  unfold at_clock, window_duration, slide_duration, minutes, seconds.
  repeat (f_equal; try lia).
Qed.

(** C4. With slide [S] dividing length [L], [window] maps an event time to
    exactly the windows [(s, s + L)] whose start [s] is a multiple of [S]
    and whose half-open interval contains the event time; there are
    [ceil(L / S)] of them, all distinct.  With [L] = 5 min and [S] = 1 min,
    an event at 12:03:30 belongs to the windows starting at 12:00, 12:01,
    12:02 and 12:03. *)
Theorem window_assignment_correct (t L S : Z) :
  0 < S -> 0 < L -> (S | L) ->
  (forall s e, (s, e) ∈ window (Some t) L S
               <-> (S | s) /\ e = s + L /\ s <= t < e)
  /\ NoDup (window (Some t) L S)
  /\ Z.of_nat (length (window (Some t) L S)) = max_num_overlapping L S
  /\ max_num_overlapping L S = L / S
  /\ (forall day start,
        start ∈ [at_clock day 12 0 0; at_clock day 12 1 0;
                 at_clock day 12 2 0; at_clock day 12 3 0] ->
        (start, start + window_duration)
          ∈ window (Some (at_clock day 12 3 30)) window_duration slide_duration).
Proof.
  intros HS HL Hdiv.
  split; [intros s e; by apply window_spec|].
  split; [by apply window_NoDup|].
  split; [by apply window_count|].
  split; [by apply max_num_overlapping_exact|].
  intros day start Hstart. rewrite window_12_03_30.
  assert (Hend : forall m, at_clock day 12 m 0 + window_duration
                           = at_clock day 12 (m + 5) 0).
  { intros m. unfold at_clock, window_duration, minutes, seconds. lia. }
  repeat (apply elem_of_cons in Hstart as [-> | Hstart]);
    [| | | |by apply elem_of_nil in Hstart];
    rewrite Hend; simpl; set_solver.
Qed.

Lemma window_assignment_correct_witness :
  (0 < 60 /\ 0 < 300 /\ (60 | 300))
  /\ Z.of_nat (length (window (Some 43410) 300 60)) = max_num_overlapping 300 60.
Proof.
  split.
  - split; [lia | split; [lia | by exists 5]].
  - apply (window_assignment_correct 43410 300 60); [lia | lia | by exists 5].
Defined.

(** ** Double-precision arithmetic on whole numbers *)

(** [shift p n] is [p * 2 ^ n]. *)
Lemma shift_zero (p : positive) : Pos.shiftl p 0 = p.
Proof. done. Qed.

Lemma shift_succ (p : positive) (n : N) :
  Pos.shiftl p (N.succ n) = xO (Pos.shiftl p n).
Proof. destruct n as [|q]; [done|]. simpl. apply Pos.iter_succ. Qed.

Lemma shift_value (p : positive) (n : N) :
  Zpos (Pos.shiftl p n) = Zpos p * 2 ^ Z.of_N n.
Proof.
  induction n as [|n IH] using N.peano_ind.
  { change (Zpos p = Zpos p * 1). lia. }
  rewrite shift_succ, N2Z.inj_succ, Z.pow_succ_r by lia.
  change (Zpos (Pos.shiftl p n)~0) with (2 * Zpos (Pos.shiftl p n)).
  rewrite IH. lia.
Qed.

Lemma shift_shift (p : positive) (n m : N) :
  Pos.shiftl (Pos.shiftl p n) m = Pos.shiftl p (n + m).
Proof.
  apply Pos2Z.inj. rewrite !shift_value, N2Z.inj_add, Z.pow_add_r by lia. lia.
Qed.

Lemma shift_digits (p : positive) (n : N) :
  Zpos (digits2_pos (Pos.shiftl p n)) = Zpos (digits2_pos p) + Z.of_N n.
Proof.
  induction n as [|n IH] using N.peano_ind.
  { change (Z.of_N 0) with 0. rewrite shift_zero. lia. }
  rewrite shift_succ, N2Z.inj_succ. simpl digits2_pos.
  rewrite Pos2Z.inj_succ, IH. lia.
Qed.

Lemma digits_bounds (p : positive) :
  2 ^ (Zpos (digits2_pos p) - 1) <= Zpos p < 2 ^ Zpos (digits2_pos p).
Proof.
  induction p as [p IH|p IH|]; simpl digits2_pos.
  - rewrite Pos2Z.inj_succ, Pos2Z.inj_xI.
    replace (Z.succ (Zpos (digits2_pos p)) - 1)
      with (Z.succ (Zpos (digits2_pos p) - 1)) by lia.
    rewrite !Z.pow_succ_r by lia.
    set (lo := 2 ^ (Zpos (digits2_pos p) - 1)) in *.
    set (hi := 2 ^ Zpos (digits2_pos p)) in *.
    clearbody lo hi. lia.
  - rewrite Pos2Z.inj_succ. change (Zpos p~0) with (2 * Zpos p).
    replace (Z.succ (Zpos (digits2_pos p)) - 1)
      with (Z.succ (Zpos (digits2_pos p) - 1)) by lia.
    rewrite !Z.pow_succ_r by lia.
    set (lo := 2 ^ (Zpos (digits2_pos p) - 1)) in *.
    set (hi := 2 ^ Zpos (digits2_pos p)) in *.
    clearbody lo hi. lia.
  - change (1 <= 1 < 2). lia.
Qed.

Lemma digits_le_53 (p : positive) :
  Zpos p < 2 ^ 53 -> Zpos (digits2_pos p) <= 53.
Proof.
  intros Hp. destruct (Z.le_gt_cases (Zpos (digits2_pos p)) 53) as [|Hgt]; [done|].
  pose proof (digits_bounds p) as [Hlo _].
  assert (2 ^ 53 <= 2 ^ (Zpos (digits2_pos p) - 1))
    by (apply Z.pow_le_mono_r; lia).
  lia.
Qed.

Lemma iter_pos_nat {A : Type} (f : A -> A) (q : positive) (x : A) :
  SpecFloat.iter_pos f q x = @Nat.iter (Pos.to_nat q) A f x.
Proof.
  revert x. induction q as [q IH|q IH|]; intros x; simpl SpecFloat.iter_pos.
  - rewrite !IH, Pos2Nat.inj_xI, <- Nat.iter_add, <- Nat.iter_succ_r.
    f_equal. lia.
  - rewrite !IH, Pos2Nat.inj_xO, <- Nat.iter_add. f_equal. lia.
  - done.
Qed.

Lemma shr_1_even (m : positive) :
  shr_1 {| shr_m := Zpos m~0; shr_r := false; shr_s := false |}
  = {| shr_m := Zpos m; shr_r := false; shr_s := false |}.
Proof. done. Qed.

Lemma iter_shr_1_shift (k : nat) (m : positive) :
  @Nat.iter k shr_record shr_1
    {| shr_m := Zpos (Pos.shiftl m (N.of_nat k)); shr_r := false; shr_s := false |}
  = {| shr_m := Zpos m; shr_r := false; shr_s := false |}.
Proof.
  induction k as [|k IH]; [done|].
  rewrite Nat.iter_succ_r, Nat2N.inj_succ, shift_succ, shr_1_even. apply IH.
Qed.

(** Shifting out bits that are all zero is exact. *)
Lemma shr_shift (m : positive) (e n : Z) :
  0 <= n ->
  shr {| shr_m := Zpos (Pos.shiftl m (Z.to_N n)); shr_r := false; shr_s := false |}
      e n
  = ({| shr_m := Zpos m; shr_r := false; shr_s := false |}, e + n).
Proof.
  intros Hn. destruct n as [|q|q]; [by rewrite Z.add_0_r| |lia].
  unfold shr. f_equal. rewrite iter_pos_nat.
  replace (Z.to_N (Zpos q)) with (N.of_nat (Pos.to_nat q)) by lia.
  apply iter_shr_1_shift.
Qed.

Lemma shl_align_shift (m : positive) (e e' : Z) :
  e' <= e -> shl_align m e e' = (Pos.shiftl m (Z.to_N (e - e')), e').
Proof.
  intros He. unfold shl_align.
  destruct (e' - e) as [|q|q] eqn:Hd; [|lia|].
  - replace e' with e by lia. by rewrite Z.sub_diag.
  - replace (e - e') with (Zpos q) by lia. done.
Qed.

Lemma shl_align_none (m : positive) (e e' : Z) :
  e <= e' -> shl_align m e e' = (m, e).
Proof.
  intros He. unfold shl_align. destruct (e' - e) as [|q|q] eqn:Hd; [done|done|lia].
Qed.

Lemma fexp_small (d : Z) :
  -1021 <= d -> fexp Double.prec Double.emax d = d - 53.
Proof.
  intros Hd. unfold fexp, emin, Double.prec, Double.emax. lia.
Qed.

(** A mantissa of 53 bits with a small exponent is not shifted. *)
Lemma shr_fexp_canonical (m : positive) (e : Z) :
  Zpos (digits2_pos m) = 53 -> -1074 <= e ->
  shr_fexp Double.prec Double.emax (Zpos m) e loc_Exact
  = ({| shr_m := Zpos m; shr_r := false; shr_s := false |}, e).
Proof.
  intros Hd He. unfold shr_fexp. simpl Zdigits2.
  rewrite Hd, fexp_small by lia.
  by replace (53 + e - 53 - e) with 0 by lia.
Qed.

(** Rounding is the identity once the first shift leaves, exactly, a
    mantissa of 53 bits. *)
Lemma binary_round_aux_exact (s : bool) (mx ex : Z) (m : positive) (e : Z) :
  shr_fexp Double.prec Double.emax mx ex loc_Exact
  = ({| shr_m := Zpos m; shr_r := false; shr_s := false |}, e) ->
  Zpos (digits2_pos m) = 53 -> -1074 <= e <= 971 ->
  binary_round_aux Double.prec Double.emax s mx ex loc_Exact
  = S754_finite s m e.
Proof.
  intros Hshr Hd He. unfold binary_round_aux. rewrite Hshr. simpl.
  rewrite shr_fexp_canonical by (done || lia). simpl.
  destruct (Z.leb_spec e (Double.emax - Double.prec)) as [|Hgt]; [done|].
  unfold Double.emax, Double.prec in Hgt. lia.
Qed.

Lemma canonical_digits (p : positive) :
  Zpos p < 2 ^ 53 ->
  Zpos (digits2_pos (Pos.shiftl p (Z.to_N (53 - Zpos (digits2_pos p))))) = 53.
Proof.
  intros Hp%digits_le_53. rewrite shift_digits. lia.
Qed.

(** Rounding [p * 2 ^ k] with exponent [- k] gives the canonical form of
    [p], whatever [k]. *)
Lemma binary_round_scaled (s : bool) (p : positive) (k : N) :
  Zpos p < 2 ^ 53 ->
  binary_round Double.prec Double.emax s (Pos.shiftl p k) (- Z.of_N k)
  = canonical s p.
Proof.
  intros Hp. pose proof (digits_le_53 p Hp) as Hd.
  pose proof (canonical_digits p Hp) as Hc.
  unfold binary_round, canonical.
  rewrite shift_digits, fexp_small by lia.
  set (d := Zpos (digits2_pos p)) in *.
  assert (1 <= d) by (unfold d; lia).
  destruct (Z.le_gt_cases (Z.of_N k) (53 - d)) as [Hk|Hk].
  - rewrite shl_align_shift by lia. rewrite shift_shift.
    replace (k + Z.to_N (- Z.of_N k - (d + Z.of_N k + - Z.of_N k - 53)))%N
      with (Z.to_N (53 - d)) by lia.
    replace (d + Z.of_N k + - Z.of_N k - 53) with (d - 53) by lia.
    apply binary_round_aux_exact; [|done|lia].
    apply shr_fexp_canonical; [done|lia].
  - rewrite shl_align_none by lia.
    apply binary_round_aux_exact; [|done|lia].
    unfold shr_fexp. simpl Zdigits2.
    rewrite shift_digits, fexp_small by (fold d; lia). fold d.
    unfold shr_record_of_loc.
    replace (Pos.shiftl p k)
      with (Pos.shiftl (Pos.shiftl p (Z.to_N (53 - d)))
                       (Z.to_N (d + Z.of_N k + - Z.of_N k - 53 - - Z.of_N k))).
    + rewrite shr_shift by lia. f_equal. lia.
    + rewrite shift_shift. f_equal. lia.
Qed.

Lemma of_Z_zero : Double.of_Z 0 = S754_zero false.
Proof. done. Qed.

Lemma of_Z_pos (p : positive) :
  Zpos p < 2 ^ 53 -> Double.of_Z (Zpos p) = canonical false p.
Proof. intros Hp. apply (binary_round_scaled false p 0 Hp). Qed.

Lemma of_Z_neg (p : positive) :
  Zpos p < 2 ^ 53 -> Double.of_Z (Zneg p) = canonical true p.
Proof. intros Hp. apply (binary_round_scaled true p 0 Hp). Qed.

(** Rounding an integer of at most 53 bits scaled by a power of two gives
    the double of that integer. *)
Lemma binary_normalize_scaled (c : Z) (k : N) :
  Z.abs c < 2 ^ 53 ->
  binary_normalize Double.prec Double.emax (c * 2 ^ Z.of_N k) (- Z.of_N k) false
  = Double.of_Z c.
Proof.
  intros Hc. destruct c as [|p|p].
  - done.
  - replace (Zpos p * 2 ^ Z.of_N k) with (Zpos (Pos.shiftl p k))
      by apply shift_value.
    unfold binary_normalize. rewrite binary_round_scaled by lia.
    symmetry. apply of_Z_pos. lia.
  - replace (Zneg p * 2 ^ Z.of_N k) with (Zneg (Pos.shiftl p k)).
    + unfold binary_normalize. rewrite binary_round_scaled by lia.
      symmetry. apply of_Z_neg. lia.
    + rewrite <- !Pos2Z.opp_pos, shift_value. lia.
Qed.

Lemma cond_Zopp_scaled (s : bool) (p : positive) (k : N) :
  cond_Zopp s (Zpos (Pos.shiftl p k)) = cond_Zopp s (Zpos p) * 2 ^ Z.of_N k.
Proof. rewrite shift_value. destruct s; simpl; lia. Qed.

Lemma add_canonical (sa sb : bool) (pa pb : positive) :
  Zpos pa < 2 ^ 53 -> Zpos pb < 2 ^ 53 ->
  Z.abs (cond_Zopp sa (Zpos pa) + cond_Zopp sb (Zpos pb)) < 2 ^ 53 ->
  Double.add (canonical sa pa) (canonical sb pb)
  = Double.of_Z (cond_Zopp sa (Zpos pa) + cond_Zopp sb (Zpos pb)).
Proof.
  intros Ha Hb Hab.
  pose proof (digits_le_53 pa Ha) as Hda.
  pose proof (digits_le_53 pb Hb) as Hdb.
  unfold Double.add, canonical, SFadd.
  set (da := Zpos (digits2_pos pa)) in *.
  set (db := Zpos (digits2_pos pb)) in *.
  assert (1 <= da) by (unfold da; lia).
  assert (1 <= db) by (unfold db; lia).
  set (ez := Z.min (da - 53) (db - 53)).
  rewrite !shl_align_shift by (unfold ez; lia). simpl fst.
  rewrite !shift_shift.
  replace (Z.to_N (53 - da) + Z.to_N (da - 53 - ez))%N with (Z.to_N (- ez))
    by (unfold ez; lia).
  replace (Z.to_N (53 - db) + Z.to_N (db - 53 - ez))%N with (Z.to_N (- ez))
    by (unfold ez; lia).
  rewrite !cond_Zopp_scaled, <- Z.mul_add_distr_r.
  replace ez with (- Z.of_N (Z.to_N (- ez))) at 2 by (unfold ez; lia).
  by apply binary_normalize_scaled.
Qed.

(** Double-precision addition of whole numbers is exact as long as the
    operands and the sum are below [2 ^ 53] in magnitude. *)
Lemma add_exact (a b : Z) :
  Z.abs a < 2 ^ 53 -> Z.abs b < 2 ^ 53 -> Z.abs (a + b) < 2 ^ 53 ->
  Double.add (Double.of_Z a) (Double.of_Z b) = Double.of_Z (a + b).
Proof.
  intros Ha Hb Hab. destruct a as [|pa|pa], b as [|pb|pb];
    rewrite ?Z.add_0_l, ?Z.add_0_r;
    rewrite ?of_Z_zero, ?of_Z_pos, ?of_Z_neg by lia; try done.
  - by apply (add_canonical false false).
  - by apply (add_canonical false true).
  - by apply (add_canonical true false).
  - by apply (add_canonical true true).
Qed.

Lemma shift_compare (p q : positive) (k : N) :
  (Pos.shiftl p k ?= Pos.shiftl q k)%positive = (p ?= q)%positive.
Proof.
  rewrite !Pos2Z.inj_compare, !shift_value.
  assert (Hc : 0 < 2 ^ Z.of_N k) by (apply Z.pow_pos_nonneg; lia).
  generalize dependent (2 ^ Z.of_N k). intros c Hc.
  destruct (Z.compare_spec (Zpos p * c) (Zpos q * c));
    destruct (Z.compare_spec (Zpos p) (Zpos q)); try done; nia.
Qed.

Lemma digits_lt (p q : positive) :
  Zpos (digits2_pos p) < Zpos (digits2_pos q) -> (p < q)%positive.
Proof.
  intros Hd. pose proof (digits_bounds p) as [_ Hp].
  pose proof (digits_bounds q) as [Hq _].
  assert (2 ^ Zpos (digits2_pos p) <= 2 ^ (Zpos (digits2_pos q) - 1))
    by (apply Z.pow_le_mono_r; lia).
  lia.
Qed.

(** Canonical forms compare as the integers they stand for. *)
Lemma compare_canonical (p q : positive) :
  match Zpos (digits2_pos p) - 53 ?= Zpos (digits2_pos q) - 53 with
  | Lt => Lt
  | Gt => Gt
  | Eq => Pos.compare_cont Eq
            (Pos.shiftl p (Z.to_N (53 - Zpos (digits2_pos p))))
            (Pos.shiftl q (Z.to_N (53 - Zpos (digits2_pos q))))
  end = (p ?= q)%positive.
Proof.
  destruct (Z.compare_spec (Zpos (digits2_pos p) - 53)
                           (Zpos (digits2_pos q) - 53)) as [Heq|Hlt|Hgt].
  - replace (Zpos (digits2_pos q)) with (Zpos (digits2_pos p)) by lia.
    apply shift_compare.
  - symmetry. apply Pos.compare_lt_iff, digits_lt. lia.
  - symmetry. apply Pos.compare_gt_iff, digits_lt. lia.
Qed.

Lemma compare_exact (a b : Z) :
  Z.abs a < 2 ^ 53 -> Z.abs b < 2 ^ 53 ->
  Double.compare (Double.of_Z a) (Double.of_Z b) = (a ?= b).
Proof.
  intros Ha Hb. destruct a as [|pa|pa], b as [|pb|pb];
    rewrite ?of_Z_zero, ?of_Z_pos, ?of_Z_neg by lia; try done.
  - unfold Double.compare, canonical. simpl. apply compare_canonical.
  - unfold Double.compare, canonical. simpl.
    rewrite <- (compare_canonical pa pb).
    by destruct (_ ?= _).
Qed.

Lemma ltb_exact (a b : Z) :
  Z.abs a < 2 ^ 53 -> Z.abs b < 2 ^ 53 ->
  Double.ltb (Double.of_Z a) (Double.of_Z b) = (a <? b).
Proof.
  intros Ha Hb. unfold Double.ltb. rewrite compare_exact by done.
  unfold Z.ltb. by destruct (a ?= b).
Qed.

(** ** Division of a whole number by five *)

(** What rounding leaves of a quotient of 53 or 54 bits: a finite number
    whose exponent is the quotient's or the next one. *)
Lemma round_nearest_even_bounds (m : Z) (l : location) :
  m <= round_nearest_even m l <= m + 1.
Proof.
  unfold round_nearest_even.
  destruct l as [|[]]; try lia. destruct (Z.even m); lia.
Qed.

Lemma digits_53 (p : positive) :
  2 ^ 52 <= Zpos p < 2 ^ 53 -> Zpos (digits2_pos p) = 53.
Proof.
  intros [Hlo Hhi]. pose proof (digits_bounds p) as [Hdlo Hdhi].
  destruct (Z.lt_trichotomy (Zpos (digits2_pos p)) 53) as [Hlt|[Heq|Hgt]];
    [|done|].
  - assert (2 ^ Zpos (digits2_pos p) <= 2 ^ 52)
      by (apply Z.pow_le_mono_r; lia). lia.
  - assert (2 ^ 53 <= 2 ^ (Zpos (digits2_pos p) - 1))
      by (apply Z.pow_le_mono_r; lia). lia.
Qed.

Lemma digits_54 (p : positive) :
  2 ^ 53 <= Zpos p < 2 ^ 54 -> Zpos (digits2_pos p) = 54.
Proof.
  intros [Hlo Hhi]. pose proof (digits_bounds p) as [Hdlo Hdhi].
  destruct (Z.lt_trichotomy (Zpos (digits2_pos p)) 54) as [Hlt|[Heq|Hgt]];
    [|done|].
  - assert (2 ^ Zpos (digits2_pos p) <= 2 ^ 53)
      by (apply Z.pow_le_mono_r; lia). lia.
  - assert (2 ^ 54 <= 2 ^ (Zpos (digits2_pos p) - 1))
      by (apply Z.pow_le_mono_r; lia). lia.
Qed.

(** The second half of [binary_round_aux], on a rounded mantissa of 53
    bits or on [2 ^ 53]. *)
Lemma round_finish (m : positive) (e : Z) :
  2 ^ 52 <= Zpos m <= 2 ^ 53 -> -1074 <= e <= 970 ->
  exists m' e',
    (let '(mrs, e'') :=
       shr_fexp Double.prec Double.emax (Zpos m) e loc_Exact in
     match shr_m mrs with
     | Z0 => S754_zero false
     | Zpos m0 =>
         if e'' <=? Double.emax - Double.prec
         then S754_finite false m0 e'' else S754_infinity false
     | Zneg _ => S754_nan
     end) = S754_finite false m' e'
    /\ e <= e' <= e + 1.
Proof.
  intros [Hlo Hhi] He.
  destruct (Z.eq_dec (Zpos m) (2 ^ 53)) as [Heq|Hne].
  - exists 4503599627370496%positive, (e + 1).
    assert (m = 9007199254740992%positive) as ->.
    { apply Pos2Z.inj. rewrite Heq. reflexivity. }
    change (shr_fexp Double.prec Double.emax (Zpos 9007199254740992) e
              loc_Exact)
      with (shr {| shr_m := Zpos 9007199254740992;
                   shr_r := false; shr_s := false |}
                e (fexp Double.prec Double.emax (54 + e) - e)).
    rewrite fexp_small by lia.
    replace (54 + e - 53 - e) with 1 by lia.
    change (shr {| shr_m := Zpos 9007199254740992;
                   shr_r := false; shr_s := false |} e 1)
      with ({| shr_m := Zpos 4503599627370496;
               shr_r := false; shr_s := false |}, e + 1).
    cbn [shr_m].
    destruct (Z.leb_spec (e + 1) (Double.emax - Double.prec)) as [|Hgt].
    + split; [done|lia].
    + unfold Double.emax, Double.prec in Hgt. lia.
  - exists m, e. rewrite shr_fexp_canonical; [|apply digits_53; lia|lia].
    simpl.
    destruct (Z.leb_spec e (Double.emax - Double.prec)) as [|Hgt].
    + split; [done|lia].
    + unfold Double.emax, Double.prec in Hgt. lia.
Qed.

Lemma binary_round_aux_exponent (q : positive) (e : Z) (l : location) :
  2 ^ 52 <= Zpos q < 2 ^ 54 - 2 -> -1074 <= e <= 969 ->
  exists m' e',
    binary_round_aux Double.prec Double.emax false (Zpos q) e l
    = S754_finite false m' e'
    /\ e <= e' <= e + 1 /\ (Zpos q < 2 ^ 53 - 1 -> e' = e)
    /\ (2 ^ 53 <= Zpos q -> e' = e + 1).
Proof.
  intros [Hlo Hhi] He. unfold binary_round_aux.
  destruct (Z.lt_ge_cases (Zpos q) (2 ^ 53)) as [Hlt|Hge].
  - (* 53 bits: no first shift *)
    assert (Hd : Zpos (digits2_pos q) = 53) by (apply digits_53; lia).
    unfold shr_fexp at 1. simpl Zdigits2. rewrite Hd, fexp_small by lia.
    replace (53 + e - 53 - e) with 0 by lia. unfold shr.
    pose proof (round_nearest_even_bounds (Zpos q) l) as Hr.
    assert (Hm : shr_m (shr_record_of_loc (Zpos q) l) = Zpos q)
      by (by destruct l as [|[]]).
    assert (Hl : loc_of_shr_record (shr_record_of_loc (Zpos q) l) = l)
      by (by destruct l as [|[]]).
    rewrite Hm, Hl.
    destruct (round_nearest_even (Zpos q) l) as [|m|m] eqn:Hround; try lia.
    destruct (round_finish m e) as (m' & e' & Hfin & He'); [lia|lia|].
    exists m', e'. split; [exact Hfin|]. split; [lia|]. split; [|lia].
    intros Hsmall.
    assert (Hd' : Zpos (digits2_pos m) = 53) by (apply digits_53; lia).
    rewrite shr_fexp_canonical in Hfin by (done || lia). simpl in Hfin.
    destruct (e <=? Double.emax - Double.prec); [|done].
    by injection Hfin as _ ->.
  - (* 54 bits: one first shift *)
    assert (Hd : Zpos (digits2_pos q) = 54) by (apply digits_54; lia).
    unfold shr_fexp at 1. simpl Zdigits2. rewrite Hd, fexp_small by lia.
    replace (54 + e - 53 - e) with 1 by lia. unfold shr.
    change (SpecFloat.iter_pos shr_1 1 (shr_record_of_loc (Zpos q) l))
      with (shr_1 (shr_record_of_loc (Zpos q) l)).
    assert (Hhalf : exists p r s,
               shr_1 (shr_record_of_loc (Zpos q) l)
               = {| shr_m := Zpos p; shr_r := r; shr_s := s |}
               /\ 2 ^ 52 <= Zpos p <= 2 ^ 53 - 2).
    { destruct q as [p|p|].
      - exists p. destruct l as [|[]]; simpl; do 2 eexists;
          (split; [reflexivity|]);
          change (Zpos p~1) with (2 * Zpos p + 1) in *; lia.
      - exists p. destruct l as [|[]]; simpl; do 2 eexists;
          (split; [reflexivity|]);
          change (Zpos p~0) with (2 * Zpos p) in *; lia.
      - lia. }
    destruct Hhalf as (p & r & s & -> & Hp).
    cbn [shr_m].
    pose proof (round_nearest_even_bounds (Zpos p)
                  (loc_of_shr_record
                     {| shr_m := Zpos p; shr_r := r; shr_s := s |})) as Hr.
    destruct (round_nearest_even _ _) as [|m|m] eqn:Hround; try lia.
    assert (Hd' : Zpos (digits2_pos m) = 53) by (apply digits_53; lia).
    exists m, (e + 1). rewrite shr_fexp_canonical by (done || lia). simpl.
    destruct (Z.leb_spec (e + 1) (Double.emax - Double.prec)) as [|Hgt].
    + split; [done|]. split; [lia|]. split; [lia|done].
    + unfold Double.emax, Double.prec in Hgt. lia.
Qed.

(** The double 5.0: mantissa [5 * 2 ^ 50], exponent [-50]. *)
Lemma of_Z_5 : Double.of_Z 5 = S754_finite false 5629499534213120 (-50).
Proof. vm_compute. reflexivity. Qed.

Lemma div_core_by_5 (m : positive) (e : Z) :
  Zpos (digits2_pos m) = 53 -> -52 <= e <= 0 ->
  SFdiv_core_binary Double.prec Double.emax (Zpos m) e
    (Zpos 5629499534213120) (-50)
  = ((Zpos m * 2 ^ 53) / Zpos 5629499534213120, e - 3,
     new_location (Zpos 5629499534213120)
       ((Zpos m * 2 ^ 53) mod Zpos 5629499534213120)).
Proof.
  intros Hd He. unfold SFdiv_core_binary.
  change (Zdigits2 (Zpos m)) with (Zpos (digits2_pos m)).
  change (Zdigits2 (Zpos 5629499534213120)) with 53.
  rewrite Hd, fexp_small by lia.
  replace (Z.min (53 + e - (53 + -50) - 53) (e - -50)) with (e - 3) by lia.
  replace (e - -50 - (e - 3)) with 53 by lia.
  rewrite Z.shiftl_mul_pow2 by lia.
  unfold Z.div, Z.modulo.
  by destruct (Z.div_eucl (Zpos m * 2 ^ 53) (Zpos 5629499534213120)).
Qed.

(** A whole number of [d] bits divided by five is a finite double of
    exponent [d - 56] or [d - 55]. *)
Lemma div_by_5_exponent (p : positive) :
  Zpos p < 2 ^ 53 ->
  exists m e,
    Double.div (Double.of_Z (Zpos p)) (Double.of_Z 5) = S754_finite false m e
    /\ Zpos (digits2_pos p) - 56 <= e <= Zpos (digits2_pos p) - 55.
Proof.
  intros Hp. rewrite of_Z_pos, of_Z_5 by done.
  pose proof (canonical_digits p Hp) as Hd.
  pose proof (digits_le_53 p Hp) as Hd53.
  assert (Hd1 : 1 <= Zpos (digits2_pos p)) by lia.
  unfold canonical, Double.div, SFdiv.
  set (m1 := Pos.shiftl p (Z.to_N (53 - Zpos (digits2_pos p)))) in *.
  rewrite div_core_by_5 by (done || lia).
  pose proof (digits_bounds m1) as Hm1. rewrite Hd in Hm1.
  change (2 ^ (53 - 1)) with 4503599627370496 in Hm1.
  change (2 ^ 53) with 9007199254740992 in Hm1 |- *.
  set (q := (Zpos m1 * 9007199254740992) / Zpos 5629499534213120).
  assert (Hq : 2 ^ 52 <= q < 2 ^ 54 - 2).
  { change (2 ^ 52) with 4503599627370496.
    change (2 ^ 54 - 2) with 18014398509481982. split.
    - apply Z.div_le_lower_bound; lia.
    - apply Z.div_lt_upper_bound; lia. }
  clearbody q. destruct q as [|q|q]; [lia| |lia].
  destruct (binary_round_aux_exponent q (Zpos (digits2_pos p) - 53 - 3)
              (new_location (Zpos 5629499534213120)
                 ((Zpos m1 * 9007199254740992) mod Zpos 5629499534213120)))
    as (m' & e' & Hround & He' & _); [done|lia|].
  exists m', e'. split; [exact Hround|lia].
Qed.

Lemma of_Z_10 : Double.of_Z 10 = S754_finite false 5629499534213120 (-49).
Proof. vm_compute. reflexivity. Qed.

Lemma gtb_finite_exponent (m m' : positive) (e e' : Z) :
  e <> e' ->
  Double.gtb (S754_finite false m e) (S754_finite false m' e') = (e' <? e).
Proof.
  intros Hne. unfold Double.gtb, Double.ltb, Double.compare, Z.ltb. simpl.
  destruct (Z.compare_spec e' e); [lia|done|done].
Qed.

(** The rate of a window, its count divided by five, is above ten exactly
    when the count is above fifty. *)
Lemma rate_above_ten (n : Z) :
  0 <= n < 2 ^ 53 ->
  Double.gtb (Double.div (Double.of_Z n) (Double.of_Z 5)) (Double.of_Z 10)
  = (50 <? n).
Proof.
  intros [Hlo Hhi]. destruct n as [|p|p]; [by vm_compute| |lia].
  pose proof (digits_bounds p) as [Hdlo Hdhi].
  destruct (div_by_5_exponent p Hhi) as (m & e & Hdiv & He).
  destruct (Z.le_gt_cases 8 (Zpos (digits2_pos p))) as [Hbig|Hsmall].
  - rewrite Hdiv, of_Z_10, gtb_finite_exponent by lia.
    assert (2 ^ 7 <= 2 ^ (Zpos (digits2_pos p) - 1))
      by (apply Z.pow_le_mono_r; lia).
    change (2 ^ 7) with 128 in *.
    destruct (Z.ltb_spec (-49) e), (Z.ltb_spec 50 (Zpos p)); try done; lia.
  - destruct (Z.le_gt_cases (Zpos (digits2_pos p)) 5) as [Hlittle|Hmid].
    + rewrite Hdiv, of_Z_10, gtb_finite_exponent by lia.
      assert (2 ^ Zpos (digits2_pos p) <= 2 ^ 5)
        by (apply Z.pow_le_mono_r; lia).
      change (2 ^ 5) with 32 in *.
      destruct (Z.ltb_spec (-49) e), (Z.ltb_spec 50 (Zpos p)); try done; lia.
    + assert (2 ^ 5 <= 2 ^ (Zpos (digits2_pos p) - 1))
        by (apply Z.pow_le_mono_r; lia).
      assert (2 ^ Zpos (digits2_pos p) <= 2 ^ 7)
        by (apply Z.pow_le_mono_r; lia).
      change (2 ^ 5) with 32 in *. change (2 ^ 7) with 128 in *.
      assert (Hall :
        forallb (fun n =>
                   Bool.eqb
                     (Double.gtb (Double.div (Double.of_Z n) (Double.of_Z 5))
                                 (Double.of_Z 10))
                     (50 <? n)) (seqZ 32 96) = true)
        by (vm_compute; reflexivity).
      rewrite forallb_forall in Hall.
      apply Bool.eqb_prop, Hall, list_elem_of_In, elem_of_seqZ. lia.
Qed.

(** ** Comparing a double with a whole number *)

Lemma valid_finite (s : bool) (m : positive) (e : Z) :
  valid_binary Double.prec Double.emax (S754_finite s m e) = true ->
  Zpos m < 2 ^ 53 /\ (-1074 < e -> 2 ^ 52 <= Zpos m).
Proof.
  unfold valid_binary, bounded, canonical_mantissa.
  intros [Hcanon _]%andb_true_iff. apply Z.eqb_eq in Hcanon.
  unfold fexp, emin, Double.prec, Double.emax in Hcanon.
  pose proof (digits_bounds m) as [Hlo Hhi].
  assert (Hd : Zpos (digits2_pos m) <= 53) by lia.
  split.
  - assert (2 ^ Zpos (digits2_pos m) <= 2 ^ 53)
      by (apply Z.pow_le_mono_r; lia). lia.
  - intros He.
    assert (Zpos (digits2_pos m) = 53) as Heq by lia.
    rewrite Heq in Hlo. exact Hlo.
Qed.

Lemma pow2_split (a b : Z) : 0 <= a -> 0 <= b -> 2 ^ (a + b) = 2 ^ a * 2 ^ b.
Proof. intros. by apply Z.pow_add_r. Qed.

(** On well-formed doubles the ordering of the engine agrees with the
    ordering of the numbers they stand for. *)
Lemma gtb_exceeds (x : double) (v : number) (p : positive) :
  valid_binary Double.prec Double.emax x = true ->
  number_of x = Some v -> Zpos p < 2 ^ 53 ->
  Double.gtb x (Double.of_Z (Zpos p)) = exceeds v (Zpos p).
Proof.
  intros Hvalid Hv Hp. rewrite of_Z_pos by done. unfold canonical.
  pose proof (digits_bounds p) as [Hplo Hphi].
  pose proof (digits_le_53 p Hp) as Hd53.
  pose proof (shift_value p (Z.to_N (53 - Zpos (digits2_pos p)))) as HmT.
  rewrite Z2N.id in HmT by lia.
  set (d := Zpos (digits2_pos p)) in *.
  set (mT := Pos.shiftl p (Z.to_N (53 - d))) in *.
  assert (Hd1 : 1 <= d) by (unfold d; lia).
  clearbody d mT.
  destruct x as [s|s| |s m e]; try discriminate; injection Hv as <-.
  - by destruct s.
  - by destruct s.
  - destruct (valid_finite s m e Hvalid) as [Hm Hnormal].
    unfold Double.gtb, Double.ltb, Double.compare, SFcompare, exceeds.
    destruct s; simpl cond_Zopp.
    + (* a negative number *)
      destruct (Z.leb_spec 0 e) as [He|He]; symmetry; apply Z.ltb_ge.
      * assert (0 < 2 ^ e) by (apply Z.pow_pos_nonneg; lia). nia.
      * assert (0 < 2 ^ (- e)) by (apply Z.pow_pos_nonneg; lia). nia.
    + destruct (Z.compare_spec (d - 53) e) as [Heq|Hlt|Hgt].
      * (* same exponent: the mantissas decide *)
        change (Pos.compare_cont Eq mT m) with (Zpos mT ?= Zpos m).
        subst e. destruct (Z.leb_spec 0 (d - 53)) as [He|He].
        -- assert (d = 53) as -> by lia.
           change (2 ^ (53 - 53)) with 1 in *. change (2 ^ (53 - 53)) with 1.
           rewrite Z.mul_1_r in *. rewrite HmT.
           unfold Z.ltb. by destruct (Zpos p ?= Zpos m).
        -- replace (- (d - 53)) with (53 - d) by lia. rewrite <- HmT.
           unfold Z.ltb. by destruct (Zpos mT ?= Zpos m).
      * (* a larger exponent: the double is above *)
        assert (Hm52 : 2 ^ 52 <= Zpos m) by (apply Hnormal; lia).
        symmetry. destruct (Z.leb_spec 0 e) as [He|He]; apply Z.ltb_lt.
        -- assert (2 ^ d <= 2 ^ (52 + e)) by (apply Z.pow_le_mono_r; lia).
           rewrite pow2_split in * by lia. nia.
        -- assert (2 ^ (d + - e) <= 2 ^ 52) by (apply Z.pow_le_mono_r; lia).
           rewrite pow2_split in * by lia.
           assert (0 < 2 ^ (- e)) by (apply Z.pow_pos_nonneg; lia). nia.
      * (* a smaller exponent: the double is below *)
        symmetry. destruct (Z.leb_spec 0 e) as [He|He]; apply Z.ltb_ge.
        -- assert (2 ^ (53 + e) <= 2 ^ (d - 1)) by (apply Z.pow_le_mono_r; lia).
           rewrite pow2_split in * by lia.
           assert (0 < 2 ^ e) by (apply Z.pow_pos_nonneg; lia). nia.
        -- assert (2 ^ 53 <= 2 ^ ((d - 1) + - e)) by (apply Z.pow_le_mono_r; lia).
           rewrite pow2_split in * by lia.
           assert (0 < 2 ^ (- e)) by (apply Z.pow_pos_nonneg; lia). nia.
Qed.

Lemma ltb_zero_negative (x : double) (v : number) :
  number_of x = Some v -> Double.ltb x (Double.of_Z 0) = negative v.
Proof.
  intros Hv. rewrite of_Z_zero.
  destruct x as [s|s| |s m e]; try discriminate; injection Hv as <-.
  - by destruct s.
  - by destruct s.
  - by destruct s.
Qed.

(** ** The alert queries *)

Lemma sql_eq_str_holds (c : option string) (lit : string) :
  holds (sql_eq_str c lit) = bool_decide (c = Some lit).
Proof.
  destruct c as [s|]; simpl; [|done].
  destruct (decide (s = lit)) as [->|Hne].
  - by rewrite !bool_decide_eq_true_2.
  - rewrite !bool_decide_eq_false_2; [done|congruence|done].
Qed.

Lemma sql_or_holds (a b : option bool) :
  holds (a ||| b) = holds a || holds b.
Proof. by destruct a as [[]|], b as [[]|]. Qed.

Lemma sql_eq_true_holds (b : bool) : holds (sql_eq_bool (Some b) true) = b.
Proof. by destruct b. Qed.

(** The filter of the alert query admits a row exactly when some branch of
    the [when] chain that follows fires. *)
Lemma txn_alert_filter_holds (t : Txn.Transformed) :
  holds (Txn.alert_filter t) =
  Txn.high_value_flag t
  || bool_decide (Txn.status (Txn.base t) = Some "FAILED"%string)
  || holds (sql_lt (Txn.amount (Txn.base t)) 0).
Proof.
  unfold Txn.alert_filter.
  by rewrite !sql_or_holds, sql_eq_true_holds, sql_eq_str_holds.
Qed.

Lemma rem_alert_filter_holds (t : Rem.Transformed) :
  holds (Rem.alert_filter t) =
  Rem.large_remittance_flag t
  || bool_decide (Rem.status (Rem.base t) = Some "FAILED"%string)
  || holds (sql_lt (Rem.amount (Rem.base t)) 0)
  || holds (sql_is_null (Rem.exchange_rate (Rem.base t))).
Proof.
  unfold Rem.alert_filter.
  by rewrite !sql_or_holds, sql_eq_true_holds, sql_eq_str_holds.
Qed.

(** The comparisons of the queries, on a numeric amount, are those of
    the number it stands for. *)
Lemma amount_rules (a : option double) (threshold : positive) :
  numeric a -> Zpos threshold < 2 ^ 53 ->
  holds (sql_gt a (Zpos threshold))
  = match a ≫= number_of with
    | Some v => exceeds v (Zpos threshold)
    | None => false
    end
  /\ holds (sql_lt a 0)
     = match a ≫= number_of with
       | Some v => negative v
       | None => false
       end.
Proof.
  intros Hnum Hthreshold. destruct a as [x|]; [|done].
  destruct Hnum as [Hvalid Hnan].
  assert (Hv : exists v, number_of x = Some v).
  { destruct x; try done; by eexists. }
  destruct Hv as [v Hv].
  change (Some x ≫= number_of) with (number_of x). rewrite Hv.
  change (holds (sql_gt (Some x) (Zpos threshold)))
    with (if Double.gtb x (Double.of_Z (Zpos threshold)) then true else false).
  change (holds (sql_lt (Some x) 0))
    with (if Double.ltb x (Double.of_Z 0) then true else false).
  rewrite (gtb_exceeds x v), (ltb_zero_negative x v) by done.
  split; [by destruct (exceeds _ _)|by destruct (negative v)].
Qed.

Lemma txn_alert_of_row (now : timestamp) (r : Txn.Row option) :
  numeric (Txn.amount r) ->
  (fun a => (Txn.alert_transaction_id a, Txn.alert_type a))
    <$> Txn.create_alert_stream now [Txn.apply_streaming_transformations now r]
  = option_list
      ((fun k => (Txn.transaction_id r, alert_label Transaction k))
         <$> txn_rules r).
Proof.
  intros Hnum.
  destruct (amount_rules (Txn.amount r) 100000 Hnum) as [Hhigh Hneg]; [done|].
  unfold Txn.create_alert_stream.
  rewrite filter_cons, filter_nil. rewrite txn_alert_filter_holds.
  unfold txn_rules, evaluate, txn_event, Txn.alert_type_of.
  cbn [event_amount event_type event_failed high_value_threshold
       high_value_transaction alert_thresholds
       Txn.apply_streaming_transformations Txn.high_value_flag Txn.base
       Txn.amount Txn.status].
  rewrite Hhigh, Hneg. clear Hhigh Hneg.
  destruct (match Txn.amount r ≫= number_of with
            | Some v => exceeds v 100000
            | None => false
            end) eqn:Hhigh; simpl.
  { unfold Txn.alert_type_of. simpl.
    destruct (amount_rules (Txn.amount r) 100000 Hnum) as [-> _]; [done|].
    by rewrite Hhigh. }
  destruct (bool_decide (Txn.status r = Some "FAILED"%string)) eqn:Hfail; simpl.
  { unfold Txn.alert_type_of. simpl.
    destruct (amount_rules (Txn.amount r) 100000 Hnum) as [-> _]; [done|].
    by rewrite Hhigh, sql_eq_str_holds, Hfail. }
  destruct (match Txn.amount r ≫= number_of with
            | Some v => negative v
            | None => false
            end) eqn:Hneg; simpl; [|done].
  unfold Txn.alert_type_of. simpl.
  destruct (amount_rules (Txn.amount r) 100000 Hnum) as [-> ->]; [done|].
  by rewrite Hhigh, sql_eq_str_holds, Hfail, Hneg.
Qed.

Lemma txn_alert_types_of_row (now : timestamp) (r : Txn.Row option) :
  numeric (Txn.amount r) ->
  Txn.alert_type
    <$> Txn.create_alert_stream now [Txn.apply_streaming_transformations now r]
  = option_list (alert_label Transaction <$> txn_rules r).
Proof.
  intros Hnum.
  pose proof (f_equal (fmap snd) (txn_alert_of_row now r Hnum)) as Hrow.
  rewrite <- list_fmap_compose in Hrow. etransitivity; [exact Hrow|].
  by destruct (txn_rules r).
Qed.

Lemma rem_alert_types_of_row (now : timestamp) (r : Rem.Row option) :
  numeric (Rem.amount r) ->
  Rem.alert_type
    <$> Rem.create_alert_stream now [Rem.apply_streaming_transformations now r]
  = option_list (alert_label Remittance <$> rem_rules r).
Proof.
  intros Hnum.
  destruct (amount_rules (Rem.amount r) 50000 Hnum) as [Hhigh Hneg]; [done|].
  unfold Rem.create_alert_stream.
  rewrite filter_cons, filter_nil. rewrite rem_alert_filter_holds.
  unfold rem_rules, evaluate, rem_event, Rem.alert_type_of.
  cbn [event_amount event_type event_failed event_exchange_rate_absent
       high_value_threshold large_remittance alert_thresholds
       Rem.apply_streaming_transformations Rem.large_remittance_flag Rem.base
       Rem.amount Rem.status Rem.exchange_rate].
  rewrite Hhigh, Hneg. clear Hhigh Hneg.
  destruct (match Rem.amount r ≫= number_of with
            | Some v => exceeds v 50000
            | None => false
            end) eqn:Hhigh; simpl.
  { unfold Rem.alert_type_of. simpl.
    destruct (amount_rules (Rem.amount r) 50000 Hnum) as [-> _]; [done|].
    by rewrite Hhigh. }
  destruct (bool_decide (Rem.status r = Some "FAILED"%string)) eqn:Hfail; simpl.
  { unfold Rem.alert_type_of. simpl.
    destruct (amount_rules (Rem.amount r) 50000 Hnum) as [-> _]; [done|].
    by rewrite Hhigh, sql_eq_str_holds, Hfail. }
  destruct (match Rem.amount r ≫= number_of with
            | Some v => negative v
            | None => false
            end) eqn:Hneg; simpl.
  { unfold Rem.alert_type_of. simpl.
    destruct (amount_rules (Rem.amount r) 50000 Hnum) as [-> ->]; [done|].
    by rewrite Hhigh, sql_eq_str_holds, Hfail, Hneg. }
  destruct (Rem.exchange_rate r) as [x|] eqn:Hrate; simpl; [done|].
  unfold Rem.alert_type_of. simpl.
  destruct (amount_rules (Rem.amount r) 50000 Hnum) as [-> ->]; [done|].
  by rewrite Hhigh, sql_eq_str_holds, Hfail, Hneg, Hrate.
Qed.

(** The alert queries work row by row: the alerts of a batch are the
    alerts of its rows, in order. *)
Lemma txn_alert_stream_app (now : timestamp) (df1 df2 : list Txn.Transformed) :
  Txn.create_alert_stream now (df1 ++ df2)
  = Txn.create_alert_stream now df1 ++ Txn.create_alert_stream now df2.
Proof. unfold Txn.create_alert_stream. by rewrite filter_app, fmap_app. Qed.

Lemma rem_alert_stream_app (now : timestamp) (df1 df2 : list Rem.Transformed) :
  Rem.create_alert_stream now (df1 ++ df2)
  = Rem.create_alert_stream now df1 ++ Rem.create_alert_stream now df2.
Proof. unfold Rem.create_alert_stream. by rewrite filter_app, fmap_app. Qed.

(** C5. Evaluating the alert rules is a function of the event alone and
    gives at most one alert per event.  For events whose amount is NULL or
    a number, the alert types a batch produces are those of [evaluate],
    row by row, where the first matching rule wins in the order (1) the
    amount, as a number, is above the threshold, (2) status FAILED, (3)
    the amount is below zero, (4) for remittances, exchange rate absent.
    The queries label HIGH_VALUE as "HIGH_VALUE_TRANSACTION" and
    FAILED_EVENT as "FAILED_TRANSACTION" or "FAILED_REMITTANCE".  An
    amount that is NaN, which is no number, is treated as above every
    threshold.  A remittance of amount 100 without exchange rate, not
    failed, yields MISSING_EXCHANGE_RATE. *)
Theorem alert_rules_first_match_wins (now : timestamp) :
  (forall df : list (Txn.Row option),
      Forall (fun r => numeric (Txn.amount r)) df ->
      Txn.alert_type
        <$> Txn.create_alert_stream now
              (Txn.apply_streaming_transformations now <$> df)
      = df ≫= fun r => option_list (alert_label Transaction <$> txn_rules r))
  /\ (forall df : list (Rem.Row option),
      Forall (fun r => numeric (Rem.amount r)) df ->
      Rem.alert_type
        <$> Rem.create_alert_stream now
              (Rem.apply_streaming_transformations now <$> df)
      = df ≫= fun r => option_list (alert_label Remittance <$> rem_rules r))
  /\ (forall r : Txn.Row option,
      Txn.amount r = Some S754_nan ->
      Txn.alert_type
        <$> Txn.create_alert_stream now
              [Txn.apply_streaming_transformations now r]
      = ["HIGH_VALUE_TRANSACTION"%string])
  /\ (forall r : Rem.Row option,
      Rem.amount r = Some S754_nan ->
      Rem.alert_type
        <$> Rem.create_alert_stream now
              [Rem.apply_streaming_transformations now r]
      = ["LARGE_REMITTANCE"%string])
  /\ (forall r : Rem.Row option,
      Rem.amount r = Some (Double.of_Z 100) ->
      Rem.exchange_rate r = None ->
      Rem.status r <> Some "FAILED"%string ->
      rem_rules r = Some MISSING_EXCHANGE_RATE
      /\ Rem.alert_type
           <$> Rem.create_alert_stream now
                 [Rem.apply_streaming_transformations now r]
         = ["MISSING_EXCHANGE_RATE"%string]).
Proof.
  split; [|split; [|split; [|split]]].
  - induction df as [|r df IH]; [done|].
    intros [Hr Hdf]%Forall_cons_1.
    rewrite fmap_cons, bind_cons.
    change (?x :: ?l) with ([x] ++ l).
    rewrite txn_alert_stream_app, fmap_app, IH by done.
    by rewrite txn_alert_types_of_row.
  - induction df as [|r df IH]; [done|].
    intros [Hr Hdf]%Forall_cons_1.
    rewrite fmap_cons, bind_cons.
    change (?x :: ?l) with ([x] ++ l).
    rewrite rem_alert_stream_app, fmap_app, IH by done.
    by rewrite rem_alert_types_of_row.
  - intros r Hnan. unfold Txn.create_alert_stream.
    rewrite filter_cons, filter_nil, txn_alert_filter_holds.
    cbn [Txn.apply_streaming_transformations Txn.high_value_flag].
    rewrite Hnan. simpl. unfold Txn.alert_type_of. simpl. by rewrite Hnan.
  - intros r Hnan. unfold Rem.create_alert_stream.
    rewrite filter_cons, filter_nil, rem_alert_filter_holds.
    cbn [Rem.apply_streaming_transformations Rem.large_remittance_flag].
    rewrite Hnan. simpl. unfold Rem.alert_type_of. simpl. by rewrite Hnan.
  - intros r Hamount Hrate Hstatus.
    assert (Hrules : rem_rules r = Some MISSING_EXCHANGE_RATE).
    { unfold rem_rules, evaluate, rem_event. simpl. rewrite Hamount, Hrate.
      by rewrite bool_decide_eq_false_2. }
    split; [done|]. rewrite rem_alert_types_of_row, Hrules; [done|].
    rewrite Hamount. split; [by vm_compute|discriminate].
Qed.

Lemma alert_rules_first_match_wins_witness :
  Rem.alert_type
    <$> Rem.create_alert_stream 0
          [Rem.apply_streaming_transformations 0 remittance_without_rate]
  = ["MISSING_EXCHANGE_RATE"%string].
Proof.
  apply (alert_rules_first_match_wins 0); [reflexivity | reflexivity | discriminate].
Defined.

(** C10. No row of an alert stream carries the fallback type "OTHER":
    whatever rows the query is given, each alert it emits has one of the
    specific types. *)
Theorem alert_type_other_unreachable (now : timestamp) :
  (forall df : list Txn.Transformed,
      Forall (fun a => Txn.alert_type a <> "OTHER"%string
                       /\ Txn.alert_type a
                            ∈ ["HIGH_VALUE_TRANSACTION"; "FAILED_TRANSACTION";
                               "NEGATIVE_AMOUNT"]%string)
             (Txn.create_alert_stream now df))
  /\ (forall df : list Rem.Transformed,
      Forall (fun a => Rem.alert_type a <> "OTHER"%string
                       /\ Rem.alert_type a
                            ∈ ["LARGE_REMITTANCE"; "FAILED_REMITTANCE";
                               "NEGATIVE_AMOUNT";
                               "MISSING_EXCHANGE_RATE"]%string)
             (Rem.create_alert_stream now df)).
Proof.
  split; intros df; apply Forall_forall; intros a Ha.
  - apply list_elem_of_fmap in Ha as (t & -> & Ht).
    apply list_elem_of_filter in Ht as [Hf _].
    rewrite txn_alert_filter_holds in Hf.
    simpl. unfold Txn.alert_type_of.
    rewrite sql_eq_true_holds, sql_eq_str_holds.
    destruct (Txn.high_value_flag t); [split; [done|set_solver]|].
    destruct (bool_decide _); [split; [done|set_solver]|].
    destruct (holds _); [split; [done|set_solver]|done].
  - apply list_elem_of_fmap in Ha as (t & -> & Ht).
    apply list_elem_of_filter in Ht as [Hf _].
    rewrite rem_alert_filter_holds in Hf.
    simpl. unfold Rem.alert_type_of.
    rewrite sql_eq_true_holds, sql_eq_str_holds.
    destruct (Rem.large_remittance_flag t); [split; [done|set_solver]|].
    destruct (bool_decide _); [split; [done|set_solver]|].
    destruct (holds (sql_lt _ _)); [split; [done|set_solver]|].
    destruct (holds _); [split; [done|set_solver]|done].
Qed.

(** ** Normalization of the code columns *)

Lemma upper_char_space (c : ascii) : is_space (upper_char c) = is_space c.
Proof. by destruct c as [[] [] [] [] [] [] [] []]. Qed.

Lemma upper_char_idemp (c : ascii) : upper_char (upper_char c) = upper_char c.
Proof. by destruct c as [[] [] [] [] [] [] [] []]. Qed.

Lemma same_letter_upper (a b : ascii) :
  same_letter a b -> upper_char a = upper_char b.
Proof.
  intros [-> | [[_ ->] | [_ ->]]]; [done| |]; by rewrite upper_char_idemp.
Qed.

Lemma same_up_to_case_upper (s1 s2 : string) :
  same_up_to_case s1 s2 -> upper s1 = upper s2.
Proof.
  induction 1 as [|a b s1 s2 Hab _ IH]; [done|].
  simpl. by rewrite (same_letter_upper a b), IH.
Qed.

Lemma upper_ltrim (s : string) : upper (ltrim s) = ltrim (upper s).
Proof.
  induction s as [|c s IH]; [done|]. simpl.
  rewrite upper_char_space. by destruct (is_space c).
Qed.

Lemma upper_rtrim (s : string) : upper (rtrim s) = rtrim (upper s).
Proof.
  induction s as [|c s IH]; [done|]. simpl.
  rewrite <- IH, upper_char_space.
  destruct (rtrim s); simpl; [by destruct (is_space c)|done].
Qed.

Lemma upper_trim (s : string) : upper (trim s) = trim (upper s).
Proof. unfold trim. by rewrite upper_rtrim, upper_ltrim. Qed.

Lemma ltrim_padding (p s : string) :
  all_chars is_space p -> ltrim (p +:+ s) = ltrim s.
Proof.
  induction p as [|c p IH]; [done|]. simpl.
  intros [Hc Hp]%andb_prop_elim.
  change (String c p +:+ s) with (String c (p +:+ s)). simpl.
  destruct (is_space c); [by apply IH|done].
Qed.

Lemma ltrim_only_padding (p : string) :
  all_chars is_space p -> ltrim p = EmptyString.
Proof.
  induction p as [|c p IH]; [done|]. simpl.
  intros [Hc Hp]%andb_prop_elim. destruct (is_space c); [by apply IH|done].
Qed.

Lemma rtrim_only_padding (p : string) :
  all_chars is_space p -> rtrim p = EmptyString.
Proof.
  induction p as [|c p IH]; [done|]. simpl.
  intros [Hc Hp]%andb_prop_elim. rewrite IH by done.
  by destruct (is_space c).
Qed.

Lemma rtrim_padding (s p : string) :
  all_chars is_space p -> rtrim (s +:+ p) = rtrim s.
Proof.
  intros Hp. induction s as [|c s IH].
  - by apply rtrim_only_padding.
  - change (String c s +:+ p) with (String c (s +:+ p)). simpl. by rewrite IH.
Qed.

Lemma trim_padding_right (s p : string) :
  all_chars is_space p -> trim (s +:+ p) = trim s.
Proof.
  intros Hp. unfold trim. induction s as [|c s IH].
  - change (EmptyString +:+ p) with p. by rewrite ltrim_only_padding.
  - change (String c s +:+ p) with (String c (s +:+ p)). simpl.
    destruct (is_space c); [done|].
    change (String c (s +:+ p)) with (String c s +:+ p).
    by rewrite rtrim_padding.
Qed.

Lemma trim_padded (p q s : string) :
  all_chars is_space p -> all_chars is_space q ->
  trim (p +:+ s +:+ q) = trim s.
Proof.
  intros Hp Hq. rewrite <- (trim_padding_right s q Hq).
  unfold trim. by rewrite ltrim_padding.
Qed.

Lemma same_code_normalized (s1 s2 : string) :
  same_code_modulo is_space s1 s2 -> upper (trim s1) = upper (trim s2).
Proof.
  intros (p1 & q1 & p2 & q2 & c1 & c2 & ? & ? & ? & ? & -> & -> & Hc).
  rewrite !trim_padded, !upper_trim by done.
  by rewrite (same_up_to_case_upper c1 c2).
Qed.

Lemma same_column_normalized (c1 c2 : option string) :
  same_column_modulo is_space c1 c2 -> normalize_code c1 = normalize_code c2.
Proof.
  destruct c1 as [s1|], c2 as [s2|]; simpl; try done.
  intros Hs. by rewrite (same_code_normalized s1 s2).
Qed.

(** C9, as amended.  Two transactions whose code columns ([country_code],
    [transaction_type], [sector]) differ only by letter case and by leading
    or trailing space characters (U+0020), and that carry the same event
    time, are normalized to the same codes and assigned the same list of
    group keys [(window, country_code, transaction_type)]. *)
Theorem normalization_makes_keying_insensitive
  (now : timestamp) (r1 r2 : Txn.Row option) :
  same_column_modulo is_space (Txn.country_code r1) (Txn.country_code r2) ->
  same_column_modulo is_space (Txn.transaction_type r1) (Txn.transaction_type r2) ->
  same_column_modulo is_space (Txn.sector r1) (Txn.sector r2) ->
  Txn.transaction_date r1 = Txn.transaction_date r2 ->
  txn_window_keys (Txn.apply_streaming_transformations now r1)
  = txn_window_keys (Txn.apply_streaming_transformations now r2)
  /\ Txn.sector (Txn.base (Txn.apply_streaming_transformations now r1))
     = Txn.sector (Txn.base (Txn.apply_streaming_transformations now r2)).
Proof.
  intros Hcc Hty Hsec Hdate.
  apply same_column_normalized in Hcc, Hty, Hsec.
  unfold txn_window_keys, explode, TxnAnalytics.event_time,
    TxnAnalytics.group_key. simpl.
  rewrite Hcc, Hty, Hsec, Hdate.
  split; [|done]. by rewrite !app_nil_r, <- !list_fmap_compose.
Qed.

Lemma same_code_example :
  same_code_modulo is_space " hn" "HN ".
Proof.
  exists " "%string, EmptyString, EmptyString, " "%string, "hn"%string, "HN"%string.
  repeat split; try done.
  repeat constructor; right; left; by split.
Qed.

Lemma normalization_makes_keying_insensitive_witness :
  txn_window_keys
    (Txn.apply_streaming_transformations 0
       (transaction "T-1" " hn" "repayment" (Double.of_Z 50)
                    (at_clock day0 12 3 30) "SUCCESS"))
  = txn_window_keys
      (Txn.apply_streaming_transformations 0
         (transaction "T-2" "HN " "REPAYMENT" (Double.of_Z 70)
                      (at_clock day0 12 3 30) "FAILED")).
Proof.
  apply (normalization_makes_keying_insensitive 0
           (transaction "T-1" " hn" "repayment" (Double.of_Z 50)
                        (at_clock day0 12 3 30) "SUCCESS")
           (transaction "T-2" "HN " "REPAYMENT" (Double.of_Z 70)
                        (at_clock day0 12 3 30) "FAILED")).
  - apply same_code_example.
  - exists EmptyString, EmptyString, EmptyString, EmptyString,
      "repayment"%string, "REPAYMENT"%string.
    repeat split; try done.
    repeat constructor; right; left; by split.
  - exact I.
  - reflexivity.
Defined.

(** C9 as stated fails for whitespace other than the space character: a
    trailing tab survives [trim], so the two transactions are keyed apart. *)
Lemma whitespace_keying_counterexample :
  same_column_modulo is_whitespace
    (Txn.country_code txn_code_plain) (Txn.country_code txn_code_tab)
  /\ same_column_modulo is_whitespace
       (Txn.transaction_type txn_code_plain) (Txn.transaction_type txn_code_tab)
  /\ same_column_modulo is_whitespace
       (Txn.sector txn_code_plain) (Txn.sector txn_code_tab)
  /\ Txn.transaction_date txn_code_plain = Txn.transaction_date txn_code_tab
  /\ txn_window_keys (Txn.apply_streaming_transformations 0 txn_code_plain)
     <> txn_window_keys (Txn.apply_streaming_transformations 0 txn_code_tab).
Proof.
  split; [|split; [|split; [|split]]].
  - exists EmptyString, EmptyString, EmptyString, (String tab EmptyString),
      "HN"%string, "HN"%string.
    repeat split; try done. repeat constructor; by left.
  - exists EmptyString, EmptyString, EmptyString, EmptyString,
      "REPAYMENT"%string, "REPAYMENT"%string.
    repeat split; try done. repeat constructor; by left.
  - exact I.
  - reflexivity.
  - vm_compute. discriminate.
Qed.

(** ** The stateful aggregation *)

Section Engine.
Context {R K B : Type} `{Countable K}.
Variable event_time : R -> option timestamp.
Variable group_key : R -> K.
Variable init : B.
Variable update : B -> R -> B.
Variable merge : B -> B -> B.

Local Abbreviation step := (micro_batch event_time group_key init update merge).
Local Abbreviation run_from := (run event_time group_key init update merge).
Local Abbreviation raise := (advance event_time).
Local Abbreviation fold_in := (accumulate init update).
Local Abbreviation replicas := (explode event_time group_key).

(** *** The watermark *)

Lemma advance_ge (W : Z) (df : list R) : W <= raise W df.
Proof.
  revert W. induction df as [|r df IH]; intros W; simpl; [lia|].
  etransitivity; [|apply IH]. destruct (event_time r); lia.
Qed.

Lemma advance_mono (W W' : Z) (df : list R) :
  W <= W' -> raise W df <= raise W' df.
Proof.
  revert W W'. induction df as [|r df IH]; intros W W' HW; simpl; [done|].
  apply IH. destruct (event_time r); lia.
Qed.


Lemma advance_covers (W : Z) (df : list R) (r : R) (t : Z) :
  r ∈ df -> event_time r = Some t ->
  to_millis t - watermark_delay <= raise W df.
Proof.
  revert W. induction df as [|r' df IH]; intros W Hin Ht.
  - by apply elem_of_nil in Hin.
  - apply elem_of_cons in Hin as [<- | Hin]; simpl.
    + rewrite Ht. etransitivity; [|apply advance_ge]. lia.
    + by apply IH.
Qed.

Lemma advance_attained (W : Z) (df : list R) :
  raise W df = W
  \/ exists r t, r ∈ df /\ event_time r = Some t
                 /\ raise W df = to_millis t - watermark_delay.
Proof.
  revert W. induction df as [|r df IH]; intros W; simpl; [by left|].
  destruct (event_time r) as [t|] eqn:Ht.
  - destruct (IH (Z.max W (to_millis t - watermark_delay)))
      as [-> | (r' & t' & Hin & Ht' & ->)].
    + destruct (Z.max_spec W (to_millis t - watermark_delay))
        as [[_ ->] | [_ ->]].
      * right. exists r, t. split; [apply list_elem_of_here|done].
      * by left.
    + right. exists r', t'. split; [by apply list_elem_of_further|done].
  - destruct (IH W) as [-> | (r' & t' & Hin & Ht' & ->)]; [by left|].
    right. exists r', t'. split; [by apply list_elem_of_further|done].
Qed.

Lemma micro_batch_watermark (st : StreamState K B) (df : list R) :
  watermark (step st df).1 = raise (watermark st) df.
Proof. done. Qed.

Lemma run_cons (st : StreamState K B) (sink : list (Z * Z * K * B))
  (df : list R) (bs : list (list R)) :
  run_from st sink (df :: bs)
  = run_from (step st df).1 (sink ++ (step st df).2) bs.
Proof.
  change (run_from st sink (df :: bs))
    with (let '(st', out) := step st df in run_from st' (sink ++ out) bs).
  by destruct (step st df).
Qed.

Lemma run_app (st : StreamState K B) (sink : list (Z * Z * K * B))
  (bs1 bs2 : list (list R)) :
  run_from st sink (bs1 ++ bs2) = run_from (run_from st sink bs1).1 (run_from st sink bs1).2 bs2.
Proof.
  revert st sink. induction bs1 as [|df bs1 IH]; intros st sink; [done|].
  rewrite <- app_comm_cons, !run_cons. apply IH.
Qed.

Lemma run_snoc (st : StreamState K B) (sink : list (Z * Z * K * B))
  (bs : list (list R)) (df : list R) :
  run_from st sink (bs ++ [df])
  = ((step (run_from st sink bs).1 df).1,
     (run_from st sink bs).2 ++ (step (run_from st sink bs).1 df).2).
Proof.
  rewrite run_app, run_cons. done.
Qed.

Lemma run_watermark_ge (bs : list (list R)) (st : StreamState K B)
  (sink : list (Z * Z * K * B)) :
  watermark st <= watermark (run_from st sink bs).1.
Proof.
  revert st sink. induction bs as [|df bs IH]; intros st sink; [done|].
  rewrite run_cons. etransitivity; [|apply IH].
  rewrite micro_batch_watermark. apply advance_ge.
Qed.

Lemma run_one_by_one_watermark (events : list R) (st : StreamState K B)
  (sink : list (Z * Z * K * B)) :
  watermark (run_from st sink ((fun e => [e]) <$> events)).1
  = raise (watermark st) events.
Proof.
  revert st sink. induction events as [|e events IH]; intros st sink; [done|].
  rewrite fmap_cons, run_cons, IH. by rewrite micro_batch_watermark.
Qed.

(** *** The buffers *)

Lemma foldl_accumulate_other (m : gmap (Z * Z * K) B)
  (xs : list (Z * Z * K * R)) (k : Z * Z * K) :
  k ∉ xs.*1 -> foldl fold_in m xs !! k = m !! k.
Proof.
  revert m. induction xs as [|x xs IH]; intros m Hk; [done|].
  rewrite fmap_cons, not_elem_of_cons in Hk. destruct Hk as [Hne Hk].
  simpl. rewrite IH by done. unfold accumulate.
  by rewrite lookup_insert_ne.
Qed.

(** A replica that passes the late-row filter belongs to a window still
    open under the watermark. *)
Lemma on_time_keys (W : Z) (df : list R) (k : Z * Z * K) :
  k ∈ (filter (fun x : Z * Z * K * R => W < window_end x.1) (replicas df)).*1 ->
  W < window_end k.
Proof.
  intros (x & -> & Hx)%list_elem_of_fmap.
  by apply list_elem_of_filter in Hx as [? _].
Qed.

Section MicroBatch.
Variable st : StreamState K B.
Variable df : list R.

Let W : Z := watermark st.
Let partial : gmap (Z * Z * K) B :=
  foldl fold_in ∅
        (filter (fun x : Z * Z * K * R => W < window_end x.1) (replicas df)).
Let folded : gmap (Z * Z * K) B := merge_into merge (store st) partial.

Lemma micro_batch_output (k : Z * Z * K) (v : B) :
  (k, v) ∈ (step st df).2
  <-> folded !! k = Some v /\ window_end k <= W.
Proof.
  unfold micro_batch. simpl.
  rewrite elem_of_map_to_list, map_lookup_filter_Some. done.
Qed.

Lemma micro_batch_store (k : Z * Z * K) :
  store (step st df).1 !! k
  = if decide (window_end k <= W) then None else folded !! k.
Proof.
  unfold micro_batch. simpl. fold W. fold folded.
  destruct (decide (window_end k <= W)) as [Hle|Hgt].
  - apply map_lookup_filter_None. right. intros v _. simpl. tauto.
  - destruct (folded !! k) as [v|] eqn:Hk.
    + by apply map_lookup_filter_Some.
    + apply map_lookup_filter_None. by left.
Qed.

Lemma folded_closed_window (k : Z * Z * K) :
  window_end k <= W -> folded !! k = store st !! k.
Proof.
  intros Hle. unfold folded, merge_into. rewrite lookup_union_with.
  assert (partial !! k = None) as ->.
  { unfold partial. rewrite foldl_accumulate_other; [done|].
    intros Hk%on_time_keys. lia. }
  by destruct (store st !! k).
Qed.

Lemma micro_batch_output_NoDup : NoDup (step st df).2.*1.
Proof. apply NoDup_fst_map_to_list. Qed.

(** A key whose window has closed is output exactly when it holds a buffer,
    with that buffer, and holds none afterwards. *)
Lemma micro_batch_finalizes (k : Z * Z * K) :
  window_end k <= W ->
  (forall v, (k, v) ∈ (step st df).2 <-> store st !! k = Some v)
  /\ store (step st df).1 !! k = None.
Proof.
  intros Hle. split.
  - intros v. rewrite micro_batch_output, folded_closed_window by done. tauto.
  - rewrite micro_batch_store. by rewrite decide_True.
Qed.

Lemma micro_batch_output_closed (k : Z * Z * K) :
  k ∈ (step st df).2.*1 -> window_end k <= W.
Proof.
  intros ([k' v] & -> & Hkv)%list_elem_of_fmap.
  by apply micro_batch_output in Hkv as [_ ?].
Qed.

End MicroBatch.

(** *** What a query has put out *)

Lemma times_emitted_absent (k : Z * Z * K) (sink : list (Z * Z * K * B)) :
  k ∉ sink.*1 -> times_emitted k sink = 0%nat.
Proof.
  unfold times_emitted. induction sink as [|[k' v] sink IH]; [done|].
  rewrite fmap_cons, not_elem_of_cons. simpl. intros [Hne Hk].
  rewrite filter_cons_False by (simpl; congruence). by apply IH.
Qed.

Lemma times_emitted_once (k : Z * Z * K) (sink : list (Z * Z * K * B)) :
  NoDup sink.*1 -> k ∈ sink.*1 -> times_emitted k sink = 1%nat.
Proof.
  unfold times_emitted. induction sink as [|[k' v] sink IH].
  - intros _ Hk. by apply elem_of_nil in Hk.
  - rewrite fmap_cons, NoDup_cons, elem_of_cons. simpl.
    intros [Hfresh Hnd] [-> | Hk].
    + rewrite filter_cons_True by done. simpl. f_equal.
      by apply times_emitted_absent.
    + rewrite filter_cons_False; [by apply IH|].
      simpl. intros ->. contradiction.
Qed.

Lemma times_emitted_at_most_once (k : Z * Z * K)
  (sink : list (Z * Z * K * B)) :
  NoDup sink.*1 -> (times_emitted k sink <= 1)%nat.
Proof.
  intros Hnd. destruct (decide (k ∈ sink.*1)) as [Hk|Hk].
  - by rewrite times_emitted_once.
  - rewrite times_emitted_absent by done. lia.
Qed.

Lemma sink_invariant_initial :
  sink_invariant (initial_state (K:=K) (B:=B)) [].
Proof.
  split; [|split].
  - intros k Hk. by apply elem_of_nil in Hk.
  - constructor.
  - done.
Qed.

Lemma sink_invariant_step (st : StreamState K B)
  (sink : list (Z * Z * K * B)) (df : list R) :
  sink_invariant st sink ->
  sink_invariant (step st df).1 (sink ++ (step st df).2).
Proof.
  intros (Hclosed & Hnd & Hgone).
  assert (Hout : forall k, k ∈ sink.*1 ∨ k ∈ (step st df).2.*1 ->
                           window_end k <= watermark st).
  { intros k [Hk | Hk]; [by apply Hclosed|].
    by apply micro_batch_output_closed in Hk. }
  split; [|split].
  - intros k Hk. rewrite fmap_app, elem_of_app in Hk.
    rewrite micro_batch_watermark.
    etransitivity; [by apply Hout|apply advance_ge].
  - rewrite fmap_app. apply NoDup_app. split; [done|]. split.
    + intros k Hk ([k' v] & -> & Hkv)%list_elem_of_fmap. simpl in Hk.
      apply micro_batch_finalizes in Hkv; [|by apply Hclosed].
      rewrite Hgone in Hkv; done.
    + apply micro_batch_output_NoDup.
  - intros k Hk. rewrite fmap_app, elem_of_app in Hk.
    by apply micro_batch_finalizes, Hout.
Qed.

Lemma sink_invariant_run (bs : list (list R)) (st : StreamState K B)
  (sink : list (Z * Z * K * B)) :
  sink_invariant st sink ->
  sink_invariant (run_from st sink bs).1 (run_from st sink bs).2.
Proof.
  revert st sink. induction bs as [|df bs IH]; intros st sink Hinv; [done|].
  rewrite run_cons. by apply IH, sink_invariant_step.
Qed.

(** Once the watermark has passed the end of a window, the next
    micro-batch, whatever it carries, leaves every key of that window
    emitted exactly once and without a buffer. *)
Lemma closed_window_emitted_once (st : StreamState K B)
  (sink : list (Z * Z * K * B)) (df : list R) (k : Z * Z * K) :
  sink_invariant st sink ->
  window_end k <= watermark st ->
  is_Some (store st !! k) \/ k ∈ sink.*1 ->
  times_emitted k (sink ++ (step st df).2) = 1%nat
  /\ store (step st df).1 !! k = None.
Proof.
  intros Hinv Hle Hk.
  pose proof (sink_invariant_step st sink df Hinv) as (_ & Hnd & _).
  destruct (micro_batch_finalizes st df k Hle) as [Hout Hgone].
  split; [|done]. apply times_emitted_once; [done|].
  rewrite fmap_app, elem_of_app.
  destruct Hk as [[v Hv] | Hk]; [right|by left].
  apply list_elem_of_fmap. exists (k, v). split; [done|]. by apply Hout.
Qed.

(** *** Rows that arrive after all their windows have closed *)


Lemma replicas_app (df1 df2 : list R) :
  replicas (df1 ++ df2) = replicas df1 ++ replicas df2.
Proof. unfold explode. apply bind_app. Qed.



End Engine.

(** ** More on the windowed aggregation *)

Lemma configured_windows_NoDup (ts : option timestamp) :
  NoDup (window ts window_duration slide_duration).
Proof.
  destruct ts as [t|]; [|constructor].
  apply window_NoDup; [done|done|by exists 5].
Qed.

Section EngineMore.
Context {R K B : Type} `{Countable K}.
Variable event_time : R -> option timestamp.
Variable group_key : R -> K.
Variable init : B.
Variable update : B -> R -> B.
Variable merge : B -> B -> B.

Local Abbreviation step := (micro_batch event_time group_key init update merge).
Local Abbreviation run_from := (run event_time group_key init update merge).
Local Abbreviation fold_in := (accumulate init update).
Local Abbreviation replicas := (explode event_time group_key).

(** The group keys a row is replicated under. *)
Local Abbreviation keys_of e := ((replicas [e]).*1) (only parsing).

Lemma replicas_cons (e : R) (df : list R) :
  replicas (e :: df) = replicas [e] ++ replicas df.
Proof. apply (replicas_app event_time group_key [e] df). Qed.

Lemma replicas_one (e : R) :
  replicas [e]
  = (fun w => (w, group_key e, e))
      <$> window (event_time e) window_duration slide_duration.
Proof. unfold explode. by rewrite bind_singleton. Qed.

Lemma replicas_rows (df : list R) (x : Z * Z * K * R) :
  x ∈ replicas df -> x.2 ∈ df /\ x.1 ∈ keys_of x.2.
Proof.
  induction df as [|e df IH]; [by intros ?%elem_of_nil|].
  rewrite replicas_cons, elem_of_app. intros [Hx | Hx].
  - pose proof Hx as Hx'. rewrite replicas_one in Hx'.
    apply list_elem_of_fmap in Hx' as (w & -> & Hw). simpl. split.
    + apply list_elem_of_here.
    + apply list_elem_of_fmap. by exists (w, group_key e, e).
  - destruct (IH Hx) as [? ?]. split; [by apply list_elem_of_further|done].
Qed.

(** A row with no event time belongs to no window. *)
Lemma replicas_null_time (e : R) : event_time e = None -> replicas [e] = [].
Proof. intros He. by rewrite replicas_one, He. Qed.

Lemma null_time_row_ignored (st : StreamState K B) (df1 df2 : list R) (e : R) :
  event_time e = None ->
  step st (df1 ++ e :: df2) = step st (df1 ++ df2).
Proof.
  intros He. unfold micro_batch.
  change (e :: df2) with ([e] ++ df2).
  rewrite !(replicas_app event_time group_key), replicas_null_time by done.
  rewrite app_nil_l.
  assert (advance event_time (watermark st) (df1 ++ [e] ++ df2)
          = advance event_time (watermark st) (df1 ++ df2)) as ->; [|done].
  unfold advance. rewrite !foldl_app. simpl. by rewrite He.
Qed.

(** *** The buffer of a key is the fold of its rows *)

Lemma foldl_accumulate_lookup (xs : list (Z * Z * K * R))
  (m : gmap (Z * Z * K) B) (k : Z * Z * K) :
  foldl fold_in m xs !! k
  = match (filter (fun x => x.1 = k) xs).*2 with
    | [] => m !! k
    | rows => Some (foldl update (default init (m !! k)) rows)
    end.
Proof.
  revert m. induction xs as [|x xs IH]; intros m; [done|].
  change (foldl fold_in m (x :: xs)) with (foldl fold_in (fold_in m x) xs).
  rewrite IH.
  destruct (decide (x.1 = k)) as [<-|Hne].
  - rewrite (filter_cons_True (fun y => y.1 = x.1)) by done.
    unfold accumulate. rewrite lookup_insert_eq. rewrite fmap_cons. simpl.
    by destruct ((filter (fun y => y.1 = x.1) xs).*2).
  - rewrite (filter_cons_False (fun y => y.1 = k)) by done.
    unfold accumulate. by rewrite lookup_insert_ne.
Qed.

Lemma filter_key_on_time (W : Z) (xs : list (Z * Z * K * R)) (k : Z * Z * K) :
  W < window_end k ->
  filter (fun x => x.1 = k) (filter (fun x => W < window_end x.1) xs)
  = filter (fun x => x.1 = k) xs.
Proof.
  intros Hk. induction xs as [|x xs IH]; [done|].
  destruct (decide (W < window_end x.1)) as [Hx|Hx].
  - rewrite (filter_cons_True (fun y => W < window_end y.1)) by done.
    rewrite !(filter_cons (fun y => y.1 = k)), IH. done.
  - rewrite (filter_cons_False (fun y => W < window_end y.1)) by done.
    rewrite IH. rewrite (filter_cons_False (fun y => y.1 = k)); [done|].
    intros Heq. apply Hx. by rewrite Heq.
Qed.

Lemma filter_key_fmap (ws : list (Z * Z)) (e : R) (k : Z * Z * K) :
  NoDup ws ->
  (filter (fun x => x.1 = k) ((fun w => (w, group_key e, e)) <$> ws)).*2
  = if decide (k ∈ ((fun w => (w, group_key e, e)) <$> ws).*1)
    then [e] else [].
Proof.
  intros Hnd. induction Hnd as [|w ws Hw Hnd IH]; [done|].
  rewrite !fmap_cons. simpl fst.
  destruct (decide ((w, group_key e) = k)) as [<-|Hne].
  - rewrite (filter_cons_True (fun x => x.1 = (w, group_key e))) by done.
    rewrite decide_True by apply list_elem_of_here.
    rewrite fmap_cons. simpl snd. f_equal.
    assert (Hnin : (w, group_key e)
                   ∉ ((fun w0 => (w0, group_key e, e)) <$> ws).*1).
    { intros Hin. apply Hw.
      apply list_elem_of_fmap in Hin as (x & Hx1 & Hx).
      apply list_elem_of_fmap in Hx as (w' & -> & Hw'). simpl in Hx1.
      by injection Hx1 as ->. }
    rewrite IH. by rewrite decide_False.
  - rewrite (filter_cons_False (fun x => x.1 = k)) by done.
    rewrite IH.
    destruct (decide (k ∈ ((fun w0 => (w0, group_key e, e)) <$> ws).*1))
      as [Hin|Hnin].
    + rewrite decide_True; [done|]. by apply list_elem_of_further.
    + rewrite decide_False; [done|].
      intros [Heq | Hin]%elem_of_cons; [by apply Hne|by apply Hnin].
Qed.

Lemma filter_key_replicas_one (e : R) (k : Z * Z * K) :
  (filter (fun x => x.1 = k) (replicas [e])).*2
  = if decide (k ∈ keys_of e) then [e] else [].
Proof.
  pose proof (replicas_one e) as ->.
  apply filter_key_fmap, configured_windows_NoDup.
Qed.

Lemma filter_key_replicas (df : list R) (k : Z * Z * K) :
  (filter (fun x => x.1 = k) (replicas df)).*2
  = filter (fun e => k ∈ keys_of e) df.
Proof.
  induction df as [|e df IH]; [done|].
  rewrite replicas_cons, filter_app, fmap_app, IH, filter_key_replicas_one.
  rewrite filter_cons. by destruct (decide (k ∈ keys_of e)).
Qed.

(** What merging a batch of rows into the buffer a key holds gives. *)
Local Abbreviation merged_with :=
  (fun (held : option B) (rows : list R) =>
     match held with
     | Some a => merge a (foldl update init rows)
     | None => foldl update init rows
     end).

(** After a micro-batch, the buffer of a key whose window is still open
    is the buffer it held if no row of the batch belongs to the key;
    otherwise it is the aggregate of those rows, folded in order of arrival
    onto the empty buffer, merged into the buffer it held, if any. *)
Lemma open_window_buffer (st : StreamState K B) (df : list R) (k : Z * Z * K) :
  watermark st < window_end k ->
  store (step st df).1 !! k
  = match filter (fun e => k ∈ keys_of e) df with
    | [] => store st !! k
    | rows => Some (merged_with (store st !! k) rows)
    end.
Proof.
  intros Hk. rewrite (micro_batch_store event_time group_key init update merge).
  rewrite decide_False by lia.
  unfold merge_into. rewrite lookup_union_with.
  rewrite foldl_accumulate_lookup, filter_key_on_time by done.
  rewrite filter_key_replicas, lookup_empty.
  destruct (filter (fun e => k ∈ keys_of e) df) as [|r rows];
    by destruct (store st !! k).
Qed.

(** *** Rows on time are never dropped *)





(** *** Open and closed windows *)

Lemma micro_batch_partition (st : StreamState K B) (df : list R) :
  (forall kv, kv ∈ (step st df).2 -> window_end kv.1 <= watermark st)
  /\ (forall k, is_Some (store (step st df).1 !! k) ->
        watermark st < window_end k).
Proof.
  split.
  - intros [k v] Hkv.
    by apply (micro_batch_output event_time group_key init update merge) in Hkv as [_ ?].
  - intros k [v Hv].
    rewrite (micro_batch_store event_time group_key init update merge) in Hv.
    destruct (decide (window_end k <= watermark st)); [done|lia].
Qed.

(** *** Properties every buffer has *)

Section BufferInvariant.
Variable P : B -> Prop.
Hypothesis P_first : forall r, P (update init r).
Hypothesis P_next : forall b r, P b -> P (update b r).
Hypothesis P_merge : forall a b, P a -> P b -> P (merge a b).

Lemma foldl_accumulate_invariant (xs : list (Z * Z * K * R))
  (m : gmap (Z * Z * K) B) :
  map_Forall (fun _ b => P b) m ->
  map_Forall (fun _ b => P b) (foldl fold_in m xs).
Proof.
  revert m. induction xs as [|x xs IH]; intros m Hm; [done|].
  simpl. apply IH. unfold accumulate. apply map_Forall_insert_2; [|done].
  destruct (m !! x.1) as [b|] eqn:Hb; simpl.
  - apply P_next. by apply (Hm x.1).
  - apply P_first.
Qed.

Lemma merge_into_invariant (state batch : gmap (Z * Z * K) B) :
  map_Forall (fun _ b => P b) state ->
  map_Forall (fun _ b => P b) batch ->
  map_Forall (fun _ b => P b) (merge_into merge state batch).
Proof.
  intros Hstate Hbatch k b. unfold merge_into. rewrite lookup_union_with.
  destruct (state !! k) as [x|] eqn:Hx, (batch !! k) as [y|] eqn:Hy;
    simpl; intros [= <-].
  - apply P_merge; [by apply (Hstate k)|by apply (Hbatch k)].
  - by apply (Hstate k).
  - by apply (Hbatch k).
Qed.

Lemma micro_batch_invariant (st : StreamState K B) (df : list R) :
  map_Forall (fun _ b => P b) (store st) ->
  map_Forall (fun _ b => P b) (store (step st df).1)
  /\ Forall (fun kv => P kv.2) (step st df).2.
Proof.
  intros Hst.
  pose proof (merge_into_invariant (store st) _ Hst
                (foldl_accumulate_invariant
                   (filter (fun x => watermark st < window_end x.1)
                           (replicas df))
                   ∅ (map_Forall_empty _))) as Hm.
  unfold micro_batch. simpl. split.
  - intros k b Hk. apply map_lookup_filter_Some in Hk as [Hk _].
    by apply (Hm k).
  - apply Forall_forall. intros [k b] Hkb.
    apply elem_of_map_to_list, map_lookup_filter_Some in Hkb as [Hk _].
    by apply (Hm k).
Qed.

Lemma run_invariant (bs : list (list R)) (st : StreamState K B)
  (sink : list (Z * Z * K * B)) :
  map_Forall (fun _ b => P b) (store st) -> Forall (fun kv => P kv.2) sink ->
  map_Forall (fun _ b => P b) (store (run_from st sink bs).1)
  /\ Forall (fun kv => P kv.2) (run_from st sink bs).2.
Proof.
  revert st sink. induction bs as [|df bs IH]; intros st sink Hst Hsink; [done|].
  rewrite (run_cons event_time group_key init update merge).
  destruct (micro_batch_invariant st df Hst) as [Hst' Hout].
  apply IH; [done|]. apply Forall_app. done.
Qed.

End BufferInvariant.

End EngineMore.

(** ** The plans of the queries *)

Lemma string_app_assoc (a b c : string) : (a +:+ b) +:+ c = a +:+ (b +:+ c).
Proof.
  induction a as [|x a IH]; [done|].
  change (String x (a +:+ b) +:+ c = String x (a +:+ (b +:+ c))).
  change (String x ((a +:+ b) +:+ c) = String x (a +:+ (b +:+ c))).
  by rewrite IH.
Qed.

Lemma string_app_inj (p a b : string) : p +:+ a = p +:+ b -> a = b.
Proof.
  induction p as [|x p IH]; [done|].
  change (String x (p +:+ a) = String x (p +:+ b) -> a = b).
  intros [= Heq]. by apply IH.
Qed.

(** The transformations succeed on the frames read with the two schemas,
    and the analytics and alert frames can be built from the result. *)
Lemma transaction_frames (stream_name : string) :
  exists transformed analytics alerts,
    Plan.apply_streaming_transformations
      (Plan.read_kinesis_stream stream_name Plan.get_transaction_schema)
      "transactions" = Plan.Ok transformed
    /\ Plan.create_real_time_analytics transformed "transactions"
       = Plan.Ok analytics
    /\ Plan.create_alert_stream transformed "transactions" = Plan.Ok alerts
    /\ Plan.stream transformed = stream_name
    /\ forallb (Plan.resolves transformed) ["year"; "month"; "day"]%string
       = true
    /\ Forall (fun c => Plan.resolves analytics c = false)
              ["year"; "month"; "day"]%string
    /\ Forall (fun c => Plan.resolves alerts c = false)
              ["year"; "month"; "day"]%string.
Proof.
  do 3 eexists. split; [vm_compute; reflexivity|].
  split; [vm_compute; reflexivity|]. split; [vm_compute; reflexivity|].
  split; [reflexivity|]. split; [vm_compute; reflexivity|].
  split; repeat constructor.
Qed.

Lemma remittance_frames (stream_name : string) :
  exists transformed analytics alerts,
    Plan.apply_streaming_transformations
      (Plan.read_kinesis_stream stream_name Plan.get_remittance_schema)
      "remittances" = Plan.Ok transformed
    /\ Plan.create_real_time_analytics transformed "remittances"
       = Plan.Ok analytics
    /\ Plan.create_alert_stream transformed "remittances" = Plan.Ok alerts
    /\ Plan.stream transformed = stream_name
    /\ forallb (Plan.resolves transformed) ["year"; "month"; "day"]%string
       = true
    /\ Forall (fun c => Plan.resolves analytics c = false)
              ["year"; "month"; "day"]%string
    /\ Forall (fun c => Plan.resolves alerts c = false)
              ["year"; "month"; "day"]%string.
Proof.
  do 3 eexists. split; [vm_compute; reflexivity|].
  split; [vm_compute; reflexivity|]. split; [vm_compute; reflexivity|].
  split; [reflexivity|]. split; [vm_compute; reflexivity|].
  split; repeat constructor.
Qed.

(** [start] on a frame that lacks a partition column starts nothing. *)
Lemma start_raises (q : Plan.StreamingQuery) (c : string)
  (started : list Plan.StreamingQuery) :
  c ∈ Plan.partitionBy q -> Plan.resolves (Plan.frame q) c = false ->
  Plan.start q started = (started, Plan.AnalysisException).
Proof.
  intros Hc Hres. unfold Plan.start.
  destruct (forallb _ _) eqn:Hall; [|done].
  rewrite forallb_forall in Hall.
  rewrite (Hall c) in Hres; [done|]. by apply list_elem_of_In.
Qed.

Lemma start_starts (q : Plan.StreamingQuery)
  (started : list Plan.StreamingQuery) :
  forallb (Plan.resolves (Plan.frame q)) (Plan.partitionBy q) = true ->
  Plan.start q started = (started ++ [q], Plan.Ok q).
Proof. intros Hall. unfold Plan.start. by rewrite Hall. Qed.

(** The first query of [process_transaction_stream], the one that writes
    the transformed rows, on the frame [transformed]. *)
Lemma process_transaction_stream_raises (bucket stream_prefix : string)
  (started : list Plan.StreamingQuery) :
  exists transformed,
    Plan.apply_streaming_transformations
      (Plan.read_kinesis_stream (stream_prefix +:+ "-transactions")
                                Plan.get_transaction_schema)
      "transactions" = Plan.Ok transformed
    /\ Plan.process_transaction_stream (Plan.init bucket stream_prefix) started
       = (started
          ++ [ {| Plan.frame := transformed;
                  Plan.format := "parquet";
                  Plan.path :=
                    ("s3a://" +:+ bucket +:+ "/streaming") +:+ "/transactions";
                  Plan.checkpointLocation :=
                    ("s3a://" +:+ bucket +:+ "/checkpoints/streaming")
                    +:+ "/transactions";
                  Plan.partitionBy := ["year"; "month"; "day"]%string;
                  Plan.trigger := "1 minute";
                  Plan.outputMode := "append" |} ],
          Plan.AnalysisException).
Proof.
  destruct (transaction_frames (stream_prefix +:+ "-transactions"))
    as (transformed & analytics & alerts & Htrans & Hana & Halerts
        & _ & Hparts & Hmissing & _).
  exists transformed. split; [done|].
  unfold Plan.process_transaction_stream, Plan.and_then, Plan.lift.
  cbn [Plan.kinesis_stream Plan.init Plan.streaming_path
       Plan.checkpoint_location Plan.curated_path].
  rewrite Htrans, Hana, Halerts.
  unfold Plan.write_streaming_data at 1.
  rewrite start_starts by exact Hparts.
  unfold Plan.write_streaming_data.
  rewrite (start_raises _ "year"); [done|apply list_elem_of_here|].
  by apply Forall_cons_1 in Hmissing as [? _].
Qed.

Lemma run_streaming_pipeline_raises (bucket stream_prefix : string)
  (started : list Plan.StreamingQuery) :
  Plan.run_streaming_pipeline (Plan.init bucket stream_prefix) started
  = ((Plan.process_transaction_stream
        (Plan.init bucket stream_prefix) started).1,
     Plan.AnalysisException).
Proof.
  destruct (process_transaction_stream_raises bucket stream_prefix started)
    as (transformed & _ & Hraises).
  unfold Plan.run_streaming_pipeline, Plan.and_then. by rewrite Hraises.
Qed.

(** ** The transaction analytics query *)

Lemma create_real_time_analytics_state (st : TxnAnalytics.State)
  (df : list Txn.Transformed) :
  (TxnAnalytics.create_real_time_analytics st df).1
  = (micro_batch TxnAnalytics.event_time TxnAnalytics.group_key
       TxnAnalytics.init TxnAnalytics.update TxnAnalytics.merge st df).1.
Proof.
  unfold TxnAnalytics.create_real_time_analytics.
  by destruct (micro_batch _ _ _ _ _ st df).
Qed.

Lemma create_real_time_analytics_eq (st : TxnAnalytics.State)
  (df : list Txn.Transformed) :
  TxnAnalytics.create_real_time_analytics st df
  = ((micro_batch TxnAnalytics.event_time TxnAnalytics.group_key
        TxnAnalytics.init TxnAnalytics.update TxnAnalytics.merge st df).1,
     TxnAnalytics.analytics_row
       <$> (micro_batch TxnAnalytics.event_time TxnAnalytics.group_key
              TxnAnalytics.init TxnAnalytics.update TxnAnalytics.merge
              st df).2).
Proof.
  unfold TxnAnalytics.create_real_time_analytics.
  by destruct (micro_batch _ _ _ _ _ st df).
Qed.

Lemma current_watermark_advance (events : list Txn.Transformed) :
  current_watermark events = advance TxnAnalytics.event_time 0 events.
Proof. unfold current_watermark, txn_run. by rewrite run_one_by_one_watermark. Qed.

Lemma advance_app {R : Type} (event_time : R -> option timestamp)
  (W : Z) (df1 df2 : list R) :
  advance event_time W (df1 ++ df2)
  = advance event_time (advance event_time W df1) df2.
Proof. unfold advance. by rewrite foldl_app. Qed.

(** C3. The watermark of the query never decreases: not over a
    micro-batch, whatever rows it carries, and not from one event to the
    next when events are processed one at a time, even when the next event
    is older than one already seen.  It is the largest event time seen,
    cut to whole milliseconds, minus the allowed lateness (and 0, the
    value it starts from, until that is positive). *)
Theorem watermark_monotone :
  (forall (st : TxnAnalytics.State) (df : list Txn.Transformed),
      watermark st
      <= watermark (TxnAnalytics.create_real_time_analytics st df).1)
  /\ (forall (events : list Txn.Transformed) (e : Txn.Transformed),
      current_watermark events <= current_watermark (events ++ [e]))
  /\ (forall events : list Txn.Transformed,
      (forall e t, e ∈ events -> TxnAnalytics.event_time e = Some t ->
                   to_millis t - watermark_delay <= current_watermark events)
      /\ (current_watermark events = 0
          \/ exists e t, e ∈ events /\ TxnAnalytics.event_time e = Some t
                         /\ current_watermark events
                            = to_millis t - watermark_delay)).
Proof.
  split; [|split].
  - intros st df. rewrite create_real_time_analytics_state.
    rewrite micro_batch_watermark. apply advance_ge.
  - intros events e. rewrite !current_watermark_advance, advance_app.
    apply advance_ge.
  - intros events. rewrite current_watermark_advance. split.
    + intros e t. apply advance_covers.
    + apply advance_attained.
Qed.

Lemma txn_run_invariant (batches : list (list Txn.Transformed)) :
  sink_invariant (txn_run batches).1 (txn_run batches).2.
Proof. apply sink_invariant_run, sink_invariant_initial. Qed.

(** The pipeline starts no query that writes to the analytics path. *)
Lemma analytics_query_not_started (bucket stream_prefix : string) :
  analytics_path (Plan.init bucket stream_prefix)
  ∉ Plan.path
      <$> (Plan.run_streaming_pipeline (Plan.init bucket stream_prefix) []).1.
Proof.
  rewrite run_streaming_pipeline_raises.
  destruct (process_transaction_stream_raises bucket stream_prefix [])
    as (transformed & _ & ->).
  cbn [fst app fmap list_fmap Plan.path].
  unfold analytics_path. cbn [Plan.curated_path Plan.init].
  rewrite !string_app_assoc.
  intros Hin%list_elem_of_singleton.
  by apply string_app_inj, string_app_inj in Hin.
Qed.

(** C2. The sink of the analytics query receives no window key at all.
    [write_streaming_data] partitions by [year], [month] and [day], which
    the analytics frame does not have, so starting the query raises and
    the pipeline ends before any micro-batch runs: whatever the bucket,
    the stream prefix and the events, every key is received zero times.
    So it is for the key of the window from 12:00 to 12:05 after three
    transactions in that window and one an hour later: the window's end
    plus the allowed lateness is below the watermark and the key holds a
    buffer, the query, had it been started, would have put the key out
    once, and the sink has received it zero times. *)
Theorem analytics_sink_receives_nothing (bucket stream_prefix : string) :
  (forall batches k,
      times_emitted k
        (analytics_sink (Plan.init bucket stream_prefix) batches) = 0%nat)
  /\ window_end scenario_key + watermark_delay
     <= watermark (txn_run [scenario_batch; later_batch]).1
  /\ is_Some (store (txn_run [scenario_batch; later_batch]).1 !! scenario_key)
  /\ times_emitted scenario_key (txn_run [scenario_batch; later_batch; []]).2
     = 1%nat
  /\ times_emitted scenario_key
       (analytics_sink (Plan.init bucket stream_prefix)
                       [scenario_batch; later_batch; []])
     = 0%nat.
Proof.
  assert (Hempty : forall batches,
             analytics_sink (Plan.init bucket stream_prefix) batches = []).
  { intros batches. unfold analytics_sink.
    rewrite bool_decide_eq_false_2; [done|].
    apply analytics_query_not_started. }
  split; [by intros batches k; rewrite Hempty|].
  split; [apply Z.leb_le; vm_compute; reflexivity|].
  split; [vm_compute; eexists; reflexivity|].
  split; [|by rewrite Hempty].
  change [scenario_batch; later_batch; []]
    with ([scenario_batch; later_batch] ++ [[]]).
  unfold txn_run at 1. rewrite run_snoc.
  apply (closed_window_emitted_once
           TxnAnalytics.event_time TxnAnalytics.group_key
           TxnAnalytics.init TxnAnalytics.update TxnAnalytics.merge
           (txn_run [scenario_batch; later_batch]).1
           (txn_run [scenario_batch; later_batch]).2 [] scenario_key).
  - apply txn_run_invariant.
  - apply Z.leb_le. vm_compute. reflexivity.
  - left. vm_compute. eexists. reflexivity.
Qed.





(** ** Reading the stream *)

(** C8, as amended.  The reader rejects nothing: every record of the
    stream, well formed or not, yields exactly one row, in which a field
    that is missing or does not parse is NULL and a field that parses
    carries its value, whatever that value is (a negative amount, an
    unknown sector) and whichever other fields are missing. *)
Theorem reader_never_rejects :
  (forall records : list (option (Txn.Row json_field)),
      length (Txn.read_kinesis_stream records) = length records
      /\ forall i payload, records !! i = Some payload ->
           Txn.read_kinesis_stream records !! i = Some (Txn.from_json payload))
  /\ (forall records : list (option (Rem.Row json_field)),
      length (Rem.read_kinesis_stream records) = length records
      /\ forall i payload, records !! i = Some payload ->
           Rem.read_kinesis_stream records !! i = Some (Rem.from_json payload))
  /\ (forall raw : Txn.Row json_field,
      Txn.transaction_id (Txn.from_json (Some raw))
        = field_value (Txn.transaction_id raw)
      /\ Txn.transaction_date (Txn.from_json (Some raw))
           = field_value (Txn.transaction_date raw)
      /\ Txn.amount (Txn.from_json (Some raw)) = field_value (Txn.amount raw)
      /\ Txn.sector (Txn.from_json (Some raw)) = field_value (Txn.sector raw))
  /\ (forall raw : Rem.Row json_field,
      Rem.remittance_id (Rem.from_json (Some raw))
        = field_value (Rem.remittance_id raw)
      /\ Rem.transaction_date (Rem.from_json (Some raw))
           = field_value (Rem.transaction_date raw)
      /\ Rem.amount (Rem.from_json (Some raw)) = field_value (Rem.amount raw)
      /\ Rem.exchange_rate (Rem.from_json (Some raw))
           = field_value (Rem.exchange_rate raw))
  /\ ~ (exists payload, txn_rejected payload).
Proof.
  split; [|split; [|split; [|split]]].
  - intros records. unfold Txn.read_kinesis_stream. split.
    + apply length_fmap.
    + intros i payload Hi. by rewrite list_lookup_fmap, Hi.
  - intros records. unfold Rem.read_kinesis_stream. split.
    + apply length_fmap.
    + intros i payload Hi. by rewrite list_lookup_fmap, Hi.
  - done.
  - done.
  - intros [payload Hrej]. discriminate Hrej.
Qed.

(** C8 as stated fails: a record without [amount] is invalid yet not
    rejected.  It is read as a row with a NULL amount, which the windowed
    aggregation then counts. *)
Lemma reader_counterexample :
  txn_invalid (Some raw_without_amount)
  /\ ~ txn_rejected (Some raw_without_amount)
  /\ Txn.amount <$> Txn.read_kinesis_stream [Some raw_without_amount] = [None]
  /\ TxnAnalytics.buf_count
       (TxnAnalytics.aggregate
          (Txn.apply_streaming_transformations 0
             <$> Txn.read_kinesis_stream [Some raw_without_amount]))
     = 1.
Proof.
  split; [|split; [|split]]; [| |reflexivity|reflexivity].
  - simpl. intros Hp. exact Hp.
  - intros Hrej. discriminate Hrej.
Qed.

(** ** The scenario of three transactions *)

Section Scenario.
Variable now : timestamp.
Variable w : Z * Z.
Variable key : option string * option string.

Local Abbreviation transformed := (Txn.apply_streaming_transformations now).
Local Abbreviation step := TxnAnalytics.create_real_time_analytics.

(** A transaction of the scenario: not failed, not before the epoch, in
    the window [w] and of the key [key]. *)
Local Abbreviation in_scenario :=
  (fun r : Txn.Row option =>
     Txn.status r <> Some "FAILED"%string
     /\ TxnAnalytics.group_key (transformed r) = key
     /\ exists t, Txn.transaction_date r = Some t /\ 0 <= t
                  /\ w ∈ window (Some t) window_duration slide_duration).

(** While only transactions of the scenario have been seen, the watermark
    is at or below the bound [Z.max 0 w.1] and every buffer held belongs
    to a window that ends after the bound. *)
Local Abbreviation quiet :=
  (fun st : TxnAnalytics.State =>
     watermark st <= Z.max 0 w.1
     /\ forall k, is_Some (store st !! k) -> Z.max 0 w.1 < window_end k).






End Scenario.




(** ** Order of arrival and the aggregate *)

Lemma foldl_permutation {A E : Type} (f : A -> E -> A) (l l' : list E) :
  (forall a x y, f (f a x) y = f (f a y) x) ->
  l ≡ₚ l' -> forall a, foldl f a l = foldl f a l'.
Proof.
  intros Hcomm Hperm.
  induction Hperm as [|x l l' _ IH|x y l|l l' l'' _ IH1 _ IH2]; intros a; simpl.
  - done.
  - apply IH.
  - by rewrite Hcomm.
  - by rewrite IH1.
Qed.

Lemma foldl_step {A E : Type} (f : A -> E -> A) (a : A) (x : E) (l : list E) :
  foldl f a (x :: l) = foldl f (f a x) l.
Proof. done. Qed.

Lemma whole_step_comm (acc : option (Z * Z * Z)) (x y : Z) :
  whole_step (whole_step acc x) y = whole_step (whole_step acc y) x.
Proof.
  destruct acc as [[[s hi] lo]|]; simpl; f_equal;
    rewrite !pair_equal_spec; repeat split; lia.
Qed.

Lemma sum_abs_nonneg (zs : list Z) : 0 <= sum_abs zs.
Proof. induction zs as [|z zs IH]; simpl; lia. Qed.

Lemma update_amount_whole (c : Z) (acc : option (Z * Z * Z)) (z : Z)
  (zs : list Z) :
  whole_bounded acc (z :: zs) ->
  TxnAnalytics.update_amount (whole_buffer c acc) (Some (Double.of_Z z))
  = whole_buffer (c + 1) (whole_step acc z)
  /\ whole_bounded (whole_step acc z) zs.
Proof.
  pose proof (sum_abs_nonneg zs) as Hzs.
  unfold TxnAnalytics.update_amount, whole_buffer.
  destruct acc as [[[s hi] lo]|];
    cbn -[Double.add Double.of_Z Double.ltb Z.pow sum_abs];
    change (sum_abs (z :: zs)) with (Z.abs z + sum_abs zs).
  - intros (Hs & Hhi & Hlo). split; [|lia].
    rewrite add_exact by lia. rewrite !ltb_exact by lia.
    f_equal; f_equal.
    + destruct (Z.ltb_spec hi z); f_equal; lia.
    + destruct (Z.ltb_spec z lo); f_equal; lia.
  - intros Hz. split; [|lia].
    by rewrite (add_exact 0 z) by lia.
Qed.

Lemma foldl_update_amount_whole (zs : list Z) (c : Z)
  (acc : option (Z * Z * Z)) :
  whole_bounded acc zs ->
  foldl TxnAnalytics.update_amount (whole_buffer c acc)
        ((fun z => Some (Double.of_Z z)) <$> zs)
  = whole_buffer (c + Z.of_nat (length zs)) (foldl whole_step acc zs).
Proof.
  revert c acc. induction zs as [|z zs IH]; intros c acc Hb.
  - simpl. by rewrite Z.add_0_r.
  - destruct (update_amount_whole c acc z zs Hb) as [Hstep Hb'].
    rewrite fmap_cons, foldl_step, Hstep, foldl_step, IH by done.
    f_equal. simpl length. lia.
Qed.

Lemma aggregate_whole (rows : list Txn.Transformed) (zs : list Z) :
  whole_amounts rows zs -> sum_abs zs < 2 ^ 53 ->
  TxnAnalytics.aggregate rows
  = whole_buffer (Z.of_nat (length zs)) (foldl whole_step None zs).
Proof.
  intros Hrows Hb. unfold TxnAnalytics.aggregate, TxnAnalytics.update.
  rewrite <- (foldl_fmap TxnAnalytics.update_amount), Hrows.
  change TxnAnalytics.init with (whole_buffer 0 None).
  by rewrite foldl_update_amount_whole.
Qed.

Lemma sum_abs_permutation (zs zs' : list Z) :
  zs ≡ₚ zs' -> sum_abs zs = sum_abs zs'.
Proof.
  induction 1 as [|x l l' _ IH|x y l|l l' l'' _ IH1 _ IH2]; simpl; lia.
Qed.

Lemma aggregate_count (rows : list Txn.Transformed) :
  TxnAnalytics.buf_count (TxnAnalytics.aggregate rows)
  = Z.of_nat (length rows).
Proof.
  unfold TxnAnalytics.aggregate.
  assert (Hgen : forall b,
             TxnAnalytics.buf_count (foldl TxnAnalytics.update b rows)
             = TxnAnalytics.buf_count b + Z.of_nat (length rows)).
  { induction rows as [|r rows IH]; intros b; simpl; [lia|].
    rewrite IH. unfold TxnAnalytics.update, TxnAnalytics.update_amount.
    destruct (Txn.amount (Txn.base r)); simpl; lia. }
  by rewrite Hgen.
Qed.

Lemma whole_amounts_permutation (rows rows' : list Txn.Transformed)
  (zs : list Z) :
  rows ≡ₚ rows' -> whole_amounts rows zs ->
  exists zs', zs ≡ₚ zs' /\ whole_amounts rows' zs'.
Proof.
  unfold whole_amounts. intros Hperm Hrows.
  assert (Hp : (fun t => Txn.amount (Txn.base t)) <$> rows'
               ≡ₚ (fun z => Some (Double.of_Z z)) <$> zs).
  { rewrite <- Hrows. by apply fmap_Permutation. }
  apply Permutation_map_inv in Hp as (zs' & Heq & Hzs).
  exists zs'. split; [done|]. exact Heq.
Qed.

(** C1, as amended.  When the amounts of the events delivered for a window
    key are whole numbers whose absolute values add up to less than
    [2 ^ 53], so that every double-precision partial sum is exact, the
    aggregate (count, sum, minimum, maximum) is the same for every order of
    delivery.  The count is the same for every order whatever the amounts. *)
Theorem aggregate_order_independent
  (rows rows' : list Txn.Transformed) (zs : list Z) :
  rows ≡ₚ rows' ->
  whole_amounts rows zs ->
  sum_abs zs < 2 ^ 53 ->
  TxnAnalytics.aggregate rows = TxnAnalytics.aggregate rows'
  /\ (forall l l' : list Txn.Transformed,
        l ≡ₚ l' ->
        TxnAnalytics.buf_count (TxnAnalytics.aggregate l)
        = TxnAnalytics.buf_count (TxnAnalytics.aggregate l')).
Proof.
  intros Hperm Hrows Hb. split.
  - destruct (whole_amounts_permutation rows rows' zs Hperm Hrows)
      as (zs' & Hzs & Hrows').
    rewrite (aggregate_whole rows zs), (aggregate_whole rows' zs'); try done.
    + f_equal.
      * by rewrite Hzs.
      * by apply foldl_permutation; [apply whole_step_comm|].
    + by rewrite <- (sum_abs_permutation zs zs').
  - intros l l' Hl. rewrite !aggregate_count. by rewrite Hl.
Qed.

Lemma scenario_whole_amounts :
  whole_amounts scenario_batch [50; 150000; -20].
Proof. reflexivity. Qed.

Lemma aggregate_order_independent_witness :
  TxnAnalytics.aggregate scenario_batch
  = TxnAnalytics.aggregate (reverse scenario_batch).
Proof.
  apply (aggregate_order_independent scenario_batch (reverse scenario_batch)
           [50; 150000; -20]).
  - symmetry. apply reverse_Permutation.
  - apply scenario_whole_amounts.
  - apply Z.ltb_lt. vm_compute. reflexivity.
Defined.

(** C1 as stated fails: double-precision addition is not associative.
    Amounts 100.10, 200.20 and 300.30 add up to 600.5999999999999 in that
    order and to 600.6 in the reverse order. *)
Lemma aggregate_order_counterexample :
  cents_ascending ≡ₚ cents_descending
  /\ TxnAnalytics.group_key <$> cents_ascending
     = [(Some "HN"%string, Some "REPAYMENT"%string);
        (Some "HN"%string, Some "REPAYMENT"%string);
        (Some "HN"%string, Some "REPAYMENT"%string)]
  /\ TxnAnalytics.buf_sum (TxnAnalytics.aggregate cents_ascending)
     = Some (S754_finite false 5282933469138124 (-43))
  /\ TxnAnalytics.buf_sum (TxnAnalytics.aggregate cents_descending)
     = Some (Double.of_decimal 6006 1)
  /\ TxnAnalytics.aggregate cents_ascending
     <> TxnAnalytics.aggregate cents_descending.
Proof.
  split; [|split; [|split; [|split]]].
  - change cents_descending with (reverse cents_ascending).
    symmetry. apply reverse_Permutation.
  - reflexivity.
  - by vm_compute.
  - by vm_compute.
  - intros Heq. apply (f_equal TxnAnalytics.buf_sum) in Heq.
    vm_compute in Heq. discriminate Heq.
Qed.

(** * Further properties *)

(** ** What the pipeline starts *)

Lemma process_remittance_stream_raises (bucket stream_prefix : string)
  (started : list Plan.StreamingQuery) :
  exists transformed,
    Plan.apply_streaming_transformations
      (Plan.read_kinesis_stream (stream_prefix +:+ "-remittances")
                                Plan.get_remittance_schema)
      "remittances" = Plan.Ok transformed
    /\ Plan.process_remittance_stream (Plan.init bucket stream_prefix) started
       = (started
          ++ [ {| Plan.frame := transformed;
                  Plan.format := "parquet";
                  Plan.path :=
                    ("s3a://" +:+ bucket +:+ "/streaming") +:+ "/remittances";
                  Plan.checkpointLocation :=
                    ("s3a://" +:+ bucket +:+ "/checkpoints/streaming")
                    +:+ "/remittances";
                  Plan.partitionBy := ["year"; "month"; "day"]%string;
                  Plan.trigger := "1 minute";
                  Plan.outputMode := "append" |} ],
          Plan.AnalysisException).
Proof.
  destruct (remittance_frames (stream_prefix +:+ "-remittances"))
    as (transformed & analytics & alerts & Htrans & Hana & Halerts
        & _ & Hparts & Hmissing & _).
  exists transformed. split; [done|].
  unfold Plan.process_remittance_stream, Plan.and_then, Plan.lift.
  cbn [Plan.kinesis_stream Plan.init Plan.streaming_path
       Plan.checkpoint_location Plan.curated_path].
  rewrite Htrans, Hana, Halerts.
  unfold Plan.write_streaming_data at 1.
  rewrite start_starts by exact Hparts.
  unfold Plan.write_streaming_data.
  rewrite (start_raises _ "year"); [done|apply list_elem_of_here|].
  by apply Forall_cons_1 in Hmissing as [? _].
Qed.

Lemma writers_raise (analytics alerts : Plan.DataFrame) :
  Forall (fun c => Plan.resolves analytics c = false)
         ["year"; "month"; "day"]%string ->
  Forall (fun c => Plan.resolves alerts c = false)
         ["year"; "month"; "day"]%string ->
  (forall path checkpoint trigger started,
      Plan.write_streaming_data analytics path checkpoint trigger started
      = (started, Plan.AnalysisException))
  /\ (forall path checkpoint started,
      Plan.write_alert_stream alerts path checkpoint started
      = (started, Plan.AnalysisException)).
Proof.
  intros [Hanalytics _]%Forall_cons_1 [Halerts _]%Forall_cons_1. split.
  - intros path checkpoint trigger started.
    by apply (start_raises _ "year"); [apply list_elem_of_here|].
  - intros path checkpoint started.
    by apply (start_raises _ "year"); [apply list_elem_of_here|].
Qed.

(** X3.  On either stream the transformed frame has the columns [year],
    [month] and [day] that [write_streaming_data] and [write_alert_stream]
    partition by, and the analytics and alert frames built from it have
    none of them.  So the writers raise on the analytics frame and on the
    alert frame, wherever they are told to write, and
    [process_transaction_stream] and [process_remittance_stream] each
    raise at their second write, having started one query, the one that
    writes the transformed rows. *)
Theorem partition_columns_missing (bucket stream_prefix : string) :
  (exists transformed analytics alerts,
      Plan.apply_streaming_transformations
        (Plan.read_kinesis_stream (stream_prefix +:+ "-transactions")
                                  Plan.get_transaction_schema)
        "transactions" = Plan.Ok transformed
      /\ Plan.create_real_time_analytics transformed "transactions"
         = Plan.Ok analytics
      /\ Plan.create_alert_stream transformed "transactions" = Plan.Ok alerts
      /\ Forall (fun c => Plan.resolves transformed c = true
                          /\ Plan.resolves analytics c = false
                          /\ Plan.resolves alerts c = false)
                ["year"; "month"; "day"]%string
      /\ (forall path checkpoint trigger started,
            Plan.write_streaming_data analytics path checkpoint trigger started
            = (started, Plan.AnalysisException))
      /\ (forall path checkpoint started,
            Plan.write_alert_stream alerts path checkpoint started
            = (started, Plan.AnalysisException))
      /\ (forall started, exists q,
            Plan.frame q = transformed
            /\ Plan.process_transaction_stream
                 (Plan.init bucket stream_prefix) started
               = (started ++ [q], Plan.AnalysisException)))
  /\ (exists transformed analytics alerts,
      Plan.apply_streaming_transformations
        (Plan.read_kinesis_stream (stream_prefix +:+ "-remittances")
                                  Plan.get_remittance_schema)
        "remittances" = Plan.Ok transformed
      /\ Plan.create_real_time_analytics transformed "remittances"
         = Plan.Ok analytics
      /\ Plan.create_alert_stream transformed "remittances" = Plan.Ok alerts
      /\ Forall (fun c => Plan.resolves transformed c = true
                          /\ Plan.resolves analytics c = false
                          /\ Plan.resolves alerts c = false)
                ["year"; "month"; "day"]%string
      /\ (forall path checkpoint trigger started,
            Plan.write_streaming_data analytics path checkpoint trigger started
            = (started, Plan.AnalysisException))
      /\ (forall path checkpoint started,
            Plan.write_alert_stream alerts path checkpoint started
            = (started, Plan.AnalysisException))
      /\ (forall started, exists q,
            Plan.frame q = transformed
            /\ Plan.process_remittance_stream
                 (Plan.init bucket stream_prefix) started
               = (started ++ [q], Plan.AnalysisException))).
Proof.
  split.
  - destruct (transaction_frames (stream_prefix +:+ "-transactions"))
      as (transformed & analytics & alerts & Htrans & Hana & Halerts
          & _ & Hparts & Hanalytics & Hal).
    exists transformed, analytics, alerts.
    destruct (writers_raise analytics alerts Hanalytics Hal) as [Hw Hwa].
    split; [exact Htrans|]. split; [exact Hana|]. split; [exact Halerts|].
    split.
    { rewrite forallb_forall in Hparts. rewrite Forall_forall in Hanalytics, Hal.
      apply Forall_forall. intros c Hc. split; [|split].
      - apply Hparts. apply list_elem_of_In. exact Hc.
      - apply Hanalytics. exact Hc.
      - apply Hal. exact Hc. }
    split; [exact Hw|]. split; [exact Hwa|]. intros started.
    destruct (process_transaction_stream_raises bucket stream_prefix started)
      as (transformed' & Htrans' & ->).
    rewrite Htrans in Htrans'. injection Htrans' as <-.
    eexists. split; [|reflexivity]. reflexivity.
  - destruct (remittance_frames (stream_prefix +:+ "-remittances"))
      as (transformed & analytics & alerts & Htrans & Hana & Halerts
          & _ & Hparts & Hanalytics & Hal).
    exists transformed, analytics, alerts.
    destruct (writers_raise analytics alerts Hanalytics Hal) as [Hw Hwa].
    split; [exact Htrans|]. split; [exact Hana|]. split; [exact Halerts|].
    split.
    { rewrite forallb_forall in Hparts. rewrite Forall_forall in Hanalytics, Hal.
      apply Forall_forall. intros c Hc. split; [|split].
      - apply Hparts. apply list_elem_of_In. exact Hc.
      - apply Hanalytics. exact Hc.
      - apply Hal. exact Hc. }
    split; [exact Hw|]. split; [exact Hwa|]. intros started.
    destruct (process_remittance_stream_raises bucket stream_prefix started)
      as (transformed' & Htrans' & ->).
    rewrite Htrans in Htrans'. injection Htrans' as <-.
    eexists. split; [|reflexivity]. reflexivity.
Qed.

(** X4.  [main] always ends with exit status 1 and never comes to wait
    on its queries.  Without exactly two arguments it starts nothing.
    Given a bucket and a stream prefix it starts one query, the one that
    writes the transformed rows of the transaction stream under the
    streaming path of the bucket, and then fails: the remittance stream is
    never read. *)
Theorem main_starts_one_query (argv : list string) :
  (Plan.main argv).2 = Plan.Exit 1
  /\ (length argv <> 3%nat -> (Plan.main argv).1 = [])
  /\ (forall script bucket stream_prefix,
        argv = [script; bucket; stream_prefix] ->
        Plan.path <$> (Plan.main argv).1
        = [Plan.streaming_path (Plan.init bucket stream_prefix)
           +:+ "/transactions"]
        /\ (fun q => Plan.stream (Plan.frame q)) <$> (Plan.main argv).1
           = [stream_prefix +:+ "-transactions"]).
Proof.
  destruct argv as [|script [|bucket [|stream_prefix [|extra argv]]]].
  1-3, 5: split; [reflexivity|split; [intros _; reflexivity|intros ? ? ? [=]]].
  unfold Plan.main. rewrite run_streaming_pipeline_raises.
  destruct (process_transaction_stream_raises bucket stream_prefix [])
    as (transformed & Htrans & ->).
  cbn [fst snd app].
  split; [reflexivity|]. split; [intros Hlen; by elim Hlen|].
  intros script' bucket' prefix' [= <- <- <-].
  cbn [fmap list_fmap Plan.path Plan.frame Plan.streaming_path Plan.init].
  split; [reflexivity|]. f_equal.
  destruct (transaction_frames (stream_prefix +:+ "-transactions"))
    as (transformed' & _ & _ & Htrans' & _ & _ & Hstream & _).
  rewrite Htrans in Htrans'. injection Htrans' as <-. exact Hstream.
Qed.

Lemma main_starts_one_query_witness :
  Plan.path <$> (Plan.main ["streaming_etl.py"; "bank"; "events"]%string).1
  = [Plan.streaming_path (Plan.init "bank" "events") +:+ "/transactions"]
  /\ (fun q => Plan.stream (Plan.frame q))
       <$> (Plan.main ["streaming_etl.py"; "bank"; "events"]%string).1
     = ["events" +:+ "-transactions"].
Proof.
  destruct (main_starts_one_query ["streaming_etl.py"; "bank"; "events"]%string)
    as (_ & _ & Hstarted).
  exact (Hstarted "streaming_etl.py" "bank" "events" eq_refl)%string.
Defined.

(** ** The transformations, row by row *)

Lemma ltrim_no_leading_space (s : string) : starts_with_space (ltrim s) = false.
Proof.
  induction s as [|c s IH]; [done|]. simpl.
  destruct (is_space c) eqn:Hc; [done|]. simpl. exact Hc.
Qed.

Lemma rtrim_keeps_head (s : string) :
  starts_with_space s = false -> starts_with_space (rtrim s) = false.
Proof.
  destruct s as [|c s]; [done|]. simpl. intros Hc.
  destruct (rtrim s); simpl; [by rewrite Hc|done].
Qed.

Lemma rtrim_no_trailing_space (s : string) : ends_with_space (rtrim s) = false.
Proof.
  induction s as [|c s IH]; [done|]. simpl.
  destruct (rtrim s) as [|c' r] eqn:Hr.
  - destruct (is_space c) eqn:Hc; [done|]. simpl. exact Hc.
  - exact IH.
Qed.

Lemma upper_starts_with_space (s : string) :
  starts_with_space (upper s) = starts_with_space s.
Proof. destruct s as [|c s]; [done|]. simpl. apply upper_char_space. Qed.

Lemma upper_ends_with_space (s : string) :
  ends_with_space (upper s) = ends_with_space s.
Proof.
  induction s as [|c s IH]; [done|]. simpl.
  destruct s as [|c' s]; simpl in *; [apply upper_char_space|exact IH].
Qed.

Lemma upper_char_not_lower (c : ascii) : is_lower (upper_char c) = false.
Proof. by destruct c as [[] [] [] [] [] [] [] []]. Qed.

Lemma upper_no_lower (s : string) :
  all_chars (fun x => negb (is_lower x)) (upper s) = true.
Proof.
  induction s as [|c s IH]; [done|]. simpl.
  by rewrite upper_char_not_lower, IH.
Qed.

Lemma upper_idemp (s : string) : upper (upper s) = upper s.
Proof.
  induction s as [|c s IH]; [done|]. simpl. by rewrite upper_char_idemp, IH.
Qed.

Lemma ltrim_id (s : string) : starts_with_space s = false -> ltrim s = s.
Proof. destruct s as [|c s]; [done|]. simpl. by intros ->. Qed.

Lemma rtrim_id (s : string) : ends_with_space s = false -> rtrim s = s.
Proof.
  induction s as [|c s IH]; [done|]. simpl.
  destruct s as [|c' s].
  - simpl. by intros ->.
  - intros Hs. by rewrite IH.
Qed.

Lemma trim_shape (s : string) :
  starts_with_space (trim s) = false /\ ends_with_space (trim s) = false.
Proof.
  unfold trim. split.
  - apply rtrim_keeps_head, ltrim_no_leading_space.
  - apply rtrim_no_trailing_space.
Qed.

Lemma trim_idemp (s : string) : trim (trim s) = trim s.
Proof.
  destruct (trim_shape s) as [Hl Hr]. unfold trim at 1.
  by rewrite ltrim_id, rtrim_id.
Qed.

Lemma normalize_code_normalized (c : option string) :
  normalized (normalize_code c).
Proof.
  destruct c as [s|]; [|done]. simpl.
  destruct (trim_shape s) as [Hl Hr].
  by rewrite upper_starts_with_space, upper_ends_with_space, upper_no_lower.
Qed.

Lemma normalize_code_idemp (c : option string) :
  normalize_code (normalize_code c) = normalize_code c.
Proof.
  destruct c as [s|]; [|done]. simpl.
  by rewrite <- (upper_trim (trim s)), trim_idemp, upper_idemp.
Qed.

(** X5.  After the transformations every code column is NULL or free of spaces
    at both ends and of lower-case letters, and transforming a transformed
    row again leaves its codes as they are. *)
Theorem transformed_codes_normalized (now : timestamp) :
  (forall r : Txn.Row option,
      normalized (Txn.country_code (Txn.base (Txn.apply_streaming_transformations now r)))
      /\ normalized (Txn.transaction_type (Txn.base (Txn.apply_streaming_transformations now r)))
      /\ normalized (Txn.sector (Txn.base (Txn.apply_streaming_transformations now r)))
      /\ Txn.apply_streaming_transformations now
           (Txn.base (Txn.apply_streaming_transformations now r))
         = Txn.apply_streaming_transformations now r)
  /\ (forall r : Rem.Row option,
      normalized (Rem.sender_country (Rem.base (Rem.apply_streaming_transformations now r)))
      /\ normalized (Rem.recipient_country (Rem.base (Rem.apply_streaming_transformations now r)))
      /\ Rem.apply_streaming_transformations now
           (Rem.base (Rem.apply_streaming_transformations now r))
         = Rem.apply_streaming_transformations now r).
Proof.
  split; intros r.
  - repeat split; try apply normalize_code_normalized.
    unfold Txn.apply_streaming_transformations. simpl.
    by rewrite !normalize_code_idemp.
  - repeat split; try apply normalize_code_normalized.
    unfold Rem.apply_streaming_transformations. simpl.
    by rewrite !normalize_code_idemp.
Qed.

Lemma holds_some (b : bool) : holds (Some b) = b.
Proof. by destruct b. Qed.

(** X6.  The risk flags are never NULL and compare strictly: for a whole-number
    amount (below [2 ^ 53] in magnitude) a transaction is flagged exactly
    when the amount exceeds 100000 and a remittance exactly when it exceeds
    50000, so the threshold itself is not flagged; a NULL amount is not
    flagged. *)
Theorem risk_flags_strict (now : timestamp) :
  (forall (r : Txn.Row option) (z : Z),
      Txn.amount r = Some (Double.of_Z z) -> Z.abs z < 2 ^ 53 ->
      Txn.high_value_flag (Txn.apply_streaming_transformations now r)
      = (100000 <? z))
  /\ (forall r : Txn.Row option,
      Txn.amount r = None ->
      Txn.high_value_flag (Txn.apply_streaming_transformations now r) = false)
  /\ (forall (r : Rem.Row option) (z : Z),
      Rem.amount r = Some (Double.of_Z z) -> Z.abs z < 2 ^ 53 ->
      Rem.large_remittance_flag (Rem.apply_streaming_transformations now r)
      = (50000 <? z))
  /\ (forall r : Rem.Row option,
      Rem.amount r = None ->
      Rem.large_remittance_flag (Rem.apply_streaming_transformations now r)
      = false).
Proof.
  split; [|split; [|split]].
  - intros r z Hr Hz. cbn [Txn.apply_streaming_transformations Txn.high_value_flag].
    rewrite Hr. change (high_value_transaction alert_thresholds) with 100000.
    unfold sql_gt. cbn [fmap option_fmap option_map]. rewrite holds_some.
    unfold Double.gtb. apply ltb_exact; [|done].
    change (Z.abs 100000) with 100000. lia.
  - intros r Hr. simpl. by rewrite Hr.
  - intros r z Hr Hz. cbn [Rem.apply_streaming_transformations Rem.large_remittance_flag].
    rewrite Hr. change (large_remittance alert_thresholds) with 50000.
    unfold sql_gt. cbn [fmap option_fmap option_map]. rewrite holds_some.
    unfold Double.gtb. apply ltb_exact; [|done].
    change (Z.abs 50000) with 50000. lia.
  - intros r Hr. simpl. by rewrite Hr.
Qed.

(** X7.  The total of a remittance is NULL exactly when its amount is; missing
    fees count as zero; for whole numbers (amount, fees and their sum below
    [2 ^ 53] in magnitude) the total is the exact sum. *)
Theorem total_amount_with_fees (now : timestamp) :
  (forall r : Rem.Row option,
      Rem.total_amount (Rem.apply_streaming_transformations now r) = None
      <-> Rem.amount r = None)
  /\ (forall (r : Rem.Row option) (a : Z),
      Rem.amount r = Some (Double.of_Z a) -> Rem.fees r = None ->
      Z.abs a < 2 ^ 53 ->
      Rem.total_amount (Rem.apply_streaming_transformations now r)
      = Some (Double.of_Z a))
  /\ (forall (r : Rem.Row option) (a f : Z),
      Rem.amount r = Some (Double.of_Z a) ->
      Rem.fees r = Some (Double.of_Z f) ->
      Z.abs a < 2 ^ 53 -> Z.abs f < 2 ^ 53 -> Z.abs (a + f) < 2 ^ 53 ->
      Rem.total_amount (Rem.apply_streaming_transformations now r)
      = Some (Double.of_Z (a + f))).
Proof.
  split; [|split].
  - intros r. simpl. by destruct (Rem.amount r).
  - intros r a Ha Hf Hb.
    cbn [Rem.apply_streaming_transformations Rem.total_amount].
    rewrite Ha, Hf. cbn -[Double.add Double.of_Z Z.pow]. rewrite (add_exact a 0) by (rewrite ?Z.add_0_r; lia).
    by rewrite Z.add_0_r.
  - intros r a f Ha Hf Hba Hbf Hb.
    cbn [Rem.apply_streaming_transformations Rem.total_amount].
    rewrite Ha, Hf. cbn -[Double.add Double.of_Z Z.pow]. by rewrite add_exact.
Qed.

(** ** From the records of a stream to rows and alerts *)

(** X9.  What a record that cannot be read turns into.  A transaction record
    whose amount and status are missing or unparsable, or that is no JSON
    object at all, raises no alert.  A remittance record whose exchange
    rate is missing or unparsable always raises exactly one alert, and one
    that is no JSON object raises MISSING_EXCHANGE_RATE under a NULL
    identifier. *)
Theorem unreadable_records_and_alerts (now : timestamp) :
  (forall payload : option (Txn.Row json_field),
      Txn.amount (Txn.from_json payload) = None ->
      Txn.status (Txn.from_json payload) = None ->
      txn_alerts_df now [payload] = [])
  /\ txn_alerts_df now [None] = []
  /\ (forall payload : option (Rem.Row json_field),
      Rem.exchange_rate (Rem.from_json payload) = None ->
      length (rem_alerts_df now [payload]) = 1%nat)
  /\ (fun a => (Rem.alert_remittance_id a, Rem.alert_type a))
       <$> rem_alerts_df now [None]
     = [(None, "MISSING_EXCHANGE_RATE"%string)].
Proof.
  split; [|split; [|split]]; try reflexivity.
  - intros payload Hamount Hstatus.
    unfold txn_alerts_df, txn_transformed_df, Txn.read_kinesis_stream,
      Txn.create_alert_stream.
    rewrite !fmap_cons, !fmap_nil, filter_cons_False; [done|].
    rewrite txn_alert_filter_holds.
    cbn [Txn.apply_streaming_transformations Txn.high_value_flag Txn.base
         Txn.status Txn.amount].
    rewrite Hamount, Hstatus. simpl. by intros [].
  - intros payload Hrate.
    unfold rem_alerts_df, rem_transformed_df, Rem.read_kinesis_stream,
      Rem.create_alert_stream.
    rewrite !fmap_cons, !fmap_nil, filter_cons_True; [done|].
    rewrite rem_alert_filter_holds.
    cbn [Rem.apply_streaming_transformations Rem.base Rem.exchange_rate].
    rewrite Hrate. cbn [sql_is_null holds]. by rewrite orb_true_r.
Qed.

(** ** The analytics queries: what is counted, kept and emitted *)

(** X10.  A transaction record whose [transaction_date] is missing or cannot be
    parsed (or that is no JSON object) takes no part in the windowed
    aggregation: the micro-batch that carries it leaves the same state,
    watermark and output rows as the micro-batch without it. *)
Theorem undated_records_not_aggregated (now : timestamp)
  (st : TxnAnalytics.State)
  (before after : list (option (Txn.Row json_field)))
  (payload : option (Txn.Row json_field)) :
  Txn.transaction_date (Txn.from_json payload) = None ->
  TxnAnalytics.create_real_time_analytics st
    (txn_transformed_df now (before ++ payload :: after))
  = TxnAnalytics.create_real_time_analytics st
      (txn_transformed_df now (before ++ after)).
Proof.
  intros Hdate. rewrite !create_real_time_analytics_eq.
  unfold txn_transformed_df, Txn.read_kinesis_stream.
  rewrite !fmap_app, !fmap_cons.
  by rewrite (null_time_row_ignored TxnAnalytics.event_time
                TxnAnalytics.group_key TxnAnalytics.init TxnAnalytics.update
                TxnAnalytics.merge).
Qed.

Lemma undated_records_not_aggregated_witness :
  TxnAnalytics.create_real_time_analytics state_at_12_10
    (txn_transformed_df 0 ([Some raw_without_amount] ++ None :: []))
  = TxnAnalytics.create_real_time_analytics state_at_12_10
      (txn_transformed_df 0 ([Some raw_without_amount] ++ [])).
Proof.
  apply (undated_records_not_aggregated
           0 state_at_12_10 [Some raw_without_amount] [] None).
  reflexivity.
Defined.



(** X12.  While the window of a group key is open (its end is above the
    watermark), a micro-batch leaves the key's buffer untouched if no row
    of the batch belongs to the key; otherwise it aggregates exactly those
    rows, in order of arrival and from the empty buffer, and merges the
    result into the buffer the key held, if any. *)
Theorem open_window_buffer_is_fold (st : TxnAnalytics.State)
  (df : list Txn.Transformed)
  (k : Z * Z * (option string * option string)) :
  watermark st < window_end k ->
  store (TxnAnalytics.create_real_time_analytics st df).1 !! k
  = match filter (fun t => k ∈ txn_window_keys t) df with
    | [] => store st !! k
    | rows =>
        Some match store st !! k with
             | Some held =>
                 TxnAnalytics.merge held (TxnAnalytics.aggregate rows)
             | None => TxnAnalytics.aggregate rows
             end
    end.
Proof.
  intros Hk. rewrite create_real_time_analytics_eq.
  apply (open_window_buffer TxnAnalytics.event_time TxnAnalytics.group_key
           TxnAnalytics.init TxnAnalytics.update TxnAnalytics.merge st df k Hk).
Qed.

Lemma open_window_buffer_is_fold_witness :
  store (TxnAnalytics.create_real_time_analytics
           state_at_12_10 [txn_12_20; txn_12_09_30]).1 !! key_12_06
  = match filter (fun t => key_12_06 ∈ txn_window_keys t)
                 [txn_12_20; txn_12_09_30] with
    | [] => store state_at_12_10 !! key_12_06
    | rows =>
        Some match store state_at_12_10 !! key_12_06 with
             | Some held =>
                 TxnAnalytics.merge held (TxnAnalytics.aggregate rows)
             | None => TxnAnalytics.aggregate rows
             end
    end.
Proof.
  apply (open_window_buffer_is_fold state_at_12_10
           [txn_12_20; txn_12_09_30] key_12_06).
  apply Z.ltb_lt. vm_compute. reflexivity.
Defined.

(** X13.  A micro-batch emits only rows of windows that had ended at or before
    the watermark it started with, and keeps buffers only for windows that
    end after it; the watermark it leaves is not below the one it started
    with. *)
Theorem emitted_windows_closed_kept_windows_open (st : TxnAnalytics.State)
  (df : list Txn.Transformed) :
  (forall row, row ∈ (TxnAnalytics.create_real_time_analytics st df).2 ->
      (TxnAnalytics.agg_window row).2 <= watermark st)
  /\ (forall k,
        is_Some (store (TxnAnalytics.create_real_time_analytics st df).1 !! k) ->
        watermark st < window_end k)
  /\ watermark st
     <= watermark (TxnAnalytics.create_real_time_analytics st df).1.
Proof.
  rewrite create_real_time_analytics_eq.
  destruct (micro_batch_partition TxnAnalytics.event_time
              TxnAnalytics.group_key TxnAnalytics.init TxnAnalytics.update
              TxnAnalytics.merge st df) as [Hout Hkept].
  split; [|split].
  - intros row Hrow. simpl in Hrow.
    apply list_elem_of_fmap in Hrow as ([[w [cc ty]] b] & -> & Hkv).
    apply (Hout _ Hkv).
  - apply Hkept.
  - exact (advance_ge TxnAnalytics.event_time (watermark st) df).
Qed.

Lemma update_first_ok (t : Txn.Transformed) :
  txn_buffer_ok (TxnAnalytics.update TxnAnalytics.init t).
Proof.
  unfold txn_buffer_ok, TxnAnalytics.update, TxnAnalytics.update_amount.
  destruct (Txn.amount (Txn.base t)); simpl; repeat split; try done; lia.
Qed.

Lemma update_next_ok (b : TxnAnalytics.Buffer) (t : Txn.Transformed) :
  txn_buffer_ok b -> txn_buffer_ok (TxnAnalytics.update b t).
Proof.
  unfold txn_buffer_ok, TxnAnalytics.update, TxnAnalytics.update_amount.
  intros (Hc & Hn & Hs & Hmax & Hmin).
  destruct (Txn.amount (Txn.base t)); simpl.
  - repeat split; try done; lia.
  - repeat split; try tauto; lia.
Qed.

Lemma merge_ok (a b : TxnAnalytics.Buffer) :
  txn_buffer_ok a -> txn_buffer_ok b -> txn_buffer_ok (TxnAnalytics.merge a b).
Proof.
  unfold txn_buffer_ok, TxnAnalytics.merge, TxnAnalytics.merge_sum.
  intros (Hc & Hn & Hs & Hmax & Hmin) (Hc' & Hn' & Hs' & Hmax' & Hmin').
  cbn [TxnAnalytics.buf_count TxnAnalytics.buf_sum TxnAnalytics.buf_n
       TxnAnalytics.buf_max TxnAnalytics.buf_min].
  split; [lia|]. split; [lia|].
  destruct (TxnAnalytics.buf_sum b), (TxnAnalytics.buf_max b),
    (TxnAnalytics.buf_min b);
    repeat split; intros; try done; try lia;
    try (assert (TxnAnalytics.buf_n b = 0) by tauto);
    try (assert (TxnAnalytics.buf_n b <> 0) by (intros ?; intuition congruence));
    try tauto; try lia.
  all: try (apply Hs; lia); try (apply Hmax; lia); try (apply Hmin; lia).
  all: try (assert (TxnAnalytics.buf_n a = 0) by tauto; lia).
Qed.

(** X14.  Every buffer the transaction query holds or has emitted, after any
    sequence of micro-batches, counts at least one row, counts no more
    non-NULL amounts than rows, and has a NULL sum, maximum and minimum
    exactly when it counts no non-NULL amount; so in every emitted row the
    count is at least one and the average, when not NULL, is the sum
    divided by a count of at least one. *)
Theorem analytics_buffers_well_formed
  (batches : list (list Txn.Transformed)) (df : list Txn.Transformed) :
  map_Forall (fun _ b => txn_buffer_ok b) (store (txn_run batches).1)
  /\ Forall (fun kv => txn_buffer_ok kv.2) (txn_run batches).2
  /\ Forall (fun row =>
        1 <= TxnAnalytics.transaction_count row
        /\ (TxnAnalytics.total_amount row = None
            <-> TxnAnalytics.max_amount row = None)
        /\ (TxnAnalytics.total_amount row = None
            <-> TxnAnalytics.min_amount row = None)
        /\ forall s, TxnAnalytics.total_amount row = Some s ->
             exists n, 1 <= n <= TxnAnalytics.transaction_count row
               /\ TxnAnalytics.avg_amount row
                  = Some (Double.div s (Double.of_Z n)))
       (TxnAnalytics.create_real_time_analytics (txn_run batches).1 df).2.
Proof.
  destruct (run_invariant TxnAnalytics.event_time TxnAnalytics.group_key
              TxnAnalytics.init TxnAnalytics.update TxnAnalytics.merge
              txn_buffer_ok update_first_ok update_next_ok merge_ok
              batches initial_state [])
    as [Hstore Hsink]; [done|constructor|].
  fold (txn_run batches) in Hstore, Hsink.
  split; [done|]. split; [done|].
  rewrite create_real_time_analytics_eq. cbn [fst snd].
  destruct (micro_batch_invariant TxnAnalytics.event_time
              TxnAnalytics.group_key TxnAnalytics.init TxnAnalytics.update
              TxnAnalytics.merge
              txn_buffer_ok update_first_ok update_next_ok merge_ok
              (txn_run batches).1 df Hstore) as [_ Hout].
  apply Forall_fmap. eapply Forall_impl; [exact Hout|].
  intros [[w [cc ty]] b] (Hc & Hn & Hs & Hmax & Hmin). simpl in *.
  split; [done|]. split; [tauto|]. split; [tauto|].
  intros s Hsum. exists (TxnAnalytics.buf_n b). split.
  - assert (TxnAnalytics.buf_n b <> 0) by (rewrite Hs, Hsum; done). lia.
  - by rewrite Hsum.
Qed.





(** X16.  The rate column of an analytics row is its count divided by five, and
    [high_frequency_flag] is set exactly when the count of the window is
    above fifty: the threshold of ten applies to the rate per minute, not
    to the count. *)
Theorem high_frequency_flag_above_50
  (kv : Z * Z * (option string * option string) * TxnAnalytics.Buffer) :
  0 <= TxnAnalytics.buf_count kv.2 < 2 ^ 53 ->
  TxnAnalytics.high_frequency_flag (TxnAnalytics.analytics_row kv)
  = (50 <? TxnAnalytics.buf_count kv.2)
  /\ TxnAnalytics.transaction_rate_per_minute (TxnAnalytics.analytics_row kv)
     = Double.div (Double.of_Z (TxnAnalytics.transaction_count
                                  (TxnAnalytics.analytics_row kv)))
                  (Double.of_Z 5).
Proof.
  destruct kv as [[w [cc ty]] b]. intros Hcount.
  cbn [TxnAnalytics.analytics_row TxnAnalytics.high_frequency_flag
       TxnAnalytics.transaction_rate_per_minute
       TxnAnalytics.transaction_count snd] in *.
  split; [|done].
  change (Double.of_Z (suspicious_frequency alert_thresholds))
    with (Double.of_Z 10).
  by apply rate_above_ten.
Qed.

Lemma high_frequency_flag_above_50_witness :
  TxnAnalytics.high_frequency_flag
    (TxnAnalytics.analytics_row
       (scenario_key, TxnAnalytics.aggregate scenario_batch))
  = (50 <? TxnAnalytics.buf_count
             (scenario_key, TxnAnalytics.aggregate scenario_batch).2)
  /\ TxnAnalytics.transaction_rate_per_minute
       (TxnAnalytics.analytics_row
          (scenario_key, TxnAnalytics.aggregate scenario_batch))
     = Double.div
         (Double.of_Z
            (TxnAnalytics.transaction_count
               (TxnAnalytics.analytics_row
                  (scenario_key, TxnAnalytics.aggregate scenario_batch))))
         (Double.of_Z 5).
Proof.
  apply (high_frequency_flag_above_50
           (scenario_key, TxnAnalytics.aggregate scenario_batch)).
  vm_compute. split; [discriminate|reflexivity].
Defined.

(** ** Instances *)

Lemma risk_flags_strict_witness :
  Txn.high_value_flag (Txn.apply_streaming_transformations 0 txn_150000)
  = (100000 <? 150000).
Proof.
  destruct (risk_flags_strict 0) as (Hflag & _).
  apply Hflag; [reflexivity|]. vm_compute. reflexivity.
Defined.

Lemma total_amount_with_fees_witness :
  Rem.total_amount
    (Rem.apply_streaming_transformations 0 remittance_without_rate)
  = Some (Double.of_Z 100).
Proof.
  destruct (total_amount_with_fees 0) as (_ & Hnofees & _).
  apply Hnofees; [reflexivity|reflexivity|]. vm_compute. reflexivity.
Defined.

Lemma unreadable_records_and_alerts_witness :
  length (rem_alerts_df 0 [Some
    {| Rem.remittance_id := Parsed "R-3"%string;
       Rem.sender_country := Parsed "us"%string;
       Rem.recipient_country := Parsed "hn"%string;
       Rem.amount := Parsed (Double.of_Z 100);
       Rem.currency := Parsed "USD"%string;
       Rem.exchange_rate := Unparsable;
       Rem.fees := Absent;
       Rem.transaction_date := Parsed (at_clock 19723 12 3 30);
       Rem.sender_id := Absent;
       Rem.recipient_id := Absent;
       Rem.status := Parsed "SUCCESS"%string;
       Rem.processing_timestamp := Absent |}]) = 1%nat.
Proof.
  destruct (unreadable_records_and_alerts 0) as (_ & _ & Hrate & _).
  apply Hrate. reflexivity.
Defined.

